(** * A shallow embedding of the TUN reconciliation engine of clash-cli
    (src/tun.rs): the state file codec, the YAML configuration helpers,
    the rule backends driven against a model of the firewall tools, and
    the [on] / [off] / [status] / [doctor] command handlers. *)

From Stdlib Require Import List ZArith NArith String Ascii Bool Lia.
From Stdlib Require Import Sorted.
Import ListNotations.

(* ================================================================= *)
(** ** Rust strings and the [str] methods used by tun.rs *)

(** A Rust [String] / [&str] is modelled as its sequence of Unicode
    scalar values. *)
Definition rstr := list N.

(** An ASCII literal as an [rstr]. *)
Definition rs (s : string) : rstr :=
  map (fun a => N_of_ascii a) (list_ascii_of_string s).

Fixpoint rstr_eqb (a b : rstr) : bool :=
  match a, b with
  | [], [] => true
  | x :: a', y :: b' => (x =? y)%N && rstr_eqb a' b'
  | _, _ => false
  end.

(** [char::is_whitespace]: the Unicode White_Space property. *)
Definition is_whitespace (c : N) : bool :=
  ((9 <=? c) && (c <=? 13))%N || (c =? 32)%N || (c =? 133)%N
  || (c =? 160)%N || (c =? 5760)%N
  || ((8192 <=? c) && (c <=? 8202))%N
  || (c =? 8232)%N || (c =? 8233)%N || (c =? 8239)%N
  || (c =? 8287)%N || (c =? 12288)%N.

Fixpoint trim_start (s : rstr) : rstr :=
  match s with
  | c :: r => if is_whitespace c then trim_start r else s
  | [] => []
  end.

Definition trim_end (s : rstr) : rstr := rev (trim_start (rev s)).

(** [str::trim] *)
Definition trim (s : rstr) : rstr := trim_end (trim_start s).

(** [str::lines]: [split_inclusive('\n')], then strip a trailing
    ["\n"] and, after it, a trailing ["\r"]. A last piece that does not
    end in ['\n'] is returned unchanged. *)
Definition strip_cr (line : rstr) : rstr :=
  match rev line with
  | c :: r => if (c =? 13)%N then rev r else line
  | [] => line
  end.

Fixpoint lines_go (cur : rstr) (s : rstr) : list rstr :=
  match s with
  | [] => match cur with [] => [] | _ => [rev cur] end
  | c :: r =>
      if (c =? 10)%N then strip_cr (rev cur) :: lines_go [] r
      else lines_go (c :: cur) r
  end.

Definition lines (s : rstr) : list rstr := lines_go [] s.

(** [s.splitn(2, sep)]: the part before the first [sep] and, if there
    is one, the part after it. *)
Fixpoint split_once (sep : N) (s : rstr) : rstr * option rstr :=
  match s with
  | [] => ([], None)
  | c :: r =>
      if (c =? sep)%N then ([], Some r)
      else let (a, b) := split_once sep r in (c :: a, b)
  end.

(** [str::strip_prefix] *)
Fixpoint strip_prefix (p s : rstr) : option rstr :=
  match p, s with
  | [], _ => Some s
  | x :: p', y :: s' => if (x =? y)%N then strip_prefix p' s' else None
  | _ :: _, [] => None
  end.

(** [char::to_digit(radix)] *)
Definition to_digit (radix c : N) : option N :=
  let d :=
    if ((48 <=? c) && (c <=? 57))%N then Some (c - 48)%N
    else if ((97 <=? c) && (c <=? 122))%N then Some (c - 97 + 10)%N
    else if ((65 <=? c) && (c <=? 90))%N then Some (c - 65 + 10)%N
    else None in
  match d with
  | Some v => if (v <? radix)%N then Some v else None
  | None => None
  end.

Fixpoint digits_value (radix acc : N) (s : rstr) : option N :=
  match s with
  | [] => Some acc
  | c :: r =>
      match to_digit radix c with
      | Some d => digits_value radix (acc * radix + d)%N r
      | None => None
      end
  end.

(** [uN::from_str_radix] for an unsigned type of [bits] bits: a lone
    sign is rejected, one leading ['+'] is accepted, ['-'] is an invalid
    digit, and the value must fit the type. The running value only
    grows, so checking the final value is the same as Rust's checked
    multiply-add at every digit. *)
Definition parse_uint (radix bits : N) (s : rstr) : option N :=
  let ds :=
    match s with
    | [] => None
    | c :: r =>
        if ((c =? 43) || (c =? 45))%N && match r with [] => true | _ => false end
        then None
        else if (c =? 43)%N then Some r else Some s
    end in
  match ds with
  | None => None
  | Some ds =>
      match digits_value radix 0 ds with
      | Some v => if (v <? 2 ^ bits)%N then Some v else None
      | None => None
      end
  end.

Definition parse_u16 := parse_uint 10 16.
Definition parse_u64 := parse_uint 10 64.

(** [Display] of an unsigned integer. [fuel] bounds the number of
    digits; 20 digits cover every [u64]. *)
Fixpoint show_digits (fuel : nat) (n : N) (acc : rstr) : rstr :=
  match fuel with
  | O => acc
  | S f =>
      let acc' := (48 + n mod 10)%N :: acc in
      if (n / 10 =? 0)%N then acc' else show_digits f (n / 10) acc'
  end.

Definition show_N (n : N) : rstr := show_digits 20 n [].

Definition show_bool (b : bool) : rstr := if b then rs "true" else rs "false".

(* ================================================================= *)
(** ** Errors: [anyhow::Result] *)

(** An [anyhow::Error] is its chain of messages, outermost context
    first. *)
Definition error := list string.

Inductive result (A : Type) : Type :=
| Ok : A -> result A
| Err : error -> result A.
Arguments Ok {A} _.
Arguments Err {A} _.

(** [.context(msg)] on an [Option] *)
Definition opt_context {A} (o : option A) (msg : string) : result A :=
  match o with Some a => Ok a | None => Err [msg] end.

(* ================================================================= *)
(** ** [RuleBackend] and [TunState] *)

Inductive RuleBackend := Nft | Iptables | BNone.

Definition RuleBackend_eqb (a b : RuleBackend) : bool :=
  match a, b with
  | Nft, Nft | Iptables, Iptables | BNone, BNone => true
  | _, _ => false
  end.

Definition as_str (b : RuleBackend) : rstr :=
  match b with
  | Nft => rs "nft"
  | Iptables => rs "iptables"
  | BNone => rs "none"
  end.

Definition from_str (v : rstr) : RuleBackend :=
  if rstr_eqb v (rs "nft") then Nft
  else if rstr_eqb v (rs "iptables") then Iptables
  else BNone.

Definition DEFAULT_REDIR_PORT : N := 7892.

(** [redir_port] is a [u16] and [updated_at] a [u64]. *)
Record TunState := {
  enabled : bool;
  service_name : rstr;
  user_service : bool;
  backend : RuleBackend;
  redir_port : N;
  rules_applied : bool;
  updated_at : N
}.

Definition to_text (st : TunState) : rstr :=
  rs "enabled=" ++ show_bool (enabled st) ++ [10%N]
  ++ rs "service_name=" ++ service_name st ++ [10%N]
  ++ rs "user_service=" ++ show_bool (user_service st) ++ [10%N]
  ++ rs "backend=" ++ as_str (backend st) ++ [10%N]
  ++ rs "redir_port=" ++ show_N (redir_port st) ++ [10%N]
  ++ rs "rules_applied=" ++ show_bool (rules_applied st) ++ [10%N]
  ++ rs "updated_at=" ++ show_N (updated_at st) ++ [10%N].

(** The seven [let mut ... = None] locals of [TunState::from_text]. *)
Record ParseAcc := {
  p_enabled : option bool;
  p_service_name : option rstr;
  p_user_service : option bool;
  p_backend : option RuleBackend;
  p_redir_port : option N;
  p_rules_applied : option bool;
  p_updated_at : option N
}.

Definition acc0 : ParseAcc := Build_ParseAcc None None None None None None None.

(** [let mut parts = line.splitn(2, '=');
     let key = parts.next().unwrap_or_default().trim();
     let value = parts.next().unwrap_or_default().trim();] *)
Definition line_key (line : rstr) : rstr := trim (fst (split_once 61 line)).
Definition line_value (line : rstr) : rstr :=
  trim (match snd (split_once 61 line) with Some x => x | None => [] end).

(** The [match key { ... }] of the loop body. *)
Definition parse_kv (a : ParseAcc) (key value : rstr) : result ParseAcc :=
  let is_true := rstr_eqb value (rs "true") in
  if rstr_eqb key (rs "enabled") then
    Ok {| p_enabled := Some is_true; p_service_name := p_service_name a;
          p_user_service := p_user_service a; p_backend := p_backend a;
          p_redir_port := p_redir_port a; p_rules_applied := p_rules_applied a;
          p_updated_at := p_updated_at a |}
  else if rstr_eqb key (rs "service_name") then
    Ok {| p_enabled := p_enabled a; p_service_name := Some value;
          p_user_service := p_user_service a; p_backend := p_backend a;
          p_redir_port := p_redir_port a; p_rules_applied := p_rules_applied a;
          p_updated_at := p_updated_at a |}
  else if rstr_eqb key (rs "user_service") then
    Ok {| p_enabled := p_enabled a; p_service_name := p_service_name a;
          p_user_service := Some is_true; p_backend := p_backend a;
          p_redir_port := p_redir_port a; p_rules_applied := p_rules_applied a;
          p_updated_at := p_updated_at a |}
  else if rstr_eqb key (rs "backend") then
    Ok {| p_enabled := p_enabled a; p_service_name := p_service_name a;
          p_user_service := p_user_service a; p_backend := Some (from_str value);
          p_redir_port := p_redir_port a; p_rules_applied := p_rules_applied a;
          p_updated_at := p_updated_at a |}
  else if rstr_eqb key (rs "redir_port") then
    match parse_u16 value with
    | Some n =>
        Ok {| p_enabled := p_enabled a; p_service_name := p_service_name a;
              p_user_service := p_user_service a; p_backend := p_backend a;
              p_redir_port := Some n; p_rules_applied := p_rules_applied a;
              p_updated_at := p_updated_at a |}
    | None => Err ["解析 tun.state.redir_port 失败"%string]
    end
  else if rstr_eqb key (rs "rules_applied") then
    Ok {| p_enabled := p_enabled a; p_service_name := p_service_name a;
          p_user_service := p_user_service a; p_backend := p_backend a;
          p_redir_port := p_redir_port a; p_rules_applied := Some is_true;
          p_updated_at := p_updated_at a |}
  else if rstr_eqb key (rs "updated_at") then
    match parse_u64 value with
    | Some n =>
        Ok {| p_enabled := p_enabled a; p_service_name := p_service_name a;
              p_user_service := p_user_service a; p_backend := p_backend a;
              p_redir_port := p_redir_port a; p_rules_applied := p_rules_applied a;
              p_updated_at := Some n |}
    | None => Err ["解析 tun.state.updated_at 失败"%string]
    end
  else Ok a.

(** One iteration of the [for line in content.lines()] loop. *)
Definition parse_line (a : ParseAcc) (line : rstr) : result ParseAcc :=
  parse_kv a (line_key line) (line_value line).

Fixpoint parse_lines (a : ParseAcc) (ls : list rstr) : result ParseAcc :=
  match ls with
  | [] => Ok a
  | l :: r =>
      match parse_line a l with
      | Ok a' => parse_lines a' r
      | Err e => Err e
      end
  end.

(** The final [Ok(Self { ... })]: fields are evaluated in order and the
    first missing required one is reported. *)
Definition finish (a : ParseAcc) : result TunState :=
  match opt_context (p_enabled a) "tun.state 缺少 enabled" with
  | Err e => Err e
  | Ok en =>
  match opt_context (p_service_name a) "tun.state 缺少 service_name" with
  | Err e => Err e
  | Ok sn =>
  match opt_context (p_user_service a) "tun.state 缺少 user_service" with
  | Err e => Err e
  | Ok us =>
  match opt_context (p_updated_at a) "tun.state 缺少 updated_at" with
  | Err e => Err e
  | Ok ts =>
      Ok {| enabled := en; service_name := sn; user_service := us;
            backend := match p_backend a with Some b => b | None => BNone end;
            redir_port := match p_redir_port a with Some p => p | None => DEFAULT_REDIR_PORT end;
            rules_applied := match p_rules_applied a with Some r => r | None => false end;
            updated_at := ts |}
  end end end end.

Definition from_text (content : rstr) : result TunState :=
  match parse_lines acc0 (lines content) with
  | Ok a => finish a
  | Err e => Err e
  end.

(* ================================================================= *)
(** ** Views of the state file used in the statements *)

(** The text written by [to_text] is a sequence of newline-terminated
    lines. *)
Definition join_lines (ls : list rstr) : rstr := flat_map (fun l => l ++ [10%N]) ls.

(** A line [k=v] as [to_text] writes it. *)
Definition kv (k : string) (v : rstr) : rstr := rs k ++ 61%N :: v.

Definition state_key (k : string) : Prop :=
  ~ In 61%N (rs k) /\ trim (rs k) = rs k.

(** The conditions under which a service name survives the state file:
    no newline, and no white space at either end. *)
Definition service_name_ok (s : rstr) : Prop :=
  ~ In 10%N s /\
  (forall c, hd_error s = Some c -> is_whitespace c = false) /\
  (forall c, hd_error (rev s) = Some c -> is_whitespace c = false).

(** The type invariants of [TunState]'s [u16] and [u64] fields. *)
Definition state_wf (st : TunState) : Prop :=
  (redir_port st < 2 ^ 16)%N /\ (updated_at st < 2 ^ 64)%N.

(** [content] has a line whose key is [k]. *)
Definition has_key (content k : rstr) : bool :=
  existsb (fun l => rstr_eqb (line_key l) k) (lines content).

Definition is_some {A} (o : option A) : bool := match o with Some _ => true | None => false end.

(* ================================================================= *)
(** ** The system the tool drives: firewall tools, files, services *)

Local Open Scope string_scope.

Definition NFT_TABLE_NAME : string := "clash_cli_tun".
Definition IPT_CHAIN_NAME : string := "CLASH_CLI_TUN".

(** The three jump rules into the custom chain that tun.rs creates,
    probes or deletes: [PREROUTING -p tcp -j CHAIN], the owner-restricted
    [OUTPUT -p tcp -m owner ! --uid-owner 0 -j CHAIN], and the plain
    [OUTPUT -p tcp -j CHAIN] that cleanup also removes. *)
Inductive JumpKind := JPre | JOutOwner | JOut.

(** The argument vector of a jump-rule command ([op] is [-A], [-C] or
    [-D]), exactly as written in [ensure_iptables_jump],
    [cleanup_iptables_jump] and [iptables_rules_active]. *)
Definition jump_rule (op hook : string) (non_root_only : bool) : list string :=
  if non_root_only then
    ["-t"; "nat"; op; hook; "-p"; "tcp"; "-m"; "owner"; "!"; "--uid-owner"; "0";
     "-j"; IPT_CHAIN_NAME]
  else ["-t"; "nat"; op; hook; "-p"; "tcp"; "-j"; IPT_CHAIN_NAME].

Definition jump_of (hook : string) (non_root_only : bool) : option JumpKind :=
  if String.eqb hook "PREROUTING" then if non_root_only then None else Some JPre
  else if String.eqb hook "OUTPUT" then Some (if non_root_only then JOutOwner else JOut)
  else None.

(** The nat table of one of [iptables] / [ip6tables], as far as tun.rs
    touches it: the custom chain (absent, or its rules) and the number of
    copies of each jump rule. *)
Record IptState := {
  chain : option (list (list string));
  pre_jumps : nat;
  out_owner_jumps : nat;
  out_jumps : nat
}.

Definition jumps (t : IptState) (k : JumpKind) : nat :=
  match k with JPre => pre_jumps t | JOutOwner => out_owner_jumps t | JOut => out_jumps t end.

Definition set_jumps (t : IptState) (k : JumpKind) (n : nat) : IptState :=
  match k with
  | JPre => {| chain := chain t; pre_jumps := n; out_owner_jumps := out_owner_jumps t; out_jumps := out_jumps t |}
  | JOutOwner => {| chain := chain t; pre_jumps := pre_jumps t; out_owner_jumps := n; out_jumps := out_jumps t |}
  | JOut => {| chain := chain t; pre_jumps := pre_jumps t; out_owner_jumps := out_owner_jumps t; out_jumps := n |}
  end.

Definition set_chain (t : IptState) (c : option (list (list string))) : IptState :=
  {| chain := c; pre_jumps := pre_jumps t; out_owner_jumps := out_owner_jumps t; out_jumps := out_jumps t |}.

Definition ipt_empty : IptState := Build_IptState None 0 0 0.

(** A JSON document written by [print_json]; only the fields the
    statements look at are kept. *)
Inductive JsonOut :=
| JOnFailed (err : string) (rolled_back : bool)
| JOnOk (backend : RuleBackend) (redir_port : N) (rules_applied : bool)
| JOffOk (redir_port : N)
| JStatus (tun_enable device_ok rules_active service_active actual_ok : bool)
| JDoctor (ok : bool) (pass warn fail : nat).

(** The file system operations of the runtime files: creating the
    parent directory, writing and reading [config.yaml] and [tun.state]. *)
Inductive IoOp := MkConfigDir | WriteConfig | ReadConfig | MkStateDir | WriteState | ReadState.

Definition IoOp_eqb (a b : IoOp) : bool :=
  match a, b with
  | MkConfigDir, MkConfigDir | WriteConfig, WriteConfig | ReadConfig, ReadConfig
  | MkStateDir, MkStateDir | WriteState, WriteState | ReadState, ReadState => true
  | _, _ => false
  end.

Record World := {
  tools : list string;                  (** binaries on the PATH *)
  faults : list (string * list string); (** invocations that exit non-zero for reasons outside this model *)
  nft_table : bool;                     (** [table inet clash_cli_tun] exists *)
  ipt4 : IptState;
  ipt6 : IptState;
  active_units : list (bool * string);  (** (user scope, unit) of running systemd units *)
  dev_net_tun : bool;                   (** [/dev/net/tun] exists *)
  config_file : option rstr;            (** runtime config.yaml *)
  state_file : option rstr;             (** runtime tun.state *)
  clock : N;                            (** [now_unix()] *)
  printed : list JsonOut;               (** JSON documents printed, latest first *)
  io_faults : list IoOp;                (** file operations that fail (permissions, an immutable
                                            or read-only file, a full disk, text that is not UTF-8) *)
  crashing_units : list (bool * string) (** (user scope, unit) whose process exits right after
                                            it is started ([Type=simple]: [restart] still succeeds) *)
}.

Definition with_nft_table (w : World) (b : bool) : World :=
  {| tools := tools w; faults := faults w; nft_table := b; ipt4 := ipt4 w; ipt6 := ipt6 w;
     active_units := active_units w; dev_net_tun := dev_net_tun w; config_file := config_file w;
     state_file := state_file w; clock := clock w; printed := printed w; io_faults := io_faults w; crashing_units := crashing_units w |}.

Definition ipt_of (w : World) (binary : string) : IptState :=
  if String.eqb binary "ip6tables" then ipt6 w else ipt4 w.

Definition with_ipt (w : World) (binary : string) (t : IptState) : World :=
  {| tools := tools w; faults := faults w; nft_table := nft_table w;
     ipt4 := if String.eqb binary "ip6tables" then ipt4 w else t;
     ipt6 := if String.eqb binary "ip6tables" then t else ipt6 w;
     active_units := active_units w; dev_net_tun := dev_net_tun w; config_file := config_file w;
     state_file := state_file w; clock := clock w; printed := printed w; io_faults := io_faults w; crashing_units := crashing_units w |}.

Definition with_units (w : World) (u : list (bool * string)) : World :=
  {| tools := tools w; faults := faults w; nft_table := nft_table w; ipt4 := ipt4 w; ipt6 := ipt6 w;
     active_units := u; dev_net_tun := dev_net_tun w; config_file := config_file w;
     state_file := state_file w; clock := clock w; printed := printed w; io_faults := io_faults w; crashing_units := crashing_units w |}.

Definition with_config (w : World) (c : option rstr) : World :=
  {| tools := tools w; faults := faults w; nft_table := nft_table w; ipt4 := ipt4 w; ipt6 := ipt6 w;
     active_units := active_units w; dev_net_tun := dev_net_tun w; config_file := c;
     state_file := state_file w; clock := clock w; printed := printed w; io_faults := io_faults w; crashing_units := crashing_units w |}.

Definition with_state (w : World) (s : option rstr) : World :=
  {| tools := tools w; faults := faults w; nft_table := nft_table w; ipt4 := ipt4 w; ipt6 := ipt6 w;
     active_units := active_units w; dev_net_tun := dev_net_tun w; config_file := config_file w;
     state_file := s; clock := clock w; printed := printed w; io_faults := io_faults w; crashing_units := crashing_units w |}.

Definition with_print (w : World) (j : JsonOut) : World :=
  {| tools := tools w; faults := faults w; nft_table := nft_table w; ipt4 := ipt4 w; ipt6 := ipt6 w;
     active_units := active_units w; dev_net_tun := dev_net_tun w; config_file := config_file w;
     state_file := state_file w; clock := clock w; printed := j :: printed w; io_faults := io_faults w; crashing_units := crashing_units w |}.

Fixpoint strs_eqb (a b : list string) : bool :=
  match a, b with
  | [], [] => true
  | x :: a', y :: b' => String.eqb x y && strs_eqb a' b'
  | _, _ => false
  end.

Definition io_fails (w : World) (op : IoOp) : bool := existsb (IoOp_eqb op) (io_faults w).

Definition installed (w : World) (prog : string) : bool :=
  existsb (String.eqb prog) (tools w).

Definition faulty (w : World) (prog : string) (args : list string) : bool :=
  existsb (fun pa => String.eqb (fst pa) prog && strs_eqb (snd pa) args) (faults w).

(** Outcome of spawning a process: the binary is missing, or it ran and
    exited with success or failure. *)
Inductive ExecOut := NotFound | Exited (success : bool).

Definition ok_if (b : bool) (w : World) : ExecOut * World := (Exited b, w).

(** What one [iptables] / [ip6tables] invocation does to the nat table. *)
Definition exec_iptables (w : World) (binary : string) (args : list string) : ExecOut * World :=
  let t := ipt_of w binary in
  let jump op :=
    if strs_eqb args (jump_rule op "PREROUTING" false) then Some JPre
    else if strs_eqb args (jump_rule op "OUTPUT" true) then Some JOutOwner
    else if strs_eqb args (jump_rule op "OUTPUT" false) then Some JOut
    else None in
  match jump "-A", jump "-C", jump "-D" with
  | Some k, _, _ =>
      match chain t with
      | Some _ => (Exited true, with_ipt w binary (set_jumps t k (S (jumps t k))))
      | None => ok_if false w
      end
  | _, Some k, _ => ok_if (Nat.ltb 0 (jumps t k)) w
  | _, _, Some k =>
      match jumps t k with
      | S n => (Exited true, with_ipt w binary (set_jumps t k n))
      | O => ok_if false w
      end
  | None, None, None =>
      if strs_eqb args ["--version"] || strs_eqb args ["-V"] then ok_if true w
      else if strs_eqb args ["-t"; "nat"; "-N"; IPT_CHAIN_NAME] then
        match chain t with
        | None => (Exited true, with_ipt w binary (set_chain t (Some [])))
        | Some _ => ok_if false w
        end
      else if strs_eqb args ["-t"; "nat"; "-F"; IPT_CHAIN_NAME] then
        match chain t with
        | Some _ => (Exited true, with_ipt w binary (set_chain t (Some [])))
        | None => ok_if false w
        end
      else if strs_eqb args ["-t"; "nat"; "-X"; IPT_CHAIN_NAME] then
        match chain t, pre_jumps t, out_owner_jumps t, out_jumps t with
        | Some [], O, O, O => (Exited true, with_ipt w binary (set_chain t None))
        | _, _, _, _ => ok_if false w
        end
      else if strs_eqb (firstn 4 args) ["-t"; "nat"; "-A"; IPT_CHAIN_NAME] then
        match chain t with
        | Some rules => (Exited true, with_ipt w binary (set_chain t (Some (app rules [skipn 4 args]))))
        | None => ok_if false w
        end
      else ok_if false w
  end.

(** What one [nft] invocation does. [nft -f -] loads the script given on
    standard input, which defines the tool's table. *)
Definition exec_nft (w : World) (args : list string) : ExecOut * World :=
  if strs_eqb args ["--version"] || strs_eqb args ["-V"] then ok_if true w
  else if strs_eqb args ["list"; "table"; "inet"; NFT_TABLE_NAME] then ok_if (nft_table w) w
  else if strs_eqb args ["delete"; "table"; "inet"; NFT_TABLE_NAME] then
    if nft_table w then (Exited true, with_nft_table w false) else ok_if false w
  else if strs_eqb args ["-f"; "-"] then (Exited true, with_nft_table w true)
  else ok_if false w.

(** What one [systemctl] invocation does. [restart] of a unit succeeds
    once the unit is started ([Type=simple]); a unit whose process exits
    right away is inactive afterwards. A unit [systemctl] does not know is
    an outside fault. [is-active --quiet] succeeds exactly when the unit
    is active in that scope. *)
Definition exec_systemctl (w : World) (args : list string) : ExecOut * World :=
  let same user unit (u : bool * string) := Bool.eqb (fst u) user && String.eqb (snd u) unit in
  let scoped user rest :=
    match rest with
    | [cmd; unit] =>
        if String.eqb cmd "restart"
        then (Exited true,
              if existsb (same user unit) (crashing_units w)
              then with_units w (filter (fun u => negb (same user unit u)) (active_units w))
              else with_units w ((user, unit) :: active_units w))
        else ok_if false w
    | [cmd; q; unit] =>
        if String.eqb cmd "is-active" && String.eqb q "--quiet"
        then ok_if (existsb (fun u => Bool.eqb (fst u) user && String.eqb (snd u) unit)
                      (active_units w)) w
        else ok_if false w
    | _ => ok_if false w
    end in
  if strs_eqb args ["--version"] || strs_eqb args ["-V"] then ok_if true w
  else match args with
       | u :: rest => if String.eqb u "--user" then scoped true rest else scoped false args
       | [] => ok_if false w
       end.

(** [Command::new(prog).args(args)] run to completion. *)
Definition exec (w : World) (prog : string) (args : list string) : ExecOut * World :=
  if negb (installed w prog) then (NotFound, w)
  else if faulty w prog args then (Exited false, w)
  else if String.eqb prog "nft" then exec_nft w args
  else if String.eqb prog "iptables" || String.eqb prog "ip6tables" then exec_iptables w prog args
  else if String.eqb prog "systemctl" then exec_systemctl w args
  else ok_if true w.

(* ================================================================= *)
(** ** A state and error monad over the world *)

Definition M (A : Type) : Type := World -> result A * World.

Definition ret {A} (a : A) : M A := fun w => (Ok a, w).

Definition bind {A B} (m : M A) (k : A -> M B) : M B :=
  fun w => match m w with
           | (Ok a, w') => k a w'
           | (Err e, w') => (Err e, w')
           end.

Notation "x <- m ;; k" := (bind m (fun x => k))
  (at level 61, m at next level, right associativity).
Notation "m ;;; k" := (bind m (fun _ => k))
  (at level 61, right associativity).

(** [bail!(msg)] *)
Definition bail {A} (msg : string) : M A := fun w => (Err [msg], w).

Definition raise {A} (e : error) : M A := fun w => (Err e, w).

(** [.context(msg)] / [.with_context(...)] on a [Result] *)
Definition context {A} (msg : string) (m : M A) : M A :=
  fun w => match m w with
           | (Err e, w') => (Err (msg :: e), w')
           | o => o
           end.

(** Run [m] and hand its [Result] to the caller instead of propagating
    an error ([match m { Ok(..) => .., Err(e) => .. }]). *)
Definition catch {A} (m : M A) : M (result A) :=
  fun w => let (r, w') := m w in (Ok r, w').

(** [let _ = m;] *)
Definition ignore {A} (m : M A) : M unit := fun w => (Ok tt, snd (m w)).

(* ================================================================= *)
(** ** Process helpers of tun.rs *)

Definition check_cmd_success (program : string) (args : list string) : M bool :=
  fun w => match exec w program args with
           | (Exited true, w') => (Ok true, w')
           | (_, w') => (Ok false, w')
           end.

Definition run_cmd (program : string) (args : list string) : M unit :=
  fun w => match exec w program args with
           | (NotFound, w') => (Err ["执行命令失败"%string], w')
           | (Exited false, w') => (Err ["命令执行失败"%string], w')
           | (Exited true, w') => (Ok tt, w')
           end.

(** [run_cmd_with_stdin]: the standard input is the script; the model of
    [nft -f -] does not inspect it. *)
Definition run_cmd_with_stdin (program : string) (args : list string) (input : string) : M unit :=
  fun w => match exec w program args with
           | (NotFound, w') => (Err ["启动命令失败"%string], w')
           | (Exited false, w') => (Err ["命令执行失败"%string], w')
           | (Exited true, w') => (Ok tt, w')
           end.

Definition command_exists (binary : string) : M bool :=
  a <- check_cmd_success binary ["--version"] ;;
  if a then ret true else check_cmd_success binary ["-V"].

(* ================================================================= *)
(** ** The rule backends *)

Definition string_of_rstr (s : rstr) : string :=
  string_of_list_ascii (map ascii_of_N s).

Definition show_port (p : N) : string := string_of_rstr (show_N p).

Definition private_ipv4 : list string :=
  ["127.0.0.0/8"; "10.0.0.0/8"; "172.16.0.0/12"; "192.168.0.0/16"; "198.18.0.0/15";
   "224.0.0.0/4"; "240.0.0.0/4"].
Definition private_ipv6 : list string := ["::1/128"; "fc00::/7"; "fe80::/10"; "ff00::/8"].

Definition nft_script (port : N) : string :=
  let p := show_port port in
  let chain_body :=
    "    ip daddr { 127.0.0.0/8, 10.0.0.0/8, 172.16.0.0/12, 192.168.0.0/16, 198.18.0.0/15, 224.0.0.0/4, 240.0.0.0/4 } return
    ip6 daddr { ::1/128, fc00::/7, fe80::/10, ff00::/8 } return
    tcp dport { 7890, 7891, 9090, " ++ p ++ " } return
    meta l4proto tcp redirect to :" ++ p ++ "
  }
" in
  "table inet " ++ NFT_TABLE_NAME ++ " {
  chain prerouting {
    type nat hook prerouting priority dstnat; policy accept;
" ++ chain_body ++ "  chain output {
    type nat hook output priority -100; policy accept;
    meta skuid 0 return
" ++ chain_body ++ "}".

Definition nft_rules_active : M bool :=
  e <- command_exists "nft" ;;
  if e then check_cmd_success "nft" ["list"; "table"; "inet"; NFT_TABLE_NAME] else ret false.

Definition iptables_rules_active : M bool :=
  e4 <- command_exists "iptables" ;;
  v4 <- (if e4 then
           a <- check_cmd_success "iptables" (jump_rule "-C" "PREROUTING" false) ;;
           if a then ret true else check_cmd_success "iptables" (jump_rule "-C" "OUTPUT" true)
         else ret false) ;;
  e6 <- command_exists "ip6tables" ;;
  v6 <- (if e6 then
           a <- check_cmd_success "ip6tables" (jump_rule "-C" "PREROUTING" false) ;;
           if a then ret true else check_cmd_success "ip6tables" (jump_rule "-C" "OUTPUT" true)
         else ret false) ;;
  ret (v4 || v6).

Definition select_rule_backend : M RuleBackend :=
  n <- command_exists "nft" ;;
  if n then ret Nft else
  i <- command_exists "iptables" ;;
  if i then ret Iptables else
  bail "未检测到 nft/iptables，无法下发 tun 数据面规则".

Definition detect_active_rule_backend : M RuleBackend :=
  n <- nft_rules_active ;;
  if n then ret Nft else
  i <- iptables_rules_active ;;
  if i then ret Iptables else ret BNone.

Definition apply_nft_rules (redir_port : N) : M unit :=
  e <- command_exists "nft" ;;
  if negb e then bail "未检测到 nft 命令" else
  ignore (run_cmd "nft" ["delete"; "table"; "inet"; NFT_TABLE_NAME]) ;;;
  run_cmd_with_stdin "nft" ["-f"; "-"] (nft_script redir_port) ;;;
  a <- nft_rules_active ;;
  if negb a then bail "nft 规则下发后校验失败" else ret tt.

Definition cleanup_nft_rules : M unit :=
  e <- command_exists "nft" ;;
  if negb e then ret tt else
  a <- nft_rules_active ;;
  if a then run_cmd "nft" ["delete"; "table"; "inet"; NFT_TABLE_NAME] else ret tt.

Fixpoint run_all (f : string -> M unit) (xs : list string) : M unit :=
  match xs with
  | [] => ret tt
  | x :: r => f x ;;; run_all f r
  end.

Fixpoint insert_sorted (x : N) (l : list N) : list N :=
  match l with
  | [] => [x]
  | y :: r => if (x <=? y)%N then x :: l else y :: insert_sorted x r
  end.

Fixpoint dedup (l : list N) : list N :=
  match l with
  | x :: (y :: _) as r => if (x =? y)%N then dedup r else x :: dedup r
  | _ => l
  end.

(** [vec![7890, 7891, 9090, redir_port]], [sort_unstable()], [dedup()] *)
Definition bypass_ports (redir_port : N) : list N :=
  dedup (insert_sorted redir_port [7890; 7891; 9090]%N).

Definition ensure_iptables_jump (binary hook : string) (non_root_only : bool) : M unit :=
  e <- check_cmd_success binary (jump_rule "-C" hook non_root_only) ;;
  if negb e then run_cmd binary (jump_rule "-A" hook non_root_only) else ret tt.

Definition configure_iptables_binary (binary : string) (redir_port : N) (optional : bool) : M unit :=
  e <- command_exists binary ;;
  if negb e then (if optional then ret tt else bail "未检测到 iptables/ip6tables 命令") else
  ignore (run_cmd binary ["-t"; "nat"; "-N"; IPT_CHAIN_NAME]) ;;;
  run_cmd binary ["-t"; "nat"; "-F"; IPT_CHAIN_NAME] ;;;
  run_all (fun cidr => run_cmd binary ["-t"; "nat"; "-A"; IPT_CHAIN_NAME; "-d"; cidr; "-j"; "RETURN"])
    (if String.eqb binary "ip6tables" then private_ipv6 else private_ipv4) ;;;
  run_all (fun p => run_cmd binary ["-t"; "nat"; "-A"; IPT_CHAIN_NAME; "-p"; "tcp"; "--dport"; p; "-j"; "RETURN"])
    (map show_port (bypass_ports redir_port)) ;;;
  run_cmd binary ["-t"; "nat"; "-A"; IPT_CHAIN_NAME; "-p"; "tcp"; "-j"; "REDIRECT"; "--to-ports"; show_port redir_port] ;;;
  ensure_iptables_jump binary "PREROUTING" false ;;;
  ensure_iptables_jump binary "OUTPUT" true.

Definition apply_iptables_rules (redir_port : N) : M unit :=
  e <- command_exists "iptables" ;;
  if negb e then bail "未检测到 iptables 命令" else
  configure_iptables_binary "iptables" redir_port false ;;;
  configure_iptables_binary "ip6tables" redir_port true ;;;
  a <- iptables_rules_active ;;
  if negb a then bail "iptables 规则下发后校验失败" else ret tt.

(** [for _ in 0..8 { probe; if absent break; delete }] with [fuel]
    iterations left. *)
Fixpoint cleanup_jump_loop (fuel : nat) (binary hook : string) (non_root_only : bool) : M unit :=
  match fuel with
  | O => ret tt
  | S f =>
      e <- check_cmd_success binary (jump_rule "-C" hook non_root_only) ;;
      if negb e then ret tt else
      run_cmd binary (jump_rule "-D" hook non_root_only) ;;;
      cleanup_jump_loop f binary hook non_root_only
  end.

Definition cleanup_iptables_jump (binary hook : string) (non_root_only : bool) : M unit :=
  cleanup_jump_loop 8 binary hook non_root_only.

Definition cleanup_iptables_binary (binary : string) (optional : bool) : M unit :=
  e <- command_exists binary ;;
  if negb e then (if optional then ret tt else bail "未检测到 iptables/ip6tables 命令") else
  cleanup_iptables_jump binary "PREROUTING" false ;;;
  cleanup_iptables_jump binary "OUTPUT" true ;;;
  cleanup_iptables_jump binary "OUTPUT" false ;;;
  ignore (run_cmd binary ["-t"; "nat"; "-F"; IPT_CHAIN_NAME]) ;;;
  ignore (run_cmd binary ["-t"; "nat"; "-X"; IPT_CHAIN_NAME]).

Definition cleanup_iptables_rules : M unit :=
  cleanup_iptables_binary "iptables" false ;;;
  cleanup_iptables_binary "ip6tables" true.

Definition apply_dataplane_rules (backend : RuleBackend) (redir_port : N) : M RuleBackend :=
  match backend with
  | Nft =>
      r <- catch (apply_nft_rules redir_port) ;;
      match r with
      | Ok _ => ret Nft
      | Err nft_err =>
          i <- command_exists "iptables" ;;
          if i then
            context "nft 下发失败后回退 iptables 仍失败" (apply_iptables_rules redir_port) ;;;
            ret Iptables
          else raise nft_err
      end
  | Iptables => apply_iptables_rules redir_port ;;; ret Iptables
  | BNone => ret BNone
  end.

Definition cleanup_dataplane_rules (backend : RuleBackend) : M unit :=
  match backend with
  | Nft => cleanup_nft_rules
  | Iptables => cleanup_iptables_rules
  | BNone => ret tt
  end.

Definition cleanup_dataplane_rules_all : M unit :=
  r1 <- catch cleanup_nft_rules ;;
  r2 <- catch cleanup_iptables_rules ;;
  match r1, r2 with
  | Ok _, Ok _ => ret tt
  | _, _ => bail "清理规则失败"
  end.

Definition cleanup_dataplane_rules_all_best_effort : M unit :=
  ignore cleanup_dataplane_rules_all.

Local Close Scope string_scope.

(** The part of the world no command changes: the binaries on the PATH
    and the invocations that fail for outside reasons. *)
Definition frame (w w' : World) : Prop := tools w' = tools w /\ faults w' = faults w.

Definition static {A} (m : M A) : Prop := forall w, frame w (snd (m w)).

(** A machine with the given binaries on the PATH, nothing failing for
    outside reasons, no rules installed, no unit running, [/dev/net/tun]
    present and no runtime files. *)
Definition world0 (tl : list string) : World :=
  {| tools := tl; faults := []; nft_table := false; ipt4 := ipt_empty; ipt6 := ipt_empty;
     active_units := []; dev_net_tun := true; config_file := None; state_file := None;
     clock := 0; printed := [];
     io_faults := []; crashing_units := [] |}.

(** The effect of [cleanup_iptables_jump] with [fuel] rounds on the
    number [n] of copies of one jump rule, when the probe ([-C]) and the
    delete ([-D]) of that rule fail for outside reasons exactly when [fC]
    and [fD] hold. *)
Definition jump_cleanup_effect (fuel : nat) (fC fD : bool) (n : nat) : result unit * nat :=
  if fC then (Ok tt, n)
  else if fD then (if Nat.eqb fuel 0 || Nat.eqb n 0 then Ok tt else Err ["命令执行失败"%string], n)
  else (Ok tt, n - fuel).

Definition chain_flush (fF : bool) (c : option (list (list string))) : option (list (list string)) :=
  if fF then c else match c with Some _ => Some [] | None => None end.

Definition chain_delete (fX : bool) (c : option (list (list string))) (p o u : nat)
  : option (list (list string)) :=
  if fX then c
  else match c, p, o, u with Some [], O, O, O => None | _, _, _, _ => c end.

(** The effect of [cleanup_iptables_binary] on the nat table of an
    installed binary, [fl] telling which invocations fail for outside
    reasons. *)
Definition ipt_cleanup (fl : list string -> bool) (t : IptState) : result unit * IptState :=
  let jc hook nro n :=
    jump_cleanup_effect 8 (fl (jump_rule "-C" hook nro)) (fl (jump_rule "-D" hook nro)) n in
  match jc "PREROUTING"%string false (pre_jumps t) with
  | (Err e, _) => (Err e, t)
  | (Ok _, p) =>
  match jc "OUTPUT"%string true (out_owner_jumps t) with
  | (Err e, _) => (Err e, Build_IptState (chain t) p (out_owner_jumps t) (out_jumps t))
  | (Ok _, o) =>
  match jc "OUTPUT"%string false (out_jumps t) with
  | (Err e, _) => (Err e, Build_IptState (chain t) p o (out_jumps t))
  | (Ok _, u) =>
      let c := chain_flush (fl ["-t"; "nat"; "-F"; IPT_CHAIN_NAME]%string) (chain t) in
      (Ok tt, Build_IptState (chain_delete (fl ["-t"; "nat"; "-X"; IPT_CHAIN_NAME]%string) c p o u)
                p o u)
  end end end.

(** The three jump rules of [cleanup_iptables_binary], in order. *)
Definition jump_table : list (string * bool * JumpKind) :=
  [("PREROUTING", false, JPre); ("OUTPUT", true, JOutOwner); ("OUTPUT", false, JOut)]%string.

(** What [command_exists] decides: the binary is on the PATH and one of
    its two version probes succeeds. *)
Definition tool_present (w : World) (b : string) : bool :=
  installed w b && (negb (faulty w b ["--version"%string]) || negb (faulty w b ["-V"%string])).

(* ================================================================= *)
(** ** Privilege check *)

Definition CAP_NET_ADMIN_BIT : N := 12.
Definition CAP_NET_RAW_BIT : N := 13.

(** The loop of [read_cap_eff] over the lines of [/proc/self/status]:
    the first line starting with [CapEff:] decides. *)
Fixpoint find_cap_eff (ls : list rstr) : result N :=
  match ls with
  | [] => Err ["未找到 CapEff 字段"%string]
  | line :: r =>
      match strip_prefix (rs "CapEff:") line with
      | Some rest => opt_context (parse_uint 16 64 (trim rest)) "解析 CapEff 失败"
      | None => find_cap_eff r
      end
  end.

(** [status] is the content of [/proc/self/status], [None] when reading
    it fails. *)
Definition read_cap_eff (status : option rstr) : result N :=
  match status with
  | None => Err ["读取 /proc/self/status 失败"%string]
  | Some content => find_cap_eff (lines content)
  end.

Definition has_capability_bit (status : option rstr) (bit : N) : result bool :=
  match read_cap_eff status with
  | Ok mask => Ok (negb (N.land mask (N.shiftl 1 bit) =? 0)%N)
  | Err e => Err e
  end.

(** [id_out] is the standard output of [id -u], [None] when the command
    cannot be run or exits unsuccessfully. *)
Definition is_root_user (id_out : option rstr) : result bool :=
  match id_out with
  | None => Err ["`id -u` 返回非成功状态"%string]
  | Some out => Ok (rstr_eqb (trim out) (rs "0"))
  end.

Definition unwrap_or {A} (r : result A) (d : A) : A :=
  match r with Ok a => a | Err _ => d end.

Definition PRIVILEGE_ERROR : string :=
  "当前权限不足：需要 root 或 CAP_NET_ADMIN + CAP_NET_RAW。请使用 sudo 执行，例如 `sudo clash tun on`".

Definition ensure_tun_privileges (id_out status : option rstr) : result unit :=
  let is_root := unwrap_or (is_root_user id_out) false in
  let has_admin := unwrap_or (has_capability_bit status CAP_NET_ADMIN_BIT) false in
  let has_raw := unwrap_or (has_capability_bit status CAP_NET_RAW_BIT) false in
  if is_root || (has_admin && has_raw) then Ok tt else Err [PRIVILEGE_ERROR].

(* ================================================================= *)
(** ** [print_json], the exit status and [cmd_doctor] *)

Definition print_json (j : JsonOut) : M unit := fun w => (Ok tt, with_print w j).

(** [main]: an [Err] from the command exits with status 1, [Ok] with 0. *)
Definition exit_code {A} (r : result A) : nat :=
  match r with Ok _ => 0 | Err _ => 1 end.

Inductive CheckLevel := CPass | CWarn | CFail.

Record CheckItem := {
  name : string;
  level : CheckLevel;
  message : string;
  suggestion : option string
}.

(** One turn of the loop of [summarize_checks]. *)
Definition summarize_step (acc : nat * nat * nat) (item : CheckItem) : nat * nat * nat :=
  let '(p, wn, f) := acc in
  match level item with
  | CPass => (S p, wn, f)
  | CWarn => (p, S wn, f)
  | CFail => (p, wn, S f)
  end.

Definition summarize_checks (checks : list CheckItem) : nat * nat * nat :=
  fold_left summarize_step checks (0, 0, 0).

Inductive PrivilegeCheck := PCOk | Delegated.

(** [cmd_doctor]. [prelude] stands for [ensure_linux_host()?] followed
    by [ensure_tun_doctor_privileges_or_delegate()?] and [app_paths()?];
    [gather] for the probes that build [checks] (none of them fails). The
    text printed on the terminal is not modelled. *)
Definition cmd_doctor (json : bool) (prelude : M PrivilegeCheck)
    (gather : M (list CheckItem)) : M unit :=
  pc <- prelude ;;
  match pc with
  | Delegated => ret tt
  | PCOk =>
      checks <- gather ;;
      let '(pass_count, warn_count, fail_count) := summarize_checks checks in
      if json then
        print_json (JDoctor (Nat.eqb fail_count 0) pass_count warn_count fail_count)
      else if Nat.ltb 0 fail_count then bail "tun 诊断未通过，请先处理 FAIL 项"%string
      else ret tt
  end.

Definition is_fail (item : CheckItem) : bool :=
  match level item with CFail => true | _ => false end.

(* ================================================================= *)
(** ** [serde_yaml::Value] and the config helpers *)

Local Open Scope string_scope.

(** A YAML value. A [Number] holds an integer in the range of [i64] or
    [u64], or a float (kept by its text). A [Mapping] is an [IndexMap]:
    its entries in insertion order, with distinct keys. *)
Inductive Value :=
| VNull
| VBool (b : bool)
| VInt (z : Z)
| VFloat (f : string)
| VStr (s : string)
| VSeq (l : list Value)
| VMap (m : list (Value * Value))
| VTagged (tag : string) (v : Value).

Definition Mapping := list (Value * Value).

(** [Value::untag_ref]: the accessors of [serde_yaml] 0.9 look through
    tags. *)
Fixpoint untag (v : Value) : Value :=
  match v with VTagged _ v' => untag v' | _ => v end.

Definition as_mapping (v : Value) : option Mapping :=
  match untag v with VMap m => Some m | _ => None end.

Definition is_mapping (v : Value) : bool := is_some (as_mapping v).

Definition as_bool (v : Value) : option bool :=
  match untag v with VBool b => Some b | _ => None end.

(** [Value::as_str] *)
Definition value_as_str (v : Value) : option string :=
  match untag v with VStr s => Some s | _ => None end.

Definition as_i64 (v : Value) : option Z :=
  match untag v with
  | VInt z => if ((- 2 ^ 63 <=? z) && (z <? 2 ^ 63))%Z then Some z else None
  | _ => None
  end.

(** Is [k] equal to [Value::String(key)]? *)
Definition is_key (key : string) (k : Value) : bool :=
  match k with VStr s => String.eqb s key | _ => false end.

(** [Mapping::get(Value::String(key))] *)
Fixpoint mget (m : Mapping) (key : string) : option Value :=
  match m with
  | [] => None
  | (k, v) :: r => if is_key key k then Some v else mget r key
  end.

Definition mcontains (m : Mapping) (key : string) : bool := is_some (mget m key).

(** [Mapping::insert]: an existing key keeps its place and gets the new
    value; a new key goes to the end. *)
Fixpoint minsert (m : Mapping) (key : string) (v : Value) : Mapping :=
  match m with
  | [] => [(VStr key, v)]
  | (k, v') :: r => if is_key key k then (k, v) :: r else (k, v') :: minsert r key v
  end.

(** Writing through [Mapping::get_mut(key)]. *)
Fixpoint mupdate (m : Mapping) (key : string) (g : Value -> Value) : Mapping :=
  match m with
  | [] => []
  | (k, v) :: r => if is_key key k then (k, g v) :: r else (k, v) :: mupdate r key g
  end.

Definition key_value (root : Value) (key : string) : option Value :=
  match as_mapping root with Some m => mget m key | None => None end.

Definition bool_field (root : option Value) (key : string) : option bool :=
  match root with
  | Some v => match key_value v key with Some x => as_bool x | None => None end
  | None => None
  end.

Definition string_field (root : option Value) (key : string) : option string :=
  match root with
  | Some v => match key_value v key with Some x => value_as_str x | None => None end
  | None => None
  end.

Definition u16_field (root : option Value) (key : string) : option N :=
  match root with
  | Some v =>
      match key_value v key with
      | Some x =>
          match as_i64 x with
          | Some i => if ((0 <=? i) && (i <? 65536))%Z then Some (Z.to_N i) else None
          | None => match value_as_str x with Some s => parse_u16 (rs s) | None => None end
          end
      | None => None
      end
  | None => None
  end.

(** [if !v.is_mapping() { *v = Value::Mapping(Mapping::new()) }] *)
Definition coerce_mapping (v : Value) : Value :=
  if is_mapping v then v else VMap [].

(** Apply [f] to the mapping under the tags of [v] ([as_mapping_mut]);
    [v] is a mapping wherever this is used. *)
Fixpoint map_untagged (f : Mapping -> Mapping) (v : Value) : Value :=
  match v with
  | VTagged t v' => VTagged t (map_untagged f v')
  | VMap m => VMap (f m)
  | other => other
  end.

(** The loop of [ensure_mapping_path] from the mapping [v], followed by
    the update [f] of the mapping it returns. *)
Fixpoint update_path (path : list string) (f : Mapping -> Mapping) (v : Value) : Value :=
  match path with
  | [] => map_untagged f v
  | k :: rest =>
      map_untagged
        (fun m =>
           let m1 := if mcontains m k then m else minsert m k (VMap []) in
           mupdate m1 k (fun child => update_path rest f (coerce_mapping child)))
        v
  end.

(** [f(ensure_mapping_path(root, path_keys))] *)
Definition ensure_mapping_path (root : Value) (path_keys : list string)
    (f : Mapping -> Mapping) : Value :=
  update_path path_keys f (coerce_mapping root).

Definition set_bool_field (root : Value) (path_keys : list string) (key : string) (value : bool) : Value :=
  ensure_mapping_path root path_keys (fun m => minsert m key (VBool value)).

(** The common body of [set_default_bool_field], [set_default_string_field]
    and [set_default_u16_field]. *)
Definition set_default_field (root : Value) (path_keys : list string) (key : string) (value : Value) : Value :=
  ensure_mapping_path root path_keys
    (fun m => if mcontains m key then m else minsert m key value).

Definition set_default_bool_field root path_keys key (value : bool) :=
  set_default_field root path_keys key (VBool value).
Definition set_default_string_field root path_keys key (value : string) :=
  set_default_field root path_keys key (VStr value).
Definition set_default_u16_field root path_keys key (value : N) :=
  set_default_field root path_keys key (VInt (Z.of_N value)).

(** The twelve edits of [cmd_on], in the order of the source. *)
Definition on_mutate (root : Value) : Value :=
  let root := set_bool_field root ["tun"] "enable" true in
  let root := set_default_bool_field root ["tun"] "auto-route" true in
  let root := set_default_bool_field root ["tun"] "auto-detect-interface" true in
  let root := set_default_bool_field root ["tun"] "auto-redirect" true in
  let root := set_default_bool_field root ["tun"] "strict-route" false in
  let root := set_default_string_field root ["tun"] "stack" "mixed" in
  let root := set_default_bool_field root ["dns"] "enable" true in
  let root := set_bool_field root [] "ipv6" false in
  let root := set_bool_field root ["dns"] "ipv6" false in
  let root := set_default_string_field root ["dns"] "enhanced-mode" "fake-ip" in
  let root := set_default_u16_field root [] "redir-port" DEFAULT_REDIR_PORT in
  root.

(** Reading the mapping at [path] the way the accessors do: a missing
    key or a value that is not a mapping reads as the empty mapping. *)
Definition mapping_or_empty (v : Value) : Mapping :=
  match as_mapping v with Some m => m | None => [] end.

Fixpoint path_map (v : Value) (path : list string) : Mapping :=
  match path with
  | [] => mapping_or_empty v
  | k :: rest =>
      path_map (match mget (mapping_or_empty v) k with Some c => c | None => VMap [] end) rest
  end.

Definition get_at (v : Value) (path : list string) (key : string) : option Value :=
  mget (path_map v path) key.

Definition default_to (o : option Value) (d : Value) : Value :=
  match o with Some v => v | None => d end.

Local Close Scope string_scope.

(* ================================================================= *)
(** ** Files, services and the commands [on], [off] and [status] *)

Local Open Scope string_scope.

(** [Option::unwrap_or] *)
Definition opt_unwrap_or {A} (o : option A) (d : A) : A :=
  match o with Some a => a | None => d end.

(** [err.to_string()]: the outermost message of the chain. *)
Definition err_to_string (e : error) : string :=
  match e with m :: _ => m | [] => EmptyString end.

Definition device_exists : M bool := fun w => (Ok (dev_net_tun w), w).

Definition now_unix : M N := fun w => (Ok (clock w), w).

Definition read_tun_state : M (option TunState) :=
  fun w => match state_file w with
           | None => (Ok None, w)
           | Some content =>
               if io_fails w ReadState then (Err ["读取 tun 状态失败"], w) else
               match from_text content with
               | Ok st => (Ok (Some st), w)
               | Err e => (Err e, w)
               end
           end.

(** A failing [create_dir_all] or [fs::write] is refused before the file
    is touched. *)
Definition write_tun_state (st : TunState) : M unit :=
  fun w => if io_fails w MkStateDir then (Err ["创建目录失败"], w)
           else if io_fails w WriteState then (Err ["写入 tun 状态失败"], w)
           else (Ok tt, with_state w (Some (to_text st))).

Definition ends_with (s suffix : string) : bool :=
  Nat.leb (String.length suffix) (String.length s) &&
  String.eqb (substring (String.length s - String.length suffix) (String.length suffix) s) suffix.

Definition normalize_unit_name (name : string) : string :=
  if ends_with name ".service" then name else name ++ ".service".

Definition user_flag (user : bool) : list string := if user then ["--user"] else [].

Definition query_service_active (name : string) (user : bool) : M bool :=
  e <- command_exists "systemctl" ;;
  if negb e then bail "未检测到 systemctl" else
  fun w => match exec w "systemctl" (app (user_flag user) ["is-active"; "--quiet"; normalize_unit_name name]) with
           | (NotFound, w') => (Err ["执行 systemctl is-active 失败"], w')
           | (Exited b, w') => (Ok b, w')
           end.

Definition restart_service_best_effort (name : string) (user : bool) : M bool :=
  r <- catch (run_cmd "systemctl" (app (user_flag user) ["restart"; normalize_unit_name name])) ;;
  ret (match r with Ok _ => true | Err _ => false end).

Definition config_exists : M bool := fun w => (Ok (is_some (config_file w)), w).

Section Commands.

(** [serde_yaml::from_str] and [serde_yaml::to_string], [None] on an
    error. *)
Variable yaml_from_str : rstr -> option Value.
Variable yaml_to_string : Value -> option rstr.

Definition load_existing_config : M Value :=
  fun w => match config_file w with
           | None => (Err ["读取配置失败"], w)
           | Some content =>
               if io_fails w ReadConfig then (Err ["读取配置失败"], w) else
               match yaml_from_str content with
               | None => (Err ["解析 YAML 失败"], w)
               | Some root => (Ok (if is_mapping root then root else VMap []), w)
               end
           end.

Definition load_or_init_config : M Value :=
  ex <- config_exists ;;
  (if ex then ret tt
   else fun w => if io_fails w MkConfigDir then (Err ["创建配置目录失败"], w)
                 else if io_fails w WriteConfig then (Err ["初始化配置文件失败"], w)
                 else (Ok tt, with_config w (Some (app (rs "{}") [10%N])))) ;;;
  load_existing_config.

Definition save_config (root : Value) : M unit :=
  fun w => match yaml_to_string root with
           | None => (Err ["序列化 YAML 失败"], w)
           | Some text =>
               if io_fails w WriteConfig then (Err ["写入配置失败"], w)
               else (Ok tt, with_config w (Some text))
           end.

(** [cmd_on]. [prelude] stands for [ensure_linux_host()?] and
    [ensure_tun_privileges_or_delegate(..)?]. The early [return] of the
    JSON rollback branch is the [None] of [outcome]. *)
Definition cmd_on (json : bool) (name : string) (user no_restart : bool)
    (prelude : M PrivilegeCheck) : M unit :=
  pc <- prelude ;;
  match pc with
  | Delegated => ret tt
  | PCOk =>
      dev <- device_exists ;;
      if negb dev then bail "未找到 /dev/net/tun，请先修复系统环境" else
      original_root <- load_or_init_config ;;
      let root := on_mutate original_root in
      let auto_redirect := opt_unwrap_or (bool_field (key_value root "tun") "auto-redirect") false in
      let redir_port := opt_unwrap_or (u16_field (Some root) "redir-port") DEFAULT_REDIR_PORT in
      save_config root ;;;
      outcome <-
        (if auto_redirect then
           preferred_backend <- select_rule_backend ;;
           r <- catch (apply_dataplane_rules preferred_backend redir_port) ;;
           match r with
           | Ok actual_backend => ret (Some (actual_backend, true))
           | Err e =>
               save_config original_root ;;;
               (if json then print_json (JOnFailed (err_to_string e) true) ;;; ret None
                else bail "tun 开启失败")
           end
         else cleanup_dataplane_rules_all_best_effort ;;; ret (Some (BNone, false))) ;;
      match outcome with
      | None => ret tt
      | Some (backend, rules_applied) =>
          now <- now_unix ;;
          write_tun_state (Build_TunState true (rs name) user backend redir_port rules_applied now) ;;;
          _ <- (if no_restart then ret None
                else b <- restart_service_best_effort name user ;; ret (Some b)) ;;
          if json then print_json (JOnOk backend redir_port rules_applied) else ret tt
      end
  end.

(** The cleanup step of [cmd_off]. *)
Definition off_cleanup (previous_state : option TunState) : M unit :=
  match previous_state with
  | Some state => if rules_applied state then cleanup_dataplane_rules (backend state) else ret tt
  | None => cleanup_dataplane_rules_all
  end.

Definition cmd_off (json : bool) (name : string) (user no_restart : bool)
    (prelude : M PrivilegeCheck) : M unit :=
  pc <- prelude ;;
  match pc with
  | Delegated => ret tt
  | PCOk =>
      root <- load_or_init_config ;;
      previous_state <- read_tun_state ;;
      let redir_port := opt_unwrap_or (u16_field (Some root) "redir-port") DEFAULT_REDIR_PORT in
      let root := set_bool_field root ["tun"] "enable" false in
      save_config root ;;;
      context "清理数据面规则失败" (off_cleanup previous_state) ;;;
      now <- now_unix ;;
      write_tun_state (Build_TunState false (rs name) user BNone redir_port false now) ;;;
      _ <- (if no_restart then ret None
            else b <- restart_service_best_effort name user ;; ret (Some b)) ;;
      if json then print_json (JOffOk redir_port) else ret tt
  end.

(** The config read by [cmd_status]: an absent file reads as an empty
    mapping. *)
Definition status_config : M Value :=
  ex <- config_exists ;;
  if ex then load_existing_config else ret (VMap []).

(** [cmd_status], after [ensure_linux_host()?] and [app_paths()?]. *)
Definition cmd_status (json : bool) (name : string) (user : bool) : M unit :=
  root <- status_config ;;
  let tun := key_value root "tun" in
  let tun_enable := opt_unwrap_or (bool_field tun "enable") false in
  let auto_redirect := opt_unwrap_or (bool_field tun "auto-redirect") false in
  device_ok <- device_exists ;;
  n <- command_exists "nft" ;;
  backend_installed <- (if n then ret true else command_exists "iptables") ;;
  active_backend <- detect_active_rule_backend ;;
  let rules_active := negb (RuleBackend_eqb active_backend BNone) in
  let redirect_ready := if auto_redirect then rules_active else true in
  sa <- catch (query_service_active name user) ;;
  let service_active := unwrap_or sa false in
  last_state <- read_tun_state ;;
  let actual_ok := tun_enable && device_ok && redirect_ready && service_active in
  if json then print_json (JStatus tun_enable device_ok rules_active service_active actual_ok)
  else ret tt.

End Commands.

Local Close Scope string_scope.


(* ================================================================= *)
(** ** The checks of [doctor] *)

Local Open Scope string_scope.

Definition pass (name message : string) : CheckItem :=
  {| name := name; level := CPass; message := message; suggestion := None |}.

Definition warn (name message suggestion : string) : CheckItem :=
  {| name := name; level := CWarn; message := message; suggestion := Some suggestion |}.

Definition fail (name message suggestion : string) : CheckItem :=
  {| name := name; level := CFail; message := message; suggestion := Some suggestion |}.

Definition check_tun_device : M CheckItem :=
  fun w =>
    (Ok (if negb (dev_net_tun w)
         then fail "TUN 设备(/dev/net/tun)" "未找到设备节点" "请确认内核支持 TUN，并加载 tun 模块"
         else pass "TUN 设备(/dev/net/tun)" "设备节点存在"), w).

(** [status] is the content of [/proc/self/status], as for
    [read_cap_eff]. *)
Definition check_capability (status : option rstr) (bit : N) (cap_name suggestion : string) : CheckItem :=
  match read_cap_eff status with
  | Ok mask =>
      if negb (N.land mask (N.shiftl 1 bit) =? 0)%N
      then pass cap_name "当前进程具备能力"
      else fail cap_name "当前进程缺少能力" suggestion
  | Err e =>
      warn cap_name ("无法检测 capability: " ++ err_to_string e)
        "可手动检查 /proc/self/status 的 CapEff 字段"
  end.

Definition check_backend : M CheckItem :=
  n <- command_exists "nft" ;;
  if n then ret (pass "防火墙后端" "检测到 nft，可优先使用 nftables") else
  i <- command_exists "iptables" ;;
  if i then ret (warn "防火墙后端" "未检测到 nft，回退使用 iptables" "建议安装 nftables，后续 tun 规则管理更稳")
  else ret (fail "防火墙后端" "未检测到 nft/iptables" "请安装 nftables 或 iptables").

(** [content] is the result of [fs::read_to_string(path)]. The messages
    render the value with [string_of_rstr], which is exact on the ASCII
    text of these files. *)
Definition check_sysctl_value (content : result rstr) (name : string) (expected : rstr)
    (suggestion : string) : CheckItem :=
  match content with
  | Ok value =>
      let current := trim value in
      if rstr_eqb current expected then pass name ("当前值=" ++ string_of_rstr current)
      else warn name ("当前值=" ++ string_of_rstr current ++ "，期望值=" ++ string_of_rstr expected)
             suggestion
  | Err e => warn name ("读取失败: " ++ err_to_string e) "请手动检查 sysctl 参数"
  end.

Definition check_rp_filter (content : result rstr) : CheckItem :=
  match content with
  | Ok value =>
      let current := trim value in
      if rstr_eqb current (rs "0") || rstr_eqb current (rs "2") then
        pass "反向路径过滤(net.ipv4.conf.all.rp_filter)" ("当前值=" ++ string_of_rstr current)
      else
        warn "反向路径过滤(net.ipv4.conf.all.rp_filter)"
          ("当前值=" ++ string_of_rstr current ++ "，建议设置为 0 或 2")
          "可执行: sudo sysctl -w net.ipv4.conf.all.rp_filter=0"
  | Err e =>
      warn "反向路径过滤(net.ipv4.conf.all.rp_filter)" ("读取失败: " ++ err_to_string e)
        "请手动检查 rp_filter"
  end.

(** The part of [check_config] after the config has been loaded. *)
Definition config_report (root : Value) : list CheckItem * bool * bool :=
  let tun := key_value root "tun" in
  let dns := key_value root "dns" in
  let tun_enable := opt_unwrap_or (bool_field tun "enable") false in
  let auto_route := bool_field tun "auto-route" in
  let auto_redirect := opt_unwrap_or (bool_field tun "auto-redirect") false in
  let strict_route := bool_field tun "strict-route" in
  let auto_detect_interface := bool_field tun "auto-detect-interface" in
  let tun_stack := string_field tun "stack" in
  let dns_enable := bool_field dns "enable" in
  let dns_mode := string_field dns "enhanced-mode" in
  let items :=
    [ if tun_enable then pass "tun.enable" "已开启"
      else fail "tun.enable" "未开启" "请设置 tun.enable: true";
      match auto_route with
      | Some true => pass "tun.auto-route" "已开启"
      | Some false => warn "tun.auto-route" "已关闭" "建议开启 auto-route，避免手工维护路由"
      | None => warn "tun.auto-route" "未配置" "建议显式设置 tun.auto-route: true"
      end;
      match auto_detect_interface with
      | Some true => pass "tun.auto-detect-interface" "已开启"
      | Some false => warn "tun.auto-detect-interface" "已关闭"
                        "建议开启 auto-detect-interface，减少多网卡误判"
      | None => warn "tun.auto-detect-interface" "未配置"
                  "建议显式设置 tun.auto-detect-interface: true"
      end;
      match auto_redirect, auto_route with
      | true, Some true => pass "tun.auto-redirect" "已开启且依赖满足(auto-route=true)"
      | true, _ => fail "tun.auto-redirect" "已开启但 auto-route 未开启" "请先开启 tun.auto-route"
      | false, _ => warn "tun.auto-redirect" "已关闭" "Linux 下建议开启以增强 TCP 转发性能"
      end;
      match strict_route with
      | Some true => pass "tun.strict-route" "已开启"
      | Some false => warn "tun.strict-route" "已关闭" "建议按场景评估后开启"
      | None => warn "tun.strict-route" "未配置" "建议显式配置 strict-route，避免行为不确定"
      end;
      match tun_stack with
      | Some v =>
          if String.eqb v "mixed" then pass "tun.stack" "当前为 mixed（推荐）"
          else if String.eqb v "gvisor" then warn "tun.stack" "当前为 gvisor" "文档建议优先使用 mixed"
          else if String.eqb v "system" then
            warn "tun.stack" "当前为 system" "请确认当前内核网络栈与路由策略是否匹配"
          else warn "tun.stack" ("当前为 " ++ v) "请确认该值受支持"
      | None => warn "tun.stack" "未配置" "建议显式设置 tun.stack: mixed"
      end;
      match dns_enable with
      | Some true => pass "dns.enable" "已开启"
      | Some false => warn "dns.enable" "已关闭" "tun 场景建议开启 dns，避免解析绕过"
      | None => warn "dns.enable" "未配置" "建议显式设置 dns.enable: true"
      end;
      match dns_mode with
      | Some v =>
          if String.eqb v "fake-ip" then pass "dns.enhanced-mode" "当前为 fake-ip（推荐）"
          else warn "dns.enhanced-mode" ("当前为 " ++ v) "tun 场景建议使用 fake-ip"
      | None => warn "dns.enhanced-mode" "未配置" "建议显式设置 dns.enhanced-mode: fake-ip"
      end ] in
  (items, tun_enable, auto_redirect).

Section Doctor.

Variable yaml_from_str : rstr -> option Value.

(** [check_config(&paths.runtime_config_file)]; [config_path] is the
    displayed path. *)
Definition check_config (config_path : string) : M (list CheckItem * bool * bool) :=
  ex <- config_exists ;;
  if negb ex then
    ret ([warn "运行配置(runtime/config.yaml)" ("未找到配置文件: " ++ config_path)
            "先执行 `clash service install` 生成模板配置"], false, false)
  else
  r <- catch (load_existing_config yaml_from_str) ;;
  match r with
  | Err e =>
      ret ([fail "运行配置(runtime/config.yaml)" ("读取失败: " ++ err_to_string e)
              "请检查配置文件权限与 YAML 格式"], false, false)
  | Ok root => ret (config_report root)
  end.

(** The [checks] of [cmd_doctor]: [status] is [/proc/self/status],
    [ip_forward] and [rp_filter] the reads of the two sysctl files. *)
Definition doctor_checks (status : option rstr) (ip_forward rp_filter : result rstr)
    (config_path : string) : M (list CheckItem) :=
  dev <- check_tun_device ;;
  let admin := check_capability status CAP_NET_ADMIN_BIT "CAP_NET_ADMIN"
                 "建议使用 systemd AmbientCapabilities 或 root 运行" in
  let raw := check_capability status CAP_NET_RAW_BIT "CAP_NET_RAW"
               "建议补充 CAP_NET_RAW，避免部分流量处理受限" in
  be <- check_backend ;;
  let fwd := check_sysctl_value ip_forward "内核转发(net.ipv4.ip_forward)" (rs "1")
               "可执行: sudo sysctl -w net.ipv4.ip_forward=1" in
  let rp := check_rp_filter rp_filter in
  cfg <- check_config config_path ;;
  let '(config_checks, config_tun_enable, config_auto_redirect) := cfg in
  extra <- (if config_tun_enable && config_auto_redirect then
              active_backend <- detect_active_rule_backend ;;
              ret [if RuleBackend_eqb active_backend BNone
                   then warn "数据面规则" "配置要求 auto-redirect，但当前未检测到本工具管理的规则"
                          "可执行 `clash tun on` 重新下发规则"
                   else pass "数据面规则"
                          ("检测到 " ++ string_of_rstr (as_str active_backend) ++ " 规则已存在")]
            else ret []) ;;
  ret (app [dev; admin; raw; be; fwd; rp] (app config_checks extra)).

End Doctor.

(* ================================================================= *)
(** ** Privilege delegation through [sudo] *)

Inductive TunAction := Doctor | On | Off.

Definition as_cli_str (a : TunAction) : string :=
  match a with Doctor => "doctor" | On => "on" | Off => "off" end.

(** What the process reads from its environment. *)
Record Env := {
  json_mode : bool;                (** [--json] *)
  no_auto_sudo : bool;             (** [CLASH_CLI_NO_AUTO_SUDO] is set *)
  sudo_reexec : option string;     (** [env::var("CLASH_CLI_SUDO_REEXEC").ok()] *)
  stdin_tty : bool;
  stderr_tty : bool;
  clash_home : option string;      (** [CLASH_CLI_HOME] *)
  current_exe : option string      (** [std::env::current_exe()] *)
}.

Definition should_auto_delegate_to_sudo (env : Env) : M bool :=
  if json_mode env then ret false
  else if no_auto_sudo env then ret false
  else if match sudo_reexec env with Some v => String.eqb v "1" | None => false end then ret false
  else if negb (stdin_tty env) || negb (stderr_tty env) then ret false
  else command_exists "sudo".

(** The arguments given to [sudo] by [build_sudo_reexec_command]. *)
Definition build_sudo_reexec_command (env : Env) : result (list string) :=
  match current_exe env with
  | None => Err ["获取当前可执行文件路径失败"]
  | Some exe =>
      Ok (app ["env"; "CLASH_CLI_SUDO_REEXEC=1"]
            (app (match clash_home env with Some home => ["CLASH_CLI_HOME=" ++ home] | None => [] end)
               (app [exe] (if json_mode env then ["--json"] else []))))
  end.

(** [cmd.status()] on [sudo]: [Ok(success)], or the spawn error. *)
Definition run_sudo (args : list string) : M bool :=
  fun w => match exec w "sudo" args with
           | (NotFound, w') => (Err ["启动 sudo 失败"], w')
           | (Exited b, w') => (Ok b, w')
           end.

Definition run_tun_apply_with_sudo (env : Env) (action : TunAction) (name : string)
    (user no_restart : bool) : M bool :=
  match build_sudo_reexec_command env with
  | Err e => raise e
  | Ok cmd =>
      run_sudo (app cmd (app ["tun"; as_cli_str action; "--name"; name]
                           (app (if user then ["--user"] else [])
                              (if no_restart then ["--no-restart"] else []))))
  end.

Definition run_tun_doctor_with_sudo (env : Env) : M bool :=
  match build_sudo_reexec_command env with
  | Err e => raise e
  | Ok cmd => run_sudo (app cmd ["tun"; as_cli_str Doctor])
  end.

Definition is_ok {A} (r : result A) : bool := match r with Ok _ => true | Err _ => false end.

(** [id_out] and [status] are what [ensure_tun_privileges] reads (see
    above); the text printed before delegating is not modelled. *)
Definition ensure_tun_privileges_or_delegate (env : Env) (id_out status : option rstr)
    (action : TunAction) (name : string) (user no_restart : bool) : M PrivilegeCheck :=
  if is_ok (ensure_tun_privileges id_out status) then ret PCOk else
  d <- should_auto_delegate_to_sudo env ;;
  if negb d then
    match ensure_tun_privileges id_out status with
    | Ok _ => ret PCOk
    | Err e => raise e
    end
  else
  s <- context "调用 sudo 执行 tun 命令失败" (run_tun_apply_with_sudo env action name user no_restart) ;;
  if s then ret Delegated
  else bail ("sudo 授权未通过或命令执行失败，请手动执行: sudo clash tun " ++ as_cli_str action).

Definition ensure_tun_doctor_privileges_or_delegate (env : Env) (id_out status : option rstr)
    : M PrivilegeCheck :=
  if is_ok (ensure_tun_privileges id_out status) then ret PCOk else
  d <- should_auto_delegate_to_sudo env ;;
  if negb d then ret PCOk else
  s <- context "调用 sudo 执行 tun doctor 失败" (run_tun_doctor_with_sudo env) ;;
  if s then ret Delegated
  else bail "sudo 授权未通过或命令执行失败，请手动执行: sudo clash tun doctor".

(** The nat table of [binary] that [configure_iptables_binary] leaves
    behind when none of its invocations fails: the tool's chain holds the
    private-range returns, the bypass-port returns and the redirect, in
    this order, and the PREROUTING and owner-matched OUTPUT jumps are
    present; the plain OUTPUT jump is not touched. *)
Definition ipt_configured (binary : string) (redir_port : N) (t : IptState) : IptState :=
  {| chain := Some (app (map (fun cidr => ["-d"; cidr; "-j"; "RETURN"])
                           (if String.eqb binary "ip6tables" then private_ipv6 else private_ipv4))
                      (app (map (fun p => ["-p"; "tcp"; "--dport"; p; "-j"; "RETURN"])
                              (map show_port (bypass_ports redir_port)))
                           [["-p"; "tcp"; "-j"; "REDIRECT"; "--to-ports"; show_port redir_port]]));
     pre_jumps := Nat.max 1 (pre_jumps t);
     out_owner_jumps := Nat.max 1 (out_owner_jumps t);
     out_jumps := out_jumps t |}.

Local Close Scope string_scope.

(* ================================================================= *)
(** * Proofs *)

(* ================================================================= *)
(** ** Facts about the string helpers *)

Lemma lines_go_app (l cur rest : rstr) :
  ~ In 10%N l ->
  lines_go cur (l ++ 10%N :: rest) = strip_cr (rev cur ++ l) :: lines_go [] rest.
Proof.
  revert cur; induction l as [|c l IH]; intros cur Hn; simpl.
  - rewrite app_nil_r; reflexivity.
  - assert (Hc : (c =? 10)%N = false) by (apply N.eqb_neq; intro; subst; apply Hn; left; reflexivity).
    rewrite Hc, IH by (intro; apply Hn; right; assumption).
    simpl; rewrite <- app_assoc; reflexivity.
Qed.

Lemma lines_join (ls : list rstr) :
  Forall (fun l => ~ In 10%N l) ls ->
  lines (join_lines ls) = map strip_cr ls.
Proof.
  induction ls as [|l ls IH]; intros H; [reflexivity|].
  inversion H; subst. unfold lines, join_lines; simpl.
  rewrite <- app_assoc; simpl. rewrite lines_go_app by assumption.
  f_equal. apply IH; assumption.
Qed.

Lemma to_digit_dec (d : N) : (d < 10)%N -> to_digit 10 (48 + d) = Some d.
Proof.
  intros H.
  assert (d = 0 \/ d = 1 \/ d = 2 \/ d = 3 \/ d = 4 \/ d = 5 \/ d = 6 \/ d = 7
          \/ d = 8 \/ d = 9)%N as Hd by lia.
  repeat destruct Hd as [Hd|Hd]; subst; reflexivity.
Qed.

Lemma digits_value_show (f : nat) (n : N) (accl : rstr) :
  (n < 10 ^ N.of_nat f)%N ->
  digits_value 10 0 (show_digits f n accl) = digits_value 10 n accl.
Proof.
  revert n accl; induction f as [|f IH]; intros n accl H; cbn [show_digits].
  - simpl in H. replace n with 0%N by lia. reflexivity.
  - assert (Hm : (n mod 10 < 10)%N) by (apply N.mod_lt; lia).
    destruct (N.eqb_spec (n / 10) 0) as [Hq|Hq].
    + cbn [digits_value]. rewrite to_digit_dec by assumption.
      f_equal. pose proof (N.div_mod n 10 ltac:(lia)) as Hdm. rewrite Hq in Hdm. lia.
    + rewrite IH.
      * cbn [digits_value]. rewrite to_digit_dec by assumption.
        f_equal. pose proof (N.div_mod n 10 ltac:(lia)). lia.
      * rewrite Nat2N.inj_succ, N.pow_succ_r' in H.
        apply N.Div0.div_lt_upper_bound; lia.
Qed.

Lemma show_digits_S (f : nat) (n : N) (accl : rstr) :
  show_digits (S f) n accl =
  if (n / 10 =? 0)%N then (48 + n mod 10)%N :: accl
  else show_digits f (n / 10) ((48 + n mod 10)%N :: accl).
Proof. reflexivity. Qed.

Lemma show_digits_chars (f : nat) (n : N) (accl : rstr) (c : N) :
  In c (show_digits f n accl) -> In c accl \/ (48 <= c <= 57)%N.
Proof.
  revert n accl; induction f as [|f IH]; intros n accl H; [left; exact H|].
  rewrite show_digits_S in H.
  assert (Hm : (n mod 10 < 10)%N) by (apply N.mod_lt; lia).
  set (d := (n mod 10)%N) in *.
  destruct (n / 10 =? 0)%N.
  - destruct H as [H|H]; [right; lia | left; exact H].
  - destruct (IH _ _ H) as [[H'|H']|H']; [right; lia | left; exact H' | right; exact H'].
Qed.

Lemma show_digits_nonempty (f : nat) (n : N) (accl : rstr) :
  show_digits (S f) n accl <> [].
Proof.
  revert n accl; induction f as [|f IH]; intros n accl; simpl.
  - destruct (n / 10 =? 0)%N; discriminate.
  - destruct (n / 10 =? 0)%N; [discriminate|apply IH].
Qed.

Lemma show_N_digit (n c : N) : In c (show_N n) -> (48 <= c <= 57)%N.
Proof.
  intros H. destruct (show_digits_chars _ _ _ _ H) as [[]|H']; exact H'.
Qed.

Lemma trim_start_id (s : rstr) :
  match s with c :: _ => is_whitespace c = false | [] => True end ->
  trim_start s = s.
Proof. destruct s as [|c s]; simpl; [reflexivity|]. intros ->; reflexivity. Qed.

(** A string whose first and last characters are not white space is
    its own [trim]. *)
Lemma trim_id (s : rstr) :
  (forall c, hd_error s = Some c -> is_whitespace c = false) ->
  (forall c, hd_error (rev s) = Some c -> is_whitespace c = false) ->
  trim s = s.
Proof.
  intros Hh Hl. unfold trim, trim_end.
  rewrite (trim_start_id s) by (destruct s; simpl in *; auto).
  rewrite (trim_start_id (rev s)) by (destruct (rev s); simpl in *; auto).
  apply rev_involutive.
Qed.

Lemma digit_not_ws (c : N) : (48 <= c <= 57)%N -> is_whitespace c = false.
Proof.
  intros H. unfold is_whitespace.
  repeat match goal with
  | |- context [(?a <=? ?b)%N] =>
      let e := fresh in destruct (N.leb_spec a b) as [e|e]; try lia
  | |- context [(?a =? ?b)%N] =>
      let e := fresh in destruct (N.eqb_spec a b) as [e|e]; try lia
  end; reflexivity.
Qed.

Lemma trim_show_N (n : N) : trim (show_N n) = show_N n.
Proof.
  apply trim_id; intros c Hc; apply digit_not_ws, (show_N_digit n).
  - destruct (show_N n); [discriminate|]. injection Hc as ->. left; reflexivity.
  - apply in_rev. destruct (rev (show_N n)); [discriminate|].
    injection Hc as ->. left; reflexivity.
Qed.

Lemma parse_show_N (bits n : N) :
  (2 ^ bits <= 10 ^ 20)%N -> (n < 2 ^ bits)%N ->
  parse_uint 10 bits (show_N n) = Some n.
Proof.
  intros Hb Hn. unfold parse_uint.
  assert (Hd : digits_value 10 0 (show_N n) = Some n).
  { unfold show_N. rewrite digits_value_show by (simpl; lia). reflexivity. }
  assert (Hne : show_N n <> []) by apply show_digits_nonempty.
  assert (Hdig := show_N_digit n).
  destruct (show_N n) as [|c s] eqn:E; [congruence|].
  assert (Hc : (48 <= c <= 57)%N) by (apply Hdig; left; reflexivity).
  destruct (N.eqb_spec c 43); [lia|]. destruct (N.eqb_spec c 45); [lia|].
  cbn -[digits_value N.pow N.ltb]. rewrite Hd. destruct (N.ltb_spec n (2 ^ bits)); [reflexivity | lia].
Qed.

Lemma rstr_eqb_spec (a b : rstr) : reflect (a = b) (rstr_eqb a b).
Proof.
  revert b; induction a as [|x a IH]; intros [|y b]; simpl; try (constructor; congruence).
  destruct (N.eqb_spec x y) as [->|Hxy]; simpl.
  - destruct (IH b); constructor; congruence.
  - constructor; congruence.
Qed.

Lemma split_once_app (p v : rstr) :
  ~ In 61%N p -> split_once 61 (p ++ 61%N :: v) = (p, Some v).
Proof.
  induction p as [|c p IH]; intros H; simpl; [reflexivity|].
  destruct (N.eqb_spec c 61); [exfalso; apply H; left; congruence|].
  rewrite IH by (intro; apply H; right; assumption). reflexivity.
Qed.

Lemma parse_line_kv (a : ParseAcc) (k : string) (v : rstr) :
  state_key k -> parse_line a (kv k v) = parse_kv a (rs k) (trim v).
Proof.
  intros [H1 H2]. unfold parse_line, line_key, line_value, kv.
  rewrite split_once_app by assumption. simpl. rewrite H2. reflexivity.
Qed.

Lemma to_text_join (st : TunState) :
  to_text st =
  join_lines [kv "enabled" (show_bool (enabled st));
              kv "service_name" (service_name st);
              kv "user_service" (show_bool (user_service st));
              kv "backend" (as_str (backend st));
              kv "redir_port" (show_N (redir_port st));
              kv "rules_applied" (show_bool (rules_applied st));
              kv "updated_at" (show_N (updated_at st))].
Proof. unfold to_text, join_lines, kv; simpl; rewrite <- !app_assoc; reflexivity. Qed.

Lemma strip_cr_id (l : rstr) :
  (forall c, hd_error (rev l) = Some c -> c <> 13%N) -> strip_cr l = l.
Proof.
  unfold strip_cr. destruct (rev l) as [|c r]; [reflexivity|].
  intros H. destruct (N.eqb_spec c 13); [exfalso; apply (H c); auto | reflexivity].
Qed.

Lemma in_kv_10 (k : string) (v : rstr) :
  ~ In 10%N (rs k) -> ~ In 10%N v -> ~ In 10%N (kv k v).
Proof.
  unfold kv. intros H1 H2 H. apply in_app_or in H. destruct H as [H|[H|H]]; auto. lia.
Qed.

Lemma last_kv (k : string) (v : rstr) (c : N) :
  hd_error (rev (kv k v)) = Some c ->
  (v = [] /\ c = 61%N) \/ hd_error (rev v) = Some c.
Proof.
  unfold kv. rewrite rev_app_distr. simpl.
  destruct (rev v) as [|x r] eqn:E; simpl.
  - intros H; injection H as <-. left; split; [|reflexivity].
    rewrite <- (rev_involutive v), E; reflexivity.
  - intros H; right; exact H.
Qed.

Lemma show_N_no_nl (n : N) : ~ In 10%N (show_N n).
Proof. intros H. apply show_N_digit in H. lia. Qed.

Lemma show_N_last (n c : N) : hd_error (rev (show_N n)) = Some c -> c <> 13%N.
Proof.
  intros H. assert (Hin : In c (show_N n)).
  { apply in_rev. destruct (rev (show_N n)); [discriminate|]. injection H as ->; left; reflexivity. }
  apply show_N_digit in Hin. lia.
Qed.

Ltac not_in_lit := let H := fresh in intro H; simpl in H; intuition discriminate.

Lemma state_keys :
  state_key "enabled" /\ state_key "service_name" /\ state_key "user_service" /\
  state_key "backend" /\ state_key "redir_port" /\ state_key "rules_applied" /\
  state_key "updated_at".
Proof. repeat split; first [not_in_lit | reflexivity]. Qed.

Lemma show_bool_rt (b : bool) : rstr_eqb (trim (show_bool b)) (rs "true") = b.
Proof. destruct b; reflexivity. Qed.

Lemma as_str_rt (b : RuleBackend) : from_str (trim (as_str b)) = b.
Proof. destruct b; reflexivity. Qed.

Lemma parse_kv_enabled (a : ParseAcc) (v : rstr) :
  parse_kv a (rs "enabled") v =
  Ok {| p_enabled := Some (rstr_eqb v (rs "true")); p_service_name := p_service_name a;
        p_user_service := p_user_service a; p_backend := p_backend a;
        p_redir_port := p_redir_port a; p_rules_applied := p_rules_applied a;
        p_updated_at := p_updated_at a |}.
Proof. reflexivity. Qed.

Lemma parse_kv_service_name (a : ParseAcc) (v : rstr) :
  parse_kv a (rs "service_name") v =
  Ok {| p_enabled := p_enabled a; p_service_name := Some v;
        p_user_service := p_user_service a; p_backend := p_backend a;
        p_redir_port := p_redir_port a; p_rules_applied := p_rules_applied a;
        p_updated_at := p_updated_at a |}.
Proof. reflexivity. Qed.

Lemma parse_kv_user_service (a : ParseAcc) (v : rstr) :
  parse_kv a (rs "user_service") v =
  Ok {| p_enabled := p_enabled a; p_service_name := p_service_name a;
        p_user_service := Some (rstr_eqb v (rs "true")); p_backend := p_backend a;
        p_redir_port := p_redir_port a; p_rules_applied := p_rules_applied a;
        p_updated_at := p_updated_at a |}.
Proof. reflexivity. Qed.

Lemma parse_kv_backend (a : ParseAcc) (v : rstr) :
  parse_kv a (rs "backend") v =
  Ok {| p_enabled := p_enabled a; p_service_name := p_service_name a;
        p_user_service := p_user_service a; p_backend := Some (from_str v);
        p_redir_port := p_redir_port a; p_rules_applied := p_rules_applied a;
        p_updated_at := p_updated_at a |}.
Proof. reflexivity. Qed.

Lemma parse_kv_redir_port (a : ParseAcc) (v : rstr) :
  parse_kv a (rs "redir_port") v =
  match parse_u16 v with
  | Some n =>
      Ok {| p_enabled := p_enabled a; p_service_name := p_service_name a;
            p_user_service := p_user_service a; p_backend := p_backend a;
            p_redir_port := Some n; p_rules_applied := p_rules_applied a;
            p_updated_at := p_updated_at a |}
  | None => Err ["解析 tun.state.redir_port 失败"%string]
  end.
Proof. unfold parse_kv; cbn -[parse_u16 parse_u64]; reflexivity. Qed.

Lemma parse_kv_rules_applied (a : ParseAcc) (v : rstr) :
  parse_kv a (rs "rules_applied") v =
  Ok {| p_enabled := p_enabled a; p_service_name := p_service_name a;
        p_user_service := p_user_service a; p_backend := p_backend a;
        p_redir_port := p_redir_port a; p_rules_applied := Some (rstr_eqb v (rs "true"));
        p_updated_at := p_updated_at a |}.
Proof. reflexivity. Qed.

Lemma parse_kv_updated_at (a : ParseAcc) (v : rstr) :
  parse_kv a (rs "updated_at") v =
  match parse_u64 v with
  | Some n =>
      Ok {| p_enabled := p_enabled a; p_service_name := p_service_name a;
            p_user_service := p_user_service a; p_backend := p_backend a;
            p_redir_port := p_redir_port a; p_rules_applied := p_rules_applied a;
            p_updated_at := Some n |}
  | None => Err ["解析 tun.state.updated_at 失败"%string]
  end.
Proof. unfold parse_kv; cbn -[parse_u16 parse_u64]; reflexivity. Qed.

Lemma parse_lines_cons_ok (a a' : ParseAcc) (l : rstr) (r : list rstr) :
  parse_line a l = Ok a' -> parse_lines a (l :: r) = parse_lines a' r.
Proof. intros H; simpl; rewrite H; reflexivity. Qed.

Ltac projs :=
  cbn [p_enabled p_service_name p_user_service p_backend p_redir_port
       p_rules_applied p_updated_at].

Lemma parse_lines_seven (v1 v2 v3 v4 v5 v6 v7 : rstr) (p u : N) :
  parse_u16 (trim v5) = Some p -> parse_u64 (trim v7) = Some u ->
  parse_lines acc0
    [kv "enabled" v1; kv "service_name" v2; kv "user_service" v3; kv "backend" v4;
     kv "redir_port" v5; kv "rules_applied" v6; kv "updated_at" v7] =
  Ok {| p_enabled := Some (rstr_eqb (trim v1) (rs "true"));
        p_service_name := Some (trim v2);
        p_user_service := Some (rstr_eqb (trim v3) (rs "true"));
        p_backend := Some (from_str (trim v4));
        p_redir_port := Some p;
        p_rules_applied := Some (rstr_eqb (trim v6) (rs "true"));
        p_updated_at := Some u |}.
Proof.
  intros H5 H7.
  destruct state_keys as (K1 & K2 & K3 & K4 & K5 & K6 & K7).
  rewrite (parse_lines_cons_ok _ _ _ _ (eq_trans (parse_line_kv _ _ _ K1) (parse_kv_enabled _ _))).
  projs.
  rewrite (parse_lines_cons_ok _ _ _ _ (eq_trans (parse_line_kv _ _ _ K2) (parse_kv_service_name _ _))).
  projs.
  rewrite (parse_lines_cons_ok _ _ _ _ (eq_trans (parse_line_kv _ _ _ K3) (parse_kv_user_service _ _))).
  projs.
  rewrite (parse_lines_cons_ok _ _ _ _ (eq_trans (parse_line_kv _ _ _ K4) (parse_kv_backend _ _))).
  projs.
  rewrite (parse_lines_cons_ok _ _ _ _
             (eq_trans (eq_trans (parse_line_kv _ _ _ K5) (parse_kv_redir_port _ _))
                       (f_equal (fun o => match o with Some n => _ | None => _ end) H5))).
  rewrite (parse_lines_cons_ok _ _ _ _ (eq_trans (parse_line_kv _ _ _ K6) (parse_kv_rules_applied _ _))).
  projs.
  rewrite (parse_lines_cons_ok _ _ _ _
             (eq_trans (eq_trans (parse_line_kv _ _ _ K7) (parse_kv_updated_at _ _))
                       (f_equal (fun o => match o with Some n => _ | None => _ end) H7))).
  reflexivity.
Qed.

Lemma from_text_to_text (st : TunState) :
  state_wf st -> service_name_ok (service_name st) ->
  from_text (to_text st) = Ok st.
Proof.
  intros [Hp Hu] [Hnl [Hhd Htl]].
  destruct state_keys as (K1 & K2 & K3 & K4 & K5 & K6 & K7).
  assert (Hsn : trim (service_name st) = service_name st) by (apply trim_id; assumption).
  assert (Hp16 : parse_u16 (show_N (redir_port st)) = Some (redir_port st))
    by (apply parse_show_N; [simpl; lia | assumption]).
  assert (Hu64 : parse_u64 (show_N (updated_at st)) = Some (updated_at st))
    by (apply parse_show_N; [simpl; lia | assumption]).
  rewrite to_text_join. unfold from_text.
  rewrite lines_join.
  2:{ repeat constructor; apply in_kv_10; try not_in_lit; try assumption;
      try apply show_N_no_nl;
      try (destruct (enabled st)); try (destruct (user_service st));
      try (destruct (rules_applied st)); try (destruct (backend st)); not_in_lit. }
  assert (Hlast : forall k v, ~ In 13%N (rs k) ->
            (forall c, hd_error (rev v) = Some c -> c <> 13%N) ->
            strip_cr (kv k v) = kv k v).
  { intros k v Hk Hv. apply strip_cr_id. intros c Hc.
    destruct (last_kv _ _ _ Hc) as [[_ ->]|Hc']; [discriminate | exact (Hv _ Hc')]. }
  assert (Hb : forall b c, hd_error (rev (show_bool b)) = Some c -> c <> 13%N).
  { intros [|] c Hc; simpl in Hc; injection Hc as <-; discriminate. }
  cbn [map].
  rewrite !Hlast by first
    [ not_in_lit | apply Hb | apply show_N_last
    | intros c Hc; specialize (Htl c Hc); intros ->; discriminate
    | intros c Hc; destruct (backend st); simpl in Hc; injection Hc as <-; discriminate ].
  destruct st as [en sn us b rp ra ua];
  cbn [redir_port updated_at service_name enabled user_service backend rules_applied] in *.
  rewrite (parse_lines_seven _ _ _ _ _ _ _ rp ua) by (rewrite trim_show_N; assumption).
  unfold finish, opt_context; projs.
  rewrite Hsn, !show_bool_rt, as_str_rt.
  reflexivity.
Qed.

Ltac key_cases :=
  repeat split; intros;
  first [ reflexivity
        | congruence
        | match goal with
          | Heq : rs _ = rs _ |- _ => vm_compute in Heq; congruence
          | Hne : rs ?k <> rs ?k |- _ => exfalso; apply Hne; reflexivity
          end ].

(** What one line of the state file changes in the accumulator. *)
Lemma parse_kv_frame (a : ParseAcc) (key value : rstr) (a' : ParseAcc) :
  parse_kv a key value = Ok a' ->
  (key <> rs "enabled" -> p_enabled a' = p_enabled a) /\
  (key <> rs "service_name" -> p_service_name a' = p_service_name a) /\
  (key <> rs "user_service" -> p_user_service a' = p_user_service a) /\
  (key <> rs "backend" -> p_backend a' = p_backend a) /\
  (key = rs "backend" -> p_backend a' = Some (from_str value)) /\
  (key <> rs "redir_port" -> p_redir_port a' = p_redir_port a) /\
  (key <> rs "rules_applied" -> p_rules_applied a' = p_rules_applied a) /\
  (key <> rs "updated_at" -> p_updated_at a' = p_updated_at a).
Proof.
  unfold parse_kv; intros H.
  destruct (rstr_eqb_spec key (rs "enabled")) as [->|E1];
    [injection H as <-; cbn; key_cases|].
  destruct (rstr_eqb_spec key (rs "service_name")) as [->|E2];
    [injection H as <-; cbn; key_cases|].
  destruct (rstr_eqb_spec key (rs "user_service")) as [->|E3];
    [injection H as <-; cbn; key_cases|].
  destruct (rstr_eqb_spec key (rs "backend")) as [->|E4];
    [injection H as <-; cbn; key_cases|].
  destruct (rstr_eqb_spec key (rs "redir_port")) as [->|E5].
  { destruct (parse_u16 value); [injection H as <-; cbn; key_cases | discriminate]. }
  destruct (rstr_eqb_spec key (rs "rules_applied")) as [->|E6];
    [injection H as <-; cbn; key_cases|].
  destruct (rstr_eqb_spec key (rs "updated_at")) as [->|E7].
  { destruct (parse_u64 value); [injection H as <-; cbn; key_cases | discriminate]. }
  injection H as <-; repeat split; intros; first [reflexivity | congruence].
Qed.

Lemma parse_lines_preserve {T} (f : ParseAcc -> T) (k : rstr) :
  (forall a key value a', parse_kv a key value = Ok a' -> key <> k -> f a' = f a) ->
  forall ls a a', parse_lines a ls = Ok a' ->
  (forall l, In l ls -> line_key l <> k) -> f a' = f a.
Proof.
  intros Hkv ls; induction ls as [|l ls IH]; intros a a' H Hk; simpl in H.
  - congruence.
  - destruct (parse_line a l) as [a1|e] eqn:E; [|discriminate].
    rewrite (IH a1 a' H) by (intros; apply Hk; right; assumption).
    apply (Hkv _ _ _ _ E). apply Hk; left; reflexivity.
Qed.

Lemma has_key_false (content k : rstr) :
  has_key content k = false -> forall l, In l (lines content) -> line_key l <> k.
Proof.
  unfold has_key; intros H l Hl Heq.
  assert (Ht : existsb (fun l => rstr_eqb (line_key l) k) (lines content) = true).
  { apply existsb_exists. exists l; split; [assumption|].
    destruct (rstr_eqb_spec (line_key l) k); congruence. }
  congruence.
Qed.

Lemma parse_lines_backend (ls : list rstr) (a a' : ParseAcc) :
  parse_lines a ls = Ok a' ->
  (forall l, In l ls -> line_key l = rs "backend" -> from_str (line_value l) = BNone) ->
  (p_backend a = None \/ p_backend a = Some BNone) ->
  p_backend a' = None \/ p_backend a' = Some BNone.
Proof.
  revert a; induction ls as [|l ls IH]; intros a H Hl Ha; simpl in H.
  - congruence.
  - destruct (parse_line a l) as [a1|e] eqn:E; [|discriminate].
    apply (IH a1 H); [intros; apply Hl; [right|]; assumption|].
    unfold parse_line in E. destruct (parse_kv_frame _ _ _ _ E) as (_&_&_&F1&F2&_).
    destruct (rstr_eqb_spec (line_key l) (rs "backend")) as [Hb|Hb].
    + right. rewrite F2 by assumption. rewrite Hl by first [left; reflexivity | assumption]. reflexivity.
    + rewrite F1 by assumption. assumption.
Qed.

(** A line with key [k] whose value does not parse stops the loop with
    an error. *)
Lemma parse_lines_bad_number (k : rstr) (parse : rstr -> option N) :
  (forall a value, parse value = None -> exists e, parse_kv a k value = Err e) ->
  forall ls a l, In l ls -> line_key l = k -> parse (line_value l) = None ->
  exists e, parse_lines a ls = Err e.
Proof.
  intros Hk ls; induction ls as [|l0 ls IH]; intros a l Hin Hkey Hv; [destruct Hin|].
  simpl. destruct Hin as [<-|Hin].
  - unfold parse_line. rewrite Hkey. destruct (Hk a _ Hv) as [e ->]. exists e; reflexivity.
  - destruct (parse_line a l0) as [a1|e]; [exact (IH a1 l Hin Hkey Hv) | exists e; reflexivity].
Qed.

Lemma finish_ok (a : ParseAcc) (st : TunState) :
  finish a = Ok st ->
  p_enabled a <> None /\ p_service_name a <> None /\ p_user_service a <> None /\
  p_updated_at a <> None /\
  backend st = match p_backend a with Some b => b | None => BNone end /\
  redir_port st = match p_redir_port a with Some p => p | None => DEFAULT_REDIR_PORT end /\
  rules_applied st = match p_rules_applied a with Some r => r | None => false end.
Proof.
  unfold finish, opt_context.
  destruct (p_enabled a), (p_service_name a), (p_user_service a), (p_updated_at a);
    try discriminate.
  intros H; injection H as <-; cbn; repeat split; discriminate.
Qed.

Lemma from_text_ok (content : rstr) (st : TunState) :
  from_text content = Ok st ->
  exists a, parse_lines acc0 (lines content) = Ok a /\ finish a = Ok st.
Proof.
  unfold from_text. destruct (parse_lines acc0 (lines content)) as [a|e]; [|discriminate].
  intros H; exists a; split; [reflexivity | exact H].
Qed.

Lemma from_text_required (k : rstr) (f : ParseAcc -> bool) :
  (forall a key value a', parse_kv a key value = Ok a' -> key <> k -> f a' = f a) ->
  f acc0 = false ->
  (forall a st, finish a = Ok st -> f a = true) ->
  forall content, has_key content k = false -> exists e, from_text content = Err e.
Proof.
  intros Hkv H0 Hfin content Hk.
  destruct (from_text content) as [st|e] eqn:E; [|exists e; reflexivity].
  destruct (from_text_ok _ _ E) as (a & Ha & Hf).
  pose proof (parse_lines_preserve f k Hkv _ _ _ Ha (has_key_false _ _ Hk)) as Hp.
  rewrite (Hfin _ _ Hf), H0 in Hp. discriminate.
Qed.

Lemma is_some_ne {A} (o : option A) : o <> None -> is_some o = true.
Proof. destruct o; [reflexivity | congruence]. Qed.

(** C10: [TunState::from_text] requires [enabled], [service_name],
    [user_service] and [updated_at] (a missing one is an error), and a
    [redir_port] or [updated_at] value that does not parse as a number of
    its type is an error; a missing or unrecognised [backend] gives
    [none], a missing [redir_port] gives 7892 and a missing
    [rules_applied] gives [false]. Parsing the text written by [to_text]
    gives back the state, for every state whose service name has no
    newline and no white space at either end. *)
Theorem from_text_contract :
  (forall content, has_key content (rs "enabled") = false ->
     exists e, from_text content = Err e) /\
  (forall content, has_key content (rs "service_name") = false ->
     exists e, from_text content = Err e) /\
  (forall content, has_key content (rs "user_service") = false ->
     exists e, from_text content = Err e) /\
  (forall content, has_key content (rs "updated_at") = false ->
     exists e, from_text content = Err e) /\
  (forall content l, In l (lines content) -> line_key l = rs "redir_port" ->
     parse_u16 (line_value l) = None -> exists e, from_text content = Err e) /\
  (forall content l, In l (lines content) -> line_key l = rs "updated_at" ->
     parse_u64 (line_value l) = None -> exists e, from_text content = Err e) /\
  (forall content st, from_text content = Ok st ->
     (forall l, In l (lines content) -> line_key l = rs "backend" ->
        from_str (line_value l) = BNone) ->
     backend st = BNone) /\
  (forall content st, from_text content = Ok st ->
     has_key content (rs "redir_port") = false -> redir_port st = DEFAULT_REDIR_PORT) /\
  (forall content st, from_text content = Ok st ->
     has_key content (rs "rules_applied") = false -> rules_applied st = false) /\
  (forall st, state_wf st -> service_name_ok (service_name st) ->
     from_text (to_text st) = Ok st).
Proof.
  split; [|split; [|split; [|split; [|split; [|split; [|split; [|split; [|split]]]]]]]].
  - apply (from_text_required _ (fun a => is_some (p_enabled a))); [| reflexivity |].
    + intros a key value a' H Hk. destruct (parse_kv_frame _ _ _ _ H) as (F&_). rewrite F; auto.
    + intros a st H. apply is_some_ne. apply (finish_ok _ _ H).
  - apply (from_text_required _ (fun a => is_some (p_service_name a))); [| reflexivity |].
    + intros a key value a' H Hk. destruct (parse_kv_frame _ _ _ _ H) as (_&F&_). rewrite F; auto.
    + intros a st H. apply is_some_ne. apply (finish_ok _ _ H).
  - apply (from_text_required _ (fun a => is_some (p_user_service a))); [| reflexivity |].
    + intros a key value a' H Hk. destruct (parse_kv_frame _ _ _ _ H) as (_&_&F&_). rewrite F; auto.
    + intros a st H. apply is_some_ne. apply (finish_ok _ _ H).
  - apply (from_text_required _ (fun a => is_some (p_updated_at a))); [| reflexivity |].
    + intros a key value a' H Hk. destruct (parse_kv_frame _ _ _ _ H) as (_&_&_&_&_&_&_&F). rewrite F; auto.
    + intros a st H. apply is_some_ne. apply (finish_ok _ _ H).
  - intros content l Hin Hk Hv. unfold from_text.
    destruct (parse_lines_bad_number (rs "redir_port") parse_u16) with
      (ls := lines content) (a := acc0) (l := l) as [e ->]; try assumption.
    + intros a value Hval. unfold parse_kv. cbn -[parse_u16 parse_u64].
      rewrite Hval. eexists; reflexivity.
    + exists e; reflexivity.
  - intros content l Hin Hk Hv. unfold from_text.
    destruct (parse_lines_bad_number (rs "updated_at") parse_u64) with
      (ls := lines content) (a := acc0) (l := l) as [e ->]; try assumption.
    + intros a value Hval. unfold parse_kv. cbn -[parse_u16 parse_u64].
      rewrite Hval. eexists; reflexivity.
    + exists e; reflexivity.
  - intros content st H Hb. destruct (from_text_ok _ _ H) as (a & Ha & Hf).
    destruct (finish_ok _ _ Hf) as (_&_&_&_&->&_).
    destruct (parse_lines_backend _ _ _ Ha Hb (or_introl eq_refl)) as [->| ->]; reflexivity.
  - intros content st H Hk. destruct (from_text_ok _ _ H) as (a & Ha & Hf).
    destruct (finish_ok _ _ Hf) as (_&_&_&_&_&->&_).
    rewrite (parse_lines_preserve p_redir_port (rs "redir_port")) with
      (ls := lines content) (a := acc0) (a' := a); try assumption; [reflexivity| |].
    + intros a0 key value a1 Hkv Hne. destruct (parse_kv_frame _ _ _ _ Hkv) as (_&_&_&_&_&F&_). auto.
    + apply has_key_false; assumption.
  - intros content st H Hk. destruct (from_text_ok _ _ H) as (a & Ha & Hf).
    destruct (finish_ok _ _ Hf) as (_&_&_&_&_&_&->).
    rewrite (parse_lines_preserve p_rules_applied (rs "rules_applied")) with
      (ls := lines content) (a := acc0) (a' := a); try assumption; [reflexivity| |].
    + intros a0 key value a1 Hkv Hne. destruct (parse_kv_frame _ _ _ _ Hkv) as (_&_&_&_&_&_&F&_). auto.
    + apply has_key_false; assumption.
  - exact from_text_to_text.
Qed.

(* ================================================================= *)
(** ** Tools and faults are static *)

Lemma frame_refl (w : World) : frame w w.
Proof. split; reflexivity. Qed.

Lemma frame_trans (w1 w2 w3 : World) : frame w1 w2 -> frame w2 w3 -> frame w1 w3.
Proof. intros [H1 H2] [H3 H4]; split; congruence. Qed.

Lemma installed_frame (w w' : World) (p : string) :
  frame w w' -> installed w' p = installed w p.
Proof. intros [H _]; unfold installed; rewrite H; reflexivity. Qed.

Lemma faulty_frame (w w' : World) (p : string) (a : list string) :
  frame w w' -> faulty w' p a = faulty w p a.
Proof. intros [_ H]; unfold faulty; rewrite H; reflexivity. Qed.

Ltac split_all :=
  repeat match goal with
         | |- context [if ?c then _ else _] => destruct c
         | |- context [match ?x with _ => _ end] => destruct x
         end.

Lemma exec_frame (w : World) (p : string) (a : list string) : frame w (snd (exec w p a)).
Proof.
  unfold exec, exec_nft, exec_iptables, exec_systemctl, ok_if.
  split_all; split; reflexivity.
Qed.

Lemma static_ret {A} (a : A) : static (ret a).
Proof. intros w; apply frame_refl. Qed.

Lemma static_bind {A B} (m : M A) (k : A -> M B) :
  static m -> (forall a, static (k a)) -> static (bind m k).
Proof.
  intros Hm Hk w; unfold bind. specialize (Hm w).
  destruct (m w) as [[a|e] w']; [|exact Hm].
  exact (frame_trans _ _ _ Hm (Hk a w')).
Qed.

Lemma static_bail {A} (msg : string) : static (@bail A msg).
Proof. intros w; apply frame_refl. Qed.

Lemma static_raise {A} (e : error) : static (@raise A e).
Proof. intros w; apply frame_refl. Qed.

Lemma static_context {A} (msg : string) (m : M A) : static m -> static (context msg m).
Proof. intros Hm w; unfold context; specialize (Hm w); destruct (m w) as [[a|e] w']; exact Hm. Qed.

Lemma static_catch {A} (m : M A) : static m -> static (catch m).
Proof. intros Hm w; unfold catch; specialize (Hm w); destruct (m w) as [r w']; exact Hm. Qed.

Lemma static_ignore {A} (m : M A) : static m -> static (ignore m).
Proof. intros Hm w; exact (Hm w). Qed.

Lemma static_check_cmd_success (p : string) (a : list string) : static (check_cmd_success p a).
Proof.
  intros w; unfold check_cmd_success. pose proof (exec_frame w p a) as H.
  destruct (exec w p a) as [[|[|]] w']; exact H.
Qed.

Lemma static_run_cmd (p : string) (a : list string) : static (run_cmd p a).
Proof.
  intros w; unfold run_cmd. pose proof (exec_frame w p a) as H.
  destruct (exec w p a) as [[|[|]] w']; exact H.
Qed.

Lemma static_run_cmd_with_stdin (p : string) (a : list string) (i : string) :
  static (run_cmd_with_stdin p a i).
Proof.
  intros w; unfold run_cmd_with_stdin. pose proof (exec_frame w p a) as H.
  destruct (exec w p a) as [[|[|]] w']; exact H.
Qed.

Lemma static_run_all (f : string -> M unit) (xs : list string) :
  (forall x, static (f x)) -> static (run_all f xs).
Proof.
  intros Hf; induction xs as [|x xs IH]; simpl; [apply static_ret | apply static_bind; auto].
Qed.

Create HintDb static_db.
#[local] Hint Resolve static_ret static_bail static_raise static_context static_catch
  static_ignore static_check_cmd_success static_run_cmd static_run_cmd_with_stdin
  static_run_all : static_db.

Ltac static_tac :=
  repeat first
    [ progress intros
    | apply static_bind
    | match goal with
      | |- static (if ?c then _ else _) => destruct c
      | |- static (match ?x with _ => _ end) => destruct x
      end
    | solve [eauto with static_db] ].

Lemma static_command_exists (b : string) : static (command_exists b).
Proof. unfold command_exists; static_tac. Qed.
#[local] Hint Resolve static_command_exists : static_db.

Lemma static_nft_rules_active : static nft_rules_active.
Proof. unfold nft_rules_active; static_tac. Qed.

Lemma static_iptables_rules_active : static iptables_rules_active.
Proof. unfold iptables_rules_active; static_tac. Qed.
#[local] Hint Resolve static_nft_rules_active static_iptables_rules_active : static_db.

Lemma static_apply_nft_rules (p : N) : static (apply_nft_rules p).
Proof. unfold apply_nft_rules; static_tac. Qed.

Lemma static_cleanup_nft_rules : static cleanup_nft_rules.
Proof. unfold cleanup_nft_rules; static_tac. Qed.

Lemma static_ensure_iptables_jump (b h : string) (n : bool) : static (ensure_iptables_jump b h n).
Proof. unfold ensure_iptables_jump; static_tac. Qed.
#[local] Hint Resolve static_ensure_iptables_jump : static_db.

Lemma static_configure_iptables_binary (b : string) (p : N) (o : bool) :
  static (configure_iptables_binary b p o).
Proof. unfold configure_iptables_binary; static_tac. Qed.
#[local] Hint Resolve static_configure_iptables_binary : static_db.

Lemma static_apply_iptables_rules (p : N) : static (apply_iptables_rules p).
Proof. unfold apply_iptables_rules; static_tac. Qed.

Lemma static_cleanup_jump_loop (f : nat) (b h : string) (n : bool) :
  static (cleanup_jump_loop f b h n).
Proof. induction f; simpl; static_tac. Qed.
#[local] Hint Resolve static_cleanup_jump_loop : static_db.

Lemma static_cleanup_iptables_binary (b : string) (o : bool) : static (cleanup_iptables_binary b o).
Proof. unfold cleanup_iptables_binary, cleanup_iptables_jump; static_tac. Qed.
#[local] Hint Resolve static_cleanup_iptables_binary : static_db.

Lemma static_cleanup_iptables_rules : static cleanup_iptables_rules.
Proof. unfold cleanup_iptables_rules; static_tac. Qed.
#[local] Hint Resolve static_apply_nft_rules static_cleanup_nft_rules
  static_apply_iptables_rules static_cleanup_iptables_rules : static_db.

(* ================================================================= *)
(** ** Probes *)

Lemma exec_version (w : World) (b : string) (a : list string) :
  a = ["--version"%string] \/ a = ["-V"%string] ->
  exec w b a = ((if installed w b then if faulty w b a then Exited false else Exited true
                 else NotFound), w).
Proof.
  intros [-> | ->]; unfold exec;
    (destruct (installed w b); [|reflexivity]); cbn [negb];
    (destruct (faulty w b _); [reflexivity|]);
    unfold exec_nft, exec_iptables, exec_systemctl, ok_if; cbn;
    split_all; reflexivity.
Qed.

Lemma command_exists_eq (b : string) (w : World) :
  command_exists b w = (Ok (tool_present w b), w).
Proof.
  unfold command_exists, bind, check_cmd_success, tool_present.
  rewrite (exec_version w b ["--version"%string]) by (left; reflexivity).
  destruct (installed w b) eqn:Ei, (faulty w b ["--version"%string]); cbv beta iota;
    try reflexivity;
    rewrite (exec_version w b ["-V"%string]) by (right; reflexivity); rewrite Ei;
    destruct (faulty w b ["-V"%string]); reflexivity.
Qed.

Lemma command_exists_frame (b : string) (w w' : World) :
  frame w w' -> fst (command_exists b w') = fst (command_exists b w).
Proof.
  intros F; rewrite !command_exists_eq; cbn; unfold tool_present.
  rewrite (installed_frame _ _ _ F), !(faulty_frame _ _ _ _ F); reflexivity.
Qed.

(* ================================================================= *)
(** ** Applying rules: the nft to iptables fallback *)

Ltac iff_solve :=
  repeat split; intros;
  repeat match goal with
         | H : exists _, _ |- _ => destruct H
         | H : _ /\ _ |- _ => destruct H
         | H : _ \/ _ |- _ => destruct H
         end;
  try discriminate; try congruence;
  try (eexists; reflexivity); try (left; reflexivity); try (right; eexists; reflexivity);
  try (split; [discriminate | split; reflexivity]).

(** C4: with the nft backend preferred, [apply_dataplane_rules] returns
    [Nft] exactly when the nft attempt succeeds; it returns [Iptables]
    exactly when the nft attempt fails, the iptables tool is present and
    the iptables attempt (made on the world the nft attempt left)
    succeeds; it fails exactly when the nft attempt fails and either
    iptables is absent or the iptables attempt fails; it never returns
    [None]. *)
Theorem apply_dataplane_rules_nft_fallback (redir_port : N) (w : World) :
  let nft := apply_nft_rules redir_port w in
  let present := fst (command_exists "iptables" w) in
  let ipt := fst (apply_iptables_rules redir_port (snd nft)) in
  let r := fst (apply_dataplane_rules Nft redir_port w) in
  (r = Ok Nft <-> fst nft = Ok tt) /\
  (r = Ok Iptables <-> fst nft <> Ok tt /\ present = Ok true /\ ipt = Ok tt) /\
  ((exists e, r = Err e) <->
     fst nft <> Ok tt /\ (present = Ok false \/ exists e, ipt = Err e)) /\
  r <> Ok BNone.
Proof.
  pose proof (static_apply_nft_rules redir_port w) as F.
  unfold apply_dataplane_rules, catch, bind.
  destruct (apply_nft_rules redir_port w) as [rn w1]; cbn [fst snd] in *.
  destruct rn as [[]|e].
  - cbn. iff_solve.
  - rewrite !command_exists_eq. unfold tool_present.
    rewrite (installed_frame _ _ _ F), !(faulty_frame _ _ _ _ F).
    cbn [fst snd].
    destruct (installed w "iptables" && _) eqn:Ep.
    + unfold context.
      destruct (apply_iptables_rules redir_port w1) as [[[]|e'] w2]; cbn; iff_solve.
    + cbn. iff_solve.
Qed.

(* ================================================================= *)
(** ** Cleaning up both backends *)

(** C3 (counterexample): on a machine with nft but no iptables and no
    rules installed, the nft cleanup succeeds and still
    [cleanup_dataplane_rules_all] fails. *)
Lemma cleanup_all_partial_success_fails :
  fst (cleanup_nft_rules (world0 ["nft"%string])) = Ok tt /\
  exists e, fst (cleanup_dataplane_rules_all (world0 ["nft"%string])) = Err e.
Proof. split; [reflexivity | eexists; reflexivity]. Qed.

(** C3: [cleanup_dataplane_rules_all] always runs the nft cleanup and
    then the iptables cleanup on the world the first left, and succeeds
    exactly when both succeed. The nft cleanup succeeds without touching
    anything when nft is absent; the iptables cleanup fails when iptables
    is absent. *)
Theorem cleanup_dataplane_rules_all_spec (w : World) :
  let (r1, w1) := cleanup_nft_rules w in
  let (r2, w2) := cleanup_iptables_rules w1 in
  snd (cleanup_dataplane_rules_all w) = w2 /\
  (fst (cleanup_dataplane_rules_all w) = Ok tt <-> r1 = Ok tt /\ r2 = Ok tt) /\
  (fst (command_exists "nft" w) = Ok false -> cleanup_nft_rules w = (Ok tt, w)) /\
  (fst (command_exists "iptables" w) = Ok false -> exists e, r2 = Err e).
Proof.
  pose proof (static_cleanup_nft_rules w) as F.
  assert (Hn : fst (command_exists "nft" w) = Ok false -> cleanup_nft_rules w = (Ok tt, w)).
  { unfold cleanup_nft_rules, bind. rewrite command_exists_eq. cbn.
    intros H; injection H as ->; reflexivity. }
  unfold cleanup_dataplane_rules_all, catch, bind.
  destruct (cleanup_nft_rules w) as [r1 w1]; cbn [fst snd] in F.
  assert (Hi : fst (command_exists "iptables" w) = Ok false ->
               exists e, fst (cleanup_iptables_rules w1) = Err e).
  { rewrite <- (command_exists_frame _ _ _ F).
    unfold cleanup_iptables_rules, cleanup_iptables_binary, bind at 1 2.
    rewrite command_exists_eq; cbn. intros H; injection H as ->.
    eexists; reflexivity. }
  destruct (cleanup_iptables_rules w1) as [r2 w2].
  split; [destruct r1, r2; reflexivity|].
  split; [|split; assumption].
  destruct r1 as [[]|], r2 as [[]|]; cbn; iff_solve.
Qed.

(* ================================================================= *)
(** ** The nat table of one iptables binary *)

Lemma ipt_of_with_ipt (w : World) (b : string) (t : IptState) : ipt_of (with_ipt w b t) b = t.
Proof. unfold ipt_of, with_ipt; cbn; destruct (String.eqb b "ip6tables"); reflexivity. Qed.

Lemma with_ipt_with_ipt (w : World) (b : string) (t1 t2 : IptState) :
  with_ipt (with_ipt w b t1) b t2 = with_ipt w b t2.
Proof. unfold with_ipt; cbn; destruct (String.eqb b "ip6tables"); reflexivity. Qed.

Lemma with_ipt_id (w : World) (b : string) : with_ipt w b (ipt_of w b) = w.
Proof. destruct w; unfold with_ipt, ipt_of; cbn; destruct (String.eqb b "ip6tables"); reflexivity. Qed.

Lemma frame_with_ipt (w : World) (b : string) (t : IptState) : frame w (with_ipt w b t).
Proof. split; reflexivity. Qed.

Lemma set_jumps_id (t : IptState) (k : JumpKind) : set_jumps t k (jumps t k) = t.
Proof. destruct t, k; reflexivity. Qed.

Lemma jumps_set_jumps (t : IptState) (k : JumpKind) (n : nat) : jumps (set_jumps t k n) k = n.
Proof. destruct k; reflexivity. Qed.

Lemma set_jumps_set_jumps (t : IptState) (k : JumpKind) (n m : nat) :
  set_jumps (set_jumps t k n) k m = set_jumps t k m.
Proof. destruct k; reflexivity. Qed.

Lemma exec_ipt (w : World) (b : string) (args : list string) :
  b = "iptables"%string \/ b = "ip6tables"%string ->
  exec w b args =
  if installed w b then if faulty w b args then (Exited false, w) else exec_iptables w b args
  else (NotFound, w).
Proof.
  intros Hb; unfold exec.
  destruct (installed w b); [|reflexivity]; cbn [negb].
  destruct (faulty w b args); [reflexivity|].
  destruct Hb as [-> | ->]; reflexivity.
Qed.

Lemma exec_iptables_C (w : World) (b hook : string) (nro : bool) (k : JumpKind) :
  In (hook, nro, k) jump_table ->
  exec_iptables w b (jump_rule "-C" hook nro) = (Exited (Nat.ltb 0 (jumps (ipt_of w b) k)), w).
Proof.
  intros Hin; destruct Hin as [H|[H|[H|[]]]]; injection H as <- <- <-; reflexivity.
Qed.

Lemma exec_iptables_D (w : World) (b hook : string) (nro : bool) (k : JumpKind) :
  In (hook, nro, k) jump_table ->
  exec_iptables w b (jump_rule "-D" hook nro) =
  match jumps (ipt_of w b) k with
  | S n => (Exited true, with_ipt w b (set_jumps (ipt_of w b) k n))
  | O => (Exited false, w)
  end.
Proof.
  intros Hin; destruct Hin as [H|[H|[H|[]]]]; injection H as <- <- <-; reflexivity.
Qed.

Lemma cleanup_jump_loop_eq (fuel : nat) (w : World) (b hook : string) (nro : bool) (k : JumpKind) :
  In (hook, nro, k) jump_table -> b = "iptables"%string \/ b = "ip6tables"%string ->
  installed w b = true ->
  cleanup_jump_loop fuel b hook nro w =
  let (r, n) := jump_cleanup_effect fuel (faulty w b (jump_rule "-C" hook nro))
                  (faulty w b (jump_rule "-D" hook nro)) (jumps (ipt_of w b) k) in
  (r, with_ipt w b (set_jumps (ipt_of w b) k n)).
Proof.
  intros Hin Hb. revert w. induction fuel as [|f IH]; intros w Hi.
  - unfold jump_cleanup_effect; cbn.
    destruct (faulty w b (jump_rule "-C" hook nro)), (faulty w b (jump_rule "-D" hook nro));
      cbn; rewrite ?Nat.sub_0_r, set_jumps_id, with_ipt_id; reflexivity.
  - cbn [cleanup_jump_loop]. unfold bind, check_cmd_success.
    rewrite (exec_ipt _ _ _ Hb), Hi.
    unfold jump_cleanup_effect.
    destruct (faulty w b (jump_rule "-C" hook nro)) eqn:EC.
    + cbn. rewrite set_jumps_id, with_ipt_id; reflexivity.
    + rewrite (exec_iptables_C _ _ _ _ _ Hin).
      destruct (jumps (ipt_of w b) k) as [|n] eqn:Ej.
      * destruct (faulty w b (jump_rule "-D" hook nro)); cbn;
          rewrite <- Ej, set_jumps_id, with_ipt_id; reflexivity.
      * cbn. unfold run_cmd. rewrite (exec_ipt _ _ _ Hb), Hi.
        destruct (faulty w b (jump_rule "-D" hook nro)) eqn:ED.
        -- cbn. rewrite <- Ej, set_jumps_id, with_ipt_id; reflexivity.
        -- rewrite (exec_iptables_D _ _ _ _ _ Hin), Ej.
           set (w' := with_ipt w b (set_jumps (ipt_of w b) k n)).
           assert (F : frame w w') by apply frame_with_ipt.
           rewrite IH by (rewrite (installed_frame _ _ _ F); exact Hi).
           rewrite !(faulty_frame _ _ _ _ F), EC, ED.
           unfold jump_cleanup_effect; cbv beta iota.
           subst w'. rewrite ipt_of_with_ipt, jumps_set_jumps, with_ipt_with_ipt,
             set_jumps_set_jumps.
           reflexivity.
Qed.

Lemma installed_with_ipt (w : World) (b p : string) (t : IptState) :
  installed (with_ipt w b t) p = installed w p.
Proof. reflexivity. Qed.

Lemma faulty_with_ipt (w : World) (b p : string) (t : IptState) :
  faulty (with_ipt w b t) p = faulty w p.
Proof. reflexivity. Qed.

Lemma jump_cleanup_effect_err (fuel : nat) (fC fD : bool) (n m : nat) (e : error) :
  jump_cleanup_effect fuel fC fD n = (Err e, m) -> m = n.
Proof.
  unfold jump_cleanup_effect; destruct fC, fD, (Nat.eqb fuel 0 || Nat.eqb n 0);
    intros H; injection H; auto; discriminate.
Qed.

Lemma exec_iptables_F (w : World) (b : string) :
  exec_iptables w b ["-t"; "nat"; "-F"; IPT_CHAIN_NAME]%string =
  match chain (ipt_of w b) with
  | Some _ => (Exited true, with_ipt w b (set_chain (ipt_of w b) (Some [])))
  | None => (Exited false, w)
  end.
Proof. reflexivity. Qed.

Lemma exec_iptables_X (w : World) (b : string) :
  exec_iptables w b ["-t"; "nat"; "-X"; IPT_CHAIN_NAME]%string =
  match chain (ipt_of w b), pre_jumps (ipt_of w b), out_owner_jumps (ipt_of w b),
        out_jumps (ipt_of w b) with
  | Some [], O, O, O => (Exited true, with_ipt w b (set_chain (ipt_of w b) None))
  | _, _, _, _ => (Exited false, w)
  end.
Proof. reflexivity. Qed.

Create Rewrite HintDb ipt_db.
#[local] Hint Rewrite installed_with_ipt faulty_with_ipt ipt_of_with_ipt with_ipt_with_ipt
  : ipt_db.

Lemma cleanup_iptables_binary_eq (w : World) (b : string) (opt : bool) :
  b = "iptables"%string \/ b = "ip6tables"%string ->
  cleanup_iptables_binary b opt w =
  if tool_present w b then
    let (r, t) := ipt_cleanup (faulty w b) (ipt_of w b) in (r, with_ipt w b t)
  else ((if opt then Ok tt else Err ["未检测到 iptables/ip6tables 命令"%string]), w).
Proof.
  intros Hb.
  unfold cleanup_iptables_binary, bind at 1. rewrite command_exists_eq.
  destruct (tool_present w b) eqn:Ep; [|destruct opt; reflexivity].
  assert (Hi : installed w b = true) by (unfold tool_present in Ep; destruct (installed w b); easy).
  cbn [negb]. unfold cleanup_iptables_jump, bind.
  rewrite (cleanup_jump_loop_eq 8 w b "PREROUTING" false JPre) by (simpl; tauto).
  unfold ipt_cleanup. cbn [jumps].
  destruct (jump_cleanup_effect 8 _ _ (pre_jumps (ipt_of w b))) as [[[]|e] p] eqn:E1;
    cbv beta iota.
  2:{ apply jump_cleanup_effect_err in E1; subst p.
      change (pre_jumps (ipt_of w b)) with (jumps (ipt_of w b) JPre).
      rewrite set_jumps_id; reflexivity. }
  rewrite (cleanup_jump_loop_eq 8 _ b "OUTPUT" true JOutOwner) by (simpl; tauto || assumption).
  autorewrite with ipt_db. cbn [jumps set_jumps out_owner_jumps].
  destruct (jump_cleanup_effect 8 _ _ (out_owner_jumps (ipt_of w b))) as [[[]|e] o] eqn:E2;
    cbv beta iota; autorewrite with ipt_db.
  2:{ apply jump_cleanup_effect_err in E2; subst o. reflexivity. }
  rewrite (cleanup_jump_loop_eq 8 _ b "OUTPUT" false JOut) by (simpl; tauto || assumption).
  autorewrite with ipt_db. cbn [jumps set_jumps out_jumps].
  destruct (jump_cleanup_effect 8 _ _ (out_jumps (ipt_of w b))) as [[[]|e] u] eqn:E3;
    cbv beta iota; autorewrite with ipt_db.
  2:{ apply jump_cleanup_effect_err in E3; subst u. reflexivity. }
  cbn [chain pre_jumps out_owner_jumps out_jumps].
  unfold ignore, run_cmd.
  rewrite (exec_ipt _ b ["-t"; "nat"; "-F"; IPT_CHAIN_NAME]%string Hb).
  rewrite (exec_ipt _ b ["-t"; "nat"; "-X"; IPT_CHAIN_NAME]%string Hb).
  autorewrite with ipt_db. rewrite Hi.
  unfold chain_flush, chain_delete.
  destruct (chain (ipt_of w b)) as [c|] eqn:Ec;
  destruct (faulty w b ["-t"; "nat"; "-F"; IPT_CHAIN_NAME]%string) eqn:EF;
  destruct (faulty w b ["-t"; "nat"; "-X"; IPT_CHAIN_NAME]%string) eqn:EX;
  repeat (first [ rewrite exec_iptables_F | rewrite exec_iptables_X | rewrite Ec
                | rewrite EF | rewrite EX | rewrite Hi
                | progress autorewrite with ipt_db | progress cbn -[installed faulty] ]);
  try destruct c; try destruct p; try destruct o; try destruct u; try reflexivity.
Qed.

Lemma jump_cleanup_effect_again (fC fD : bool) (n n' : nat) :
  jump_cleanup_effect 8 fC fD n = (Ok tt, n') ->
  exists n'', jump_cleanup_effect 8 fC fD n' = (Ok tt, n'') /\ (n <= 8 -> n'' = n').
Proof.
  unfold jump_cleanup_effect; destruct fC, fD; cbn; intros H.
  - injection H as <-; eauto.
  - injection H as <-; eauto.
  - destruct n; cbn in H; [injection H as <-; eauto | discriminate].
  - injection H as <-. exists (n - 8 - 8); split; [reflexivity | lia].
Qed.

Lemma chain_cleanup_idem (fF fX : bool) (c : option (list (list string))) (p o u : nat) :
  chain_delete fX (chain_flush fF (chain_delete fX (chain_flush fF c) p o u)) p o u =
  chain_delete fX (chain_flush fF c) p o u.
Proof. destruct fF, fX, c as [[|r rs]|], p, o, u; reflexivity. Qed.

Lemma ipt_cleanup_again (fl : list string -> bool) (t t1 : IptState) :
  ipt_cleanup fl t = (Ok tt, t1) ->
  exists t2, ipt_cleanup fl t1 = (Ok tt, t2) /\
    (pre_jumps t <= 8 -> out_owner_jumps t <= 8 -> out_jumps t <= 8 -> t2 = t1).
Proof.
  unfold ipt_cleanup at 1.
  destruct (jump_cleanup_effect 8 _ _ (pre_jumps t)) as [[[]|e] p] eqn:E1; [|discriminate].
  destruct (jump_cleanup_effect 8 _ _ (out_owner_jumps t)) as [[[]|e] o] eqn:E2; [|discriminate].
  destruct (jump_cleanup_effect 8 _ _ (out_jumps t)) as [[[]|e] u] eqn:E3; [|discriminate].
  intros H; injection H as <-.
  destruct (jump_cleanup_effect_again _ _ _ _ E1) as (p2 & F1 & G1).
  destruct (jump_cleanup_effect_again _ _ _ _ E2) as (o2 & F2 & G2).
  destruct (jump_cleanup_effect_again _ _ _ _ E3) as (u2 & F3 & G3).
  unfold ipt_cleanup; cbn [pre_jumps out_owner_jumps out_jumps chain].
  rewrite F1, F2, F3.
  eexists; split; [reflexivity|].
  intros B1 B2 B3. rewrite (G1 B1), (G2 B2), (G3 B3), chain_cleanup_idem. reflexivity.
Qed.

Lemma cleanup_iptables_rules_eq (w : World) :
  cleanup_iptables_rules w =
  if tool_present w "iptables" then
    match ipt_cleanup (faulty w "iptables") (ipt4 w) with
    | (Err e, t) => (Err e, with_ipt w "iptables" t)
    | (Ok _, t) =>
        if tool_present w "ip6tables" then
          let (r, t') := ipt_cleanup (faulty w "ip6tables") (ipt6 w) in
          (r, with_ipt (with_ipt w "iptables" t) "ip6tables" t')
        else (Ok tt, with_ipt w "iptables" t)
    end
  else (Err ["未检测到 iptables/ip6tables 命令"%string], w).
Proof.
  unfold cleanup_iptables_rules, bind.
  rewrite (cleanup_iptables_binary_eq w "iptables" false) by (left; reflexivity).
  destruct (tool_present w "iptables"); [|reflexivity].
  change (ipt_of w "iptables") with (ipt4 w).
  destruct (ipt_cleanup (faulty w "iptables") (ipt4 w)) as [[[]|e] t]; [|reflexivity].
  rewrite (cleanup_iptables_binary_eq _ "ip6tables" true) by (right; reflexivity).
  change (tool_present (with_ipt w "iptables" t) "ip6tables") with (tool_present w "ip6tables").
  change (faulty (with_ipt w "iptables" t) "ip6tables") with (faulty w "ip6tables").
  change (ipt_of (with_ipt w "iptables" t) "ip6tables") with (ipt6 w).
  reflexivity.
Qed.

Lemma nft_rules_active_eq (w : World) :
  nft_rules_active w =
  (Ok (tool_present w "nft" && negb (faulty w "nft" ["list"; "table"; "inet"; NFT_TABLE_NAME]%string)
       && nft_table w), w).
Proof.
  unfold nft_rules_active, bind. rewrite command_exists_eq.
  destruct (tool_present w "nft") eqn:Ep; [|reflexivity].
  assert (Hi : installed w "nft" = true) by (unfold tool_present in Ep; destruct (installed w "nft"); easy).
  unfold check_cmd_success, exec. rewrite Hi. cbn [negb andb].
  destruct (faulty w "nft" _); [reflexivity|].
  cbn. destruct (nft_table w); reflexivity.
Qed.

Lemma cleanup_nft_rules_eq (w : World) :
  cleanup_nft_rules w =
  if tool_present w "nft" && negb (faulty w "nft" ["list"; "table"; "inet"; NFT_TABLE_NAME]%string)
     && nft_table w then
    if faulty w "nft" ["delete"; "table"; "inet"; NFT_TABLE_NAME]%string
    then (Err ["命令执行失败"%string], w) else (Ok tt, with_nft_table w false)
  else (Ok tt, w).
Proof.
  unfold cleanup_nft_rules, bind at 1. rewrite command_exists_eq.
  destruct (tool_present w "nft") eqn:Ep; [|reflexivity].
  assert (Hi : installed w "nft" = true) by (unfold tool_present in Ep; destruct (installed w "nft"); easy).
  cbn [negb]. unfold bind. rewrite nft_rules_active_eq, Ep. cbn [andb].
  destruct (negb (faulty w "nft" _) && nft_table w) eqn:Ea; [|reflexivity].
  apply andb_true_iff in Ea as [Ef Et].
  unfold run_cmd, exec. rewrite Hi. cbn [negb].
  destruct (faulty w "nft" ["delete"; "table"; "inet"; NFT_TABLE_NAME]%string); [reflexivity|].
  cbn. rewrite Et. reflexivity.
Qed.

(* ================================================================= *)
(** ** Running a cleanup twice *)

(** C8 (counterexample): nine copies of the PREROUTING jump in the
    [iptables] nat table. The first iptables cleanup succeeds but removes
    only eight of them, so the chain cannot be deleted; the second
    cleanup removes the last copy and the chain: it is not a no-op. *)
Lemma cleanup_iptables_second_run_not_noop :
  let w := with_ipt (world0 ["iptables"%string]) "iptables" (Build_IptState (Some []) 9 0 0) in
  let w1 := snd (cleanup_dataplane_rules Iptables w) in
  fst (cleanup_dataplane_rules Iptables w) = Ok tt /\
  ipt4 w1 = Build_IptState (Some []) 1 0 0 /\
  fst (cleanup_dataplane_rules Iptables w1) = Ok tt /\
  ipt4 (snd (cleanup_dataplane_rules Iptables w1)) = Build_IptState None 0 0 0.
Proof. vm_compute. repeat split. Qed.

(** C8: the nft cleanup leaves the world untouched unless the probe
    [nft_rules_active] reports the table. For every backend, a cleanup run
    after a successful one succeeds; it is a no-op for [nft] and [none],
    and for [iptables] whenever no jump rule had more than eight copies
    before the first run. *)
Theorem cleanup_dataplane_rules_second_run (backend : RuleBackend) (w w1 : World) :
  (fst (nft_rules_active w) = Ok false -> cleanup_nft_rules w = (Ok tt, w)) /\
  (cleanup_dataplane_rules backend w = (Ok tt, w1) ->
   fst (cleanup_dataplane_rules backend w1) = Ok tt /\
   ((backend <> Iptables \/ forall b k, jumps (ipt_of w b) k <= 8) ->
    cleanup_dataplane_rules backend w1 = (Ok tt, w1))).
Proof.
  split.
  { rewrite nft_rules_active_eq; cbn [fst]; intros H; injection H as H.
    rewrite cleanup_nft_rules_eq, H. reflexivity. }
  destruct backend; cbn [cleanup_dataplane_rules].
  - rewrite cleanup_nft_rules_eq.
    destruct (tool_present w "nft" && _ && nft_table w) eqn:E.
    + destruct (faulty w "nft" ["delete"; "table"; "inet"; NFT_TABLE_NAME]%string);
        intros H; [discriminate|].
      injection H as <-. rewrite cleanup_nft_rules_eq.
      change (tool_present (with_nft_table w false) "nft") with (tool_present w "nft").
      change (nft_table (with_nft_table w false)) with false.
      rewrite andb_false_r. split; reflexivity.
    + intros H; injection H as <-. rewrite cleanup_nft_rules_eq, E. split; reflexivity.
  - intros H. rewrite cleanup_iptables_rules_eq in H.
    destruct (tool_present w "iptables") eqn:P4; [|discriminate].
    destruct (ipt_cleanup (faulty w "iptables") (ipt4 w)) as [[[]|e] t] eqn:C4; [|discriminate].
    destruct (ipt_cleanup_again _ _ _ C4) as (t2 & D4 & G4).
    rewrite cleanup_iptables_rules_eq.
    destruct (tool_present w "ip6tables") eqn:P6.
    + destruct (ipt_cleanup (faulty w "ip6tables") (ipt6 w)) as [[[]|e] t'] eqn:C6;
        [|discriminate].
      injection H as <-.
      destruct (ipt_cleanup_again _ _ _ C6) as (t2' & D6 & G6).
      set (w1 := with_ipt (with_ipt w "iptables" t) "ip6tables" t').
      change (tool_present w1 "iptables") with (tool_present w "iptables").
      change (tool_present w1 "ip6tables") with (tool_present w "ip6tables").
      change (faulty w1) with (faulty w).
      change (ipt4 w1) with t. change (ipt6 w1) with t'.
      rewrite P4, D4, P6, D6. split; [reflexivity|].
      intros [Hb|Hb]; [congruence|].
      rewrite G4, G6 by (apply (Hb "iptables"%string JPre) || apply (Hb "iptables"%string JOutOwner)
                        || apply (Hb "iptables"%string JOut) || apply (Hb "ip6tables"%string JPre)
                        || apply (Hb "ip6tables"%string JOutOwner) || apply (Hb "ip6tables"%string JOut)).
      assert (E4 : with_ipt w1 "iptables" t = w1) by exact (with_ipt_id w1 "iptables").
      rewrite E4. exact (f_equal (pair (Ok tt)) (with_ipt_id w1 "ip6tables")).
    + injection H as <-.
      set (w1 := with_ipt w "iptables" t).
      change (tool_present w1 "iptables") with (tool_present w "iptables").
      change (tool_present w1 "ip6tables") with (tool_present w "ip6tables").
      change (faulty w1) with (faulty w).
      change (ipt4 w1) with t.
      rewrite P4, D4, P6. split; [reflexivity|].
      intros [Hb|Hb]; [congruence|].
      rewrite G4 by (apply (Hb "iptables"%string JPre) || apply (Hb "iptables"%string JOutOwner)
                     || apply (Hb "iptables"%string JOut)).
      exact (f_equal (pair (Ok tt)) (with_ipt_id w1 "iptables")).
  - intros H; injection H as <-. split; reflexivity.
Qed.

(* ================================================================= *)
(** ** Privilege check *)

Lemma land_shiftl_1_zero (mask bit : N) :
  (N.land mask (N.shiftl 1 bit) =? 0)%N = negb (N.testbit mask bit).
Proof.
  rewrite N.shiftl_1_l.
  destruct (N.testbit mask bit) eqn:T; cbn [negb].
  - apply N.eqb_neq. intros H.
    assert (B := f_equal (fun x => N.testbit x bit) H). cbn beta in B.
    rewrite N.land_spec, N.pow2_bits_true, T, N.bits_0 in B. discriminate.
  - apply N.eqb_eq. apply N.bits_inj. intros i.
    rewrite N.land_spec, N.pow2_bits_eqb, N.bits_0.
    destruct (N.eqb_spec bit i) as [<-|]; [rewrite T|apply andb_false_r]; reflexivity.
Qed.

Lemma has_capability_bit_eq (status : option rstr) (bit : N) :
  unwrap_or (has_capability_bit status bit) false =
  match read_cap_eff status with Ok mask => N.testbit mask bit | Err _ => false end.
Proof.
  unfold has_capability_bit. destruct (read_cap_eff status); cbn [unwrap_or]; [|reflexivity].
  rewrite land_shiftl_1_zero. apply negb_involutive.
Qed.

(** C9: [ensure_tun_privileges] grants exactly when [id -u] reports the
    user id 0, or when the [CapEff] mask read from [/proc/self/status]
    has bits 12 ([CAP_NET_ADMIN]) and 13 ([CAP_NET_RAW]) set; otherwise
    it fails with the insufficient-privilege message, which names both
    capabilities. *)
Theorem ensure_tun_privileges_spec (id_out status : option rstr) :
  let granted :=
    (exists out, id_out = Some out /\ trim out = rs "0") \/
    (exists mask, read_cap_eff status = Ok mask /\
                  N.testbit mask 12 = true /\ N.testbit mask 13 = true) in
  (granted -> ensure_tun_privileges id_out status = Ok tt) /\
  (~ granted -> ensure_tun_privileges id_out status = Err [PRIVILEGE_ERROR]) /\
  String.index 0 "CAP_NET_ADMIN" PRIVILEGE_ERROR <> None /\
  String.index 0 "CAP_NET_RAW" PRIVILEGE_ERROR <> None.
Proof.
  cbv zeta. unfold ensure_tun_privileges. rewrite !has_capability_bit_eq.
  assert (Hroot : unwrap_or (is_root_user id_out) false = true <->
                  exists out, id_out = Some out /\ trim out = rs "0").
  { unfold is_root_user. destruct id_out as [out|]; cbn.
    - split.
      + intros H. exists out. split; [reflexivity|]. exact (proj2 (reflect_iff _ _ (rstr_eqb_spec _ _)) H).
      + intros (o & E & H). injection E as <-. apply (reflect_iff _ _ (rstr_eqb_spec _ _)). exact H.
    - split; [discriminate|]. intros (o & E & _). discriminate. }
  assert (Hcap : (match read_cap_eff status with Ok mask => N.testbit mask CAP_NET_ADMIN_BIT | Err _ => false end &&
                  match read_cap_eff status with Ok mask => N.testbit mask CAP_NET_RAW_BIT | Err _ => false end) = true <->
                 exists mask, read_cap_eff status = Ok mask /\
                              N.testbit mask 12 = true /\ N.testbit mask 13 = true).
  { unfold CAP_NET_ADMIN_BIT, CAP_NET_RAW_BIT.
    destruct (read_cap_eff status) as [mask|e]; cbv iota beta; split.
    - intros H. apply andb_prop in H. exists mask. tauto.
    - intros (m & E & H1 & H2). injection E as <-. rewrite H1, H2. reflexivity.
    - discriminate.
    - intros (m & E & _). discriminate. }
  split; [|split; [|split]].
  - intros G. rewrite <- Hroot, <- Hcap in G. apply (proj2 (orb_true_iff _ _)) in G. rewrite G. reflexivity.
  - intros G. rewrite <- Hroot, <- Hcap in G.
    destruct (_ || _) eqn:E; [|reflexivity].
    exfalso. apply G. apply (proj1 (orb_true_iff _ _)) in E. exact E.
  - vm_compute. discriminate.
  - vm_compute. discriminate.
Qed.

(* ================================================================= *)
(** ** Exit status of [doctor] *)

Lemma summarize_fail_count (checks : list CheckItem) (p wn f : nat) :
  snd (fold_left summarize_step checks (p, wn, f)) = f + List.length (filter is_fail checks).
Proof.
  revert p wn f. induction checks as [|c cs IH]; intros p wn f; cbn [fold_left filter].
  - cbn. lia.
  - change (summarize_step (p, wn, f) c) with
      (match level c with CPass => (S p, wn, f) | CWarn => (p, S wn, f) | CFail => (p, wn, S f) end).
    unfold is_fail at 1. destruct (level c); rewrite IH; cbn; lia.
Qed.

Lemma existsb_filter_length {A} (g : A -> bool) (l : list A) :
  existsb g l = true <-> 0 < List.length (filter g l).
Proof.
  induction l as [|x l IH]; cbn [existsb filter].
  - cbn. split; [discriminate|lia].
  - destruct (g x); cbn [orb List.length]; [split; [lia|reflexivity]|exact IH].
Qed.

(** C7 (counterexample): in JSON mode a [doctor] run with a fail-level
    check prints [ok: false] but returns [Ok], so it exits with status 0. *)
Lemma doctor_json_fail_exits_zero :
  let checks := [Build_CheckItem "/dev/net/tun" CFail "缺少 /dev/net/tun" None]%string in
  existsb is_fail checks = true /\
  exit_code (fst (cmd_doctor true (ret PCOk) (ret checks) (world0 []))) = 0 /\
  printed (snd (cmd_doctor true (ret PCOk) (ret checks) (world0 []))) = [JDoctor false 0 0 1].
Proof. vm_compute. repeat split. Qed.

(** C7: once the privilege step lets the diagnosis run, in text mode
    [doctor] exits non-zero exactly when some check is fail-level; in
    JSON mode it always exits 0 and prints a summary whose [ok] field
    says that no check is fail-level. *)
Theorem cmd_doctor_exit_code (json : bool) (prelude : M PrivilegeCheck)
    (gather : M (list CheckItem)) (checks : list CheckItem) (w w1 w2 : World)
    (Hpre : prelude w = (Ok PCOk, w1)) (Hgather : gather w1 = (Ok checks, w2)) :
  let r := cmd_doctor json prelude gather w in
  (json = false -> (exit_code (fst r) <> 0 <-> existsb is_fail checks = true)) /\
  (json = true -> exit_code (fst r) = 0 /\
     exists p wn f, printed (snd r) = JDoctor (negb (existsb is_fail checks)) p wn f :: printed w2).
Proof.
  cbv zeta. unfold cmd_doctor, bind. rewrite Hpre. cbv beta iota. rewrite Hgather.
  pose proof (summarize_fail_count checks 0 0 0) as F.
  pose proof (existsb_filter_length is_fail checks) as X.
  unfold summarize_checks. destruct (fold_left summarize_step checks (0, 0, 0)) as [[p wn] f].
  cbn [snd] in F. split; intros ->.
  - destruct (Nat.ltb_spec 0 f) as [Lt|Ge]; cbn; split.
    + intros _. apply X. lia.
    + intros _ H. discriminate H.
    + intros H. exfalso. apply H. reflexivity.
    + intros H. apply X in H. lia.
  - cbn. split; [reflexivity|]. exists p, wn, f. do 2 f_equal.
    cbn in F. subst f.
    destruct (existsb is_fail checks).
    + cbn [negb]. apply Nat.eqb_neq. pose proof (proj1 X eq_refl). lia.
    + cbn [negb]. apply Nat.eqb_eq.
      destruct (List.length (filter is_fail checks)) as [|n]; [reflexivity|].
      exfalso. assert (false = true) as B by (apply X; lia). discriminate B.
Qed.

(** A run of [doctor] in text mode with a single warn-level check. *)
Lemma cmd_doctor_exit_code_witness :
  let checks := [Build_CheckItem "rp_filter" CWarn "rp_filter=1" None]%string in
  ret PCOk (world0 []) = (Ok PCOk, world0 []) /\ ret checks (world0 []) = (Ok checks, world0 []) /\
  ((false = false -> (exit_code (fst (cmd_doctor false (ret PCOk) (ret checks) (world0 []))) <> 0
                      <-> existsb is_fail checks = true)) /\
   (false = true -> exit_code (fst (cmd_doctor false (ret PCOk) (ret checks) (world0 []))) = 0 /\
     exists p wn f, printed (snd (cmd_doctor false (ret PCOk) (ret checks) (world0 []))) =
       JDoctor (negb (existsb is_fail checks)) p wn f :: printed (world0 []))).
Proof.
  cbv zeta. split; [reflexivity|]. split; [reflexivity|].
  exact (cmd_doctor_exit_code false (ret PCOk) (ret _) _ (world0 []) (world0 []) (world0 [])
           eq_refl eq_refl).
Defined.

(* ================================================================= *)
(** ** The config edits of [on] *)

Lemma is_key_eq (key : string) (k : Value) : is_key key k = true -> k = VStr key.
Proof.
  destruct k; cbn; try discriminate. intros H. apply String.eqb_eq in H. subst. reflexivity.
Qed.

Lemma is_key_other (key key' : string) (k : Value) :
  key' <> key -> is_key key k = true -> is_key key' k = false.
Proof.
  intros Hne H. apply is_key_eq in H. subst. cbn. apply String.eqb_neq. congruence.
Qed.

Lemma mget_minsert_same (m : Mapping) (key : string) (v : Value) :
  mget (minsert m key v) key = Some v.
Proof.
  induction m as [|[k v'] r IH]; cbn.
  - rewrite String.eqb_refl. reflexivity.
  - destruct (is_key key k) eqn:E; cbn; rewrite E; [reflexivity|exact IH].
Qed.

Lemma mget_minsert_other (m : Mapping) (key key' : string) (v : Value) :
  key' <> key -> mget (minsert m key v) key' = mget m key'.
Proof.
  intros Hne. induction m as [|[k v'] r IH]; cbn.
  - replace (String.eqb key key') with false; [reflexivity|].
    symmetry. apply String.eqb_neq. congruence.
  - destruct (is_key key k) eqn:E; cbn.
    + rewrite (is_key_other key key' k Hne E). reflexivity.
    + destruct (is_key key' k); [reflexivity|exact IH].
Qed.

Lemma mget_mupdate_same (m : Mapping) (key : string) (g : Value -> Value) :
  mget (mupdate m key g) key = option_map g (mget m key).
Proof.
  induction m as [|[k v] r IH]; cbn; [reflexivity|].
  destruct (is_key key k) eqn:E; cbn; rewrite E; [reflexivity|exact IH].
Qed.

Lemma mget_mupdate_other (m : Mapping) (key key' : string) (g : Value -> Value) :
  key' <> key -> mget (mupdate m key g) key' = mget m key'.
Proof.
  intros Hne. induction m as [|[k v] r IH]; cbn; [reflexivity|].
  destruct (is_key key k) eqn:E; cbn.
  - rewrite (is_key_other key key' k Hne E). reflexivity.
  - destruct (is_key key' k); [reflexivity|exact IH].
Qed.

Lemma mapping_or_empty_map_untagged (f : Mapping -> Mapping) (v : Value) :
  is_mapping v = true -> mapping_or_empty (map_untagged f v) = f (mapping_or_empty v).
Proof.
  unfold is_mapping, mapping_or_empty, as_mapping.
  induction v; cbn; try discriminate; auto.
Qed.

Lemma coerce_mapping_is_mapping (v : Value) : is_mapping (coerce_mapping v) = true.
Proof.
  unfold coerce_mapping. destruct (is_mapping v) eqn:E; [exact E|reflexivity].
Qed.

Lemma mapping_or_empty_coerce (v : Value) : mapping_or_empty (coerce_mapping v) = mapping_or_empty v.
Proof.
  unfold coerce_mapping, is_mapping, mapping_or_empty.
  destruct (as_mapping v) eqn:E; cbn; [rewrite E; reflexivity|reflexivity].
Qed.

(** The root mapping after an edit of the sub-mapping [a]. *)
Lemma root_update_sub (v : Value) (a : string) (f : Mapping -> Mapping) :
  let m := mapping_or_empty v in
  mapping_or_empty (ensure_mapping_path v [a] f) =
  mupdate (if mcontains m a then m else minsert m a (VMap [])) a
    (fun child => map_untagged f (coerce_mapping child)).
Proof.
  cbv zeta. unfold ensure_mapping_path. cbn [update_path].
  rewrite mapping_or_empty_map_untagged by apply coerce_mapping_is_mapping.
  rewrite mapping_or_empty_coerce. reflexivity.
Qed.

Lemma path_root_root (v : Value) (f : Mapping -> Mapping) :
  path_map (ensure_mapping_path v [] f) [] = f (path_map v []).
Proof.
  cbn [path_map]. unfold ensure_mapping_path. cbn [update_path].
  rewrite mapping_or_empty_map_untagged by apply coerce_mapping_is_mapping.
  rewrite mapping_or_empty_coerce. reflexivity.
Qed.

Lemma path_root_sub (v : Value) (f : Mapping -> Mapping) (a : string) :
  (forall m, mget (f m) a = mget m a) ->
  path_map (ensure_mapping_path v [] f) [a] = path_map v [a].
Proof.
  intros Hf. cbn [path_map].
  change (mapping_or_empty (ensure_mapping_path v [] f)) with
    (path_map (ensure_mapping_path v [] f) []).
  rewrite path_root_root, Hf. reflexivity.
Qed.

Lemma path_sub_same (v : Value) (f : Mapping -> Mapping) (a : string) :
  path_map (ensure_mapping_path v [a] f) [a] = f (path_map v [a]).
Proof.
  cbn [path_map]. rewrite root_update_sub, mget_mupdate_same.
  set (m := mapping_or_empty v).
  assert (Hc : exists c, mget (if mcontains m a then m else minsert m a (VMap [])) a = Some c /\
                         mapping_or_empty c = mapping_or_empty (match mget m a with Some c => c | None => VMap [] end)).
  { unfold mcontains. destruct (mget m a) eqn:E; cbn.
    - exists v0. rewrite E. split; reflexivity.
    - exists (VMap []). rewrite mget_minsert_same. split; reflexivity. }
  destruct Hc as (c & -> & Hc). cbn [option_map].
  rewrite mapping_or_empty_map_untagged by apply coerce_mapping_is_mapping.
  rewrite mapping_or_empty_coerce, Hc. reflexivity.
Qed.

Lemma mget_root_update_sub (v : Value) (f : Mapping -> Mapping) (a k : string) :
  k <> a ->
  mget (mapping_or_empty (ensure_mapping_path v [a] f)) k = mget (mapping_or_empty v) k.
Proof.
  intros Hne. rewrite root_update_sub, mget_mupdate_other by exact Hne.
  destruct (mcontains _ a); [reflexivity|]. apply mget_minsert_other. exact Hne.
Qed.

Lemma path_sub_root (v : Value) (f : Mapping -> Mapping) (a : string) :
  forall k, k <> a -> mget (path_map (ensure_mapping_path v [a] f) []) k = mget (path_map v []) k.
Proof. intros k Hne. cbn [path_map]. apply mget_root_update_sub. exact Hne. Qed.

Lemma path_sub_other (v : Value) (f : Mapping -> Mapping) (a b : string) :
  b <> a -> path_map (ensure_mapping_path v [a] f) [b] = path_map v [b].
Proof.
  intros Hne. cbn [path_map]. rewrite mget_root_update_sub by exact Hne. reflexivity.
Qed.

Lemma mget_default_same (m : Mapping) (key : string) (val : Value) :
  mget (if mcontains m key then m else minsert m key val) key = Some (default_to (mget m key) val).
Proof.
  unfold mcontains. destruct (mget m key) eqn:E; cbn.
  - exact E.
  - apply mget_minsert_same.
Qed.

Lemma mget_default_other (m : Mapping) (key key' : string) (val : Value) :
  key' <> key -> mget (if mcontains m key then m else minsert m key val) key' = mget m key'.
Proof.
  intros Hne. destruct (mcontains m key); [reflexivity|]. apply mget_minsert_other. exact Hne.
Qed.

Local Open Scope string_scope.

Ltac config_step :=
  first
    [ rewrite path_sub_same
    | rewrite path_sub_other by discriminate
    | rewrite path_sub_root by discriminate
    | rewrite path_root_root
    | rewrite path_root_sub
        by (intros; first [apply mget_minsert_other | apply mget_default_other]; discriminate)
    | rewrite mget_minsert_same
    | rewrite mget_default_same
    | rewrite mget_minsert_other by discriminate
    | rewrite mget_default_other by discriminate
    | progress cbv beta ].

(** C5: after the edits of [on], [tun.enable] is [true] and the root
    [ipv6] and [dns.ipv6] are [false] whatever the config held; each of
    [tun.auto-route], [tun.auto-detect-interface], [tun.auto-redirect],
    [tun.strict-route], [tun.stack], [dns.enable], [dns.enhanced-mode] and
    the root [redir-port] keeps the value it had, and gets its default
    only when it was absent (a pre-existing [false] stays [false]). *)
Theorem on_mutate_policy (root : Value) :
  let r := on_mutate root in
  get_at r ["tun"] "enable" = Some (VBool true) /\
  get_at r [] "ipv6" = Some (VBool false) /\
  get_at r ["dns"] "ipv6" = Some (VBool false) /\
  get_at r ["tun"] "auto-route" = Some (default_to (get_at root ["tun"] "auto-route") (VBool true)) /\
  get_at r ["tun"] "auto-detect-interface" =
    Some (default_to (get_at root ["tun"] "auto-detect-interface") (VBool true)) /\
  get_at r ["tun"] "auto-redirect" = Some (default_to (get_at root ["tun"] "auto-redirect") (VBool true)) /\
  get_at r ["tun"] "strict-route" = Some (default_to (get_at root ["tun"] "strict-route") (VBool false)) /\
  get_at r ["tun"] "stack" = Some (default_to (get_at root ["tun"] "stack") (VStr "mixed")) /\
  get_at r ["dns"] "enable" = Some (default_to (get_at root ["dns"] "enable") (VBool true)) /\
  get_at r ["dns"] "enhanced-mode" =
    Some (default_to (get_at root ["dns"] "enhanced-mode") (VStr "fake-ip")) /\
  get_at r [] "redir-port" = Some (default_to (get_at root [] "redir-port") (VInt 7892)).
Proof.
  cbv zeta. unfold get_at, on_mutate, set_bool_field, set_default_bool_field,
    set_default_string_field, set_default_u16_field, set_default_field.
  repeat split; repeat config_step; reflexivity.
Qed.
Local Close Scope string_scope.

(* ================================================================= *)
(** ** [on] without a rule backend *)

Local Open Scope string_scope.

(** [serde_yaml] on the documents of the examples below: ["{}\n"] is the
    empty mapping, and the empty mapping is written back as ["{}\n"]. *)
Definition example_from_str (s : rstr) : option Value :=
  if rstr_eqb s (app (rs "{}") [10%N]) then Some (VMap []) else None.

Definition example_to_string (v : Value) : option rstr :=
  match v with
  | VMap [] => Some (app (rs "{}") [10%N])
  | _ => Some (rs "tun:")
  end.

(** A host with [/dev/net/tun] and [systemctl] but neither [nft] nor
    [iptables], and no config file yet. *)
Definition no_backend_world : World :=
  {| tools := ["systemctl"]; faults := [];
     nft_table := false; ipt4 := ipt_empty; ipt6 := ipt_empty;
     active_units := []; dev_net_tun := true; config_file := None;
     state_file := None; clock := 0; printed := [];
     io_faults := []; crashing_units := [] |}.

Local Close Scope string_scope.

(** C1 (counterexample): on a host with neither [nft] nor [iptables], a
    JSON-mode [on] on a config without [tun.auto-redirect] (so the
    default [true] applies) fails in [select_rule_backend], after the
    edited document, whose [tun.enable] is [true], has been saved: the
    call returns an error, the config file, which did not exist before,
    now holds the edited document, nothing is restored and no
    [rolled_back] document is printed. *)
Lemma cmd_on_no_backend_keeps_enable :
  let r := cmd_on example_from_str example_to_string true "clash"%string false true
             (ret PCOk) no_backend_world in
  config_file no_backend_world = None /\
  (exists e, fst r = Err e) /\
  config_file (snd r) = example_to_string (on_mutate (VMap [])) /\
  bool_field (key_value (on_mutate (VMap [])) "tun"%string) "enable"%string = Some true /\
  opt_unwrap_or (bool_field (key_value (on_mutate (VMap [])) "tun"%string) "auto-redirect"%string) false = true /\
  printed (snd r) = [].
Proof.
  vm_compute. split; [reflexivity|]. split; [eexists; reflexivity|].
  repeat split.
Qed.

(* ================================================================= *)
(** ** Cleanup in [off] *)

Local Open Scope string_scope.

(** A host where [on] ran with [auto-redirect] off (the state records
    [rules_applied=false]) while the tool's nft table is loaded. *)
Definition off_stale_world : World :=
  {| tools := ["nft"; "systemctl"]; faults := [];
     nft_table := true; ipt4 := ipt_empty; ipt6 := ipt_empty;
     active_units := []; dev_net_tun := true; config_file := None;
     state_file := Some (to_text (Build_TunState true (rs "clash") false BNone 7892 false 0));
     clock := 0; printed := [];
     io_faults := []; crashing_units := [] |}.

Local Close Scope string_scope.

Lemma restart_service_best_effort_ok (name : string) (user : bool) (w : World) :
  exists b w', restart_service_best_effort name user w = (Ok b, w').
Proof.
  unfold restart_service_best_effort, bind, catch.
  destruct (run_cmd _ _ w) as [r w']. cbv beta iota. eexists _, _. reflexivity.
Qed.

(** C2 (counterexample): a recorded state with [rules_applied=false]
    makes [off] skip the cleanup altogether: the call succeeds and the
    nft table stays loaded. *)
Lemma cmd_off_skips_cleanup :
  let r := cmd_off example_from_str example_to_string true "clash"%string false true
             (ret PCOk) off_stale_world in
  fst r = Ok tt /\ nft_table (snd r) = true /\
  fst (nft_rules_active (snd r)) = Ok true.
Proof. vm_compute. repeat split. Qed.

(** C2: once [off] has loaded the config and the recorded state
    [previous_state], and saved the config with [tun.enable=false], it
    cleans up the recorded backend when the state says [rules_applied],
    does nothing when a state says the rules were not applied, and runs
    [cleanup_dataplane_rules_all] when there is no state. A failure of that
    cleanup makes [off] fail with the context [清理数据面规则失败]. After a
    successful cleanup, [off] fails exactly when writing [tun.state]
    fails (creating its directory or writing the file); the service
    restart never makes it fail. *)
Theorem cmd_off_cleanup (yaml_from_str : rstr -> option Value) (yaml_to_string : Value -> option rstr)
    (json : bool) (name : string) (user no_restart : bool) (prelude : M PrivilegeCheck)
    (w w1 w2 w3 : World) (root : Value) (previous_state : option TunState)
    (Hpre : prelude w = (Ok PCOk, w1))
    (Hload : load_or_init_config yaml_from_str w1 = (Ok root, w2))
    (Hstate : read_tun_state w2 = (Ok previous_state, w2))
    (Hsave : save_config yaml_to_string (set_bool_field root ["tun"%string] "enable"%string false) w2
             = (Ok tt, w3)) :
  let r := cmd_off yaml_from_str yaml_to_string json name user no_restart prelude w in
  off_cleanup previous_state =
    match previous_state with
    | Some state => if rules_applied state then cleanup_dataplane_rules (backend state) else ret tt
    | None => cleanup_dataplane_rules_all
    end /\
  (forall e w4, off_cleanup previous_state w3 = (Err e, w4) ->
                r = (Err ("清理数据面规则失败"%string :: e), w4)) /\
  (forall w4, off_cleanup previous_state w3 = (Ok tt, w4) ->
              (fst r = Ok tt <-> io_fails w4 MkStateDir = false /\ io_fails w4 WriteState = false)).
Proof.
  cbv zeta. split; [reflexivity|].
  split; [intros e w4 H | intros w4 H];
    unfold cmd_off, bind at 1; rewrite Hpre; cbv beta iota;
    unfold bind at 1; rewrite Hload; cbv beta iota;
    unfold bind at 1; rewrite Hstate; cbv beta iota zeta;
    unfold bind at 1; rewrite Hsave; cbv beta iota;
    unfold bind at 1, context at 1; cbv beta;
    rewrite (H : _ = _); cbv beta iota; [reflexivity|].
  unfold bind at 1, now_unix. cbv beta iota.
  unfold bind at 1, write_tun_state at 1.
  destruct (io_fails w4 MkStateDir);
    [cbn [fst]; split; [intros Hx; discriminate Hx | intros [Hx _]; discriminate Hx]|].
  destruct (io_fails w4 WriteState);
    [cbn [fst]; split; [intros Hx; discriminate Hx | intros [_ Hx]; discriminate Hx]|].
  split; [intros _; split; reflexivity | intros _].
  destruct no_restart.
  - destruct json; reflexivity.
  - unfold bind at 1, bind at 1.
    destruct (restart_service_best_effort_ok name user
                (with_state w4 (Some (to_text (Build_TunState false (rs name) user BNone
                   (opt_unwrap_or (u16_field (Some root) "redir-port"%string) DEFAULT_REDIR_PORT)
                   false (clock w4)))))) as (b & w5 & ->).
    cbv beta iota. destruct json; reflexivity.
Qed.

(** [off] on the host above, run through [cmd_off_cleanup]. *)
Lemma cmd_off_cleanup_witness :
  fst (cmd_off example_from_str example_to_string true "clash"%string false true
         (ret PCOk) off_stale_world) = Ok tt.
Proof.
  pose (w2 := snd (load_or_init_config example_from_str off_stale_world)).
  pose (w3 := snd (save_config example_to_string
                     (set_bool_field (VMap []) ["tun"%string] "enable"%string false) w2)).
  pose (ps := Some (Build_TunState true (rs "clash"%string) false BNone 7892 false 0)).
  refine (proj2 (proj2 (proj2 (cmd_off_cleanup example_from_str example_to_string true "clash"%string
            false true (ret PCOk) off_stale_world off_stale_world w2 w3 (VMap []) ps
            eq_refl _ _ _)) (snd (off_cleanup ps w3)) _) _).
  all: first [vm_compute; reflexivity | vm_compute; split; reflexivity].
Defined.
(* ================================================================= *)
(** ** The probes of [status] *)

Lemma check_ipt_C (w : World) (b hook : string) (nro : bool) (k : JumpKind) :
  b = "iptables"%string \/ b = "ip6tables"%string -> In (hook, nro, k) jump_table ->
  installed w b = true ->
  check_cmd_success b (jump_rule "-C" hook nro) w =
  (Ok (negb (faulty w b (jump_rule "-C" hook nro)) && Nat.ltb 0 (jumps (ipt_of w b) k)), w).
Proof.
  intros Hb Hin Hi. unfold check_cmd_success. rewrite exec_ipt by exact Hb. rewrite Hi.
  destruct (faulty w b _); [reflexivity|].
  rewrite (exec_iptables_C w b hook nro k Hin). cbn [negb andb].
  destruct (Nat.ltb 0 _); reflexivity.
Qed.

Lemma installed_of_present (w : World) (b : string) : tool_present w b = true -> installed w b = true.
Proof. unfold tool_present. destruct (installed w b); easy. Qed.

Lemma iptables_rules_active_eq (w : World) :
  let probe b :=
    tool_present w b &&
    (negb (faulty w b (jump_rule "-C" "PREROUTING" false)) && Nat.ltb 0 (pre_jumps (ipt_of w b)) ||
     negb (faulty w b (jump_rule "-C" "OUTPUT" true)) && Nat.ltb 0 (out_owner_jumps (ipt_of w b))) in
  iptables_rules_active w = (Ok (probe "iptables"%string || probe "ip6tables"%string), w).
Proof.
  cbv zeta. unfold iptables_rules_active, bind at 1. rewrite command_exists_eq. cbv beta iota.
  unfold bind at 1.
  destruct (tool_present w "iptables") eqn:E4; cbv beta iota.
  - unfold bind at 1.
    rewrite (check_ipt_C w "iptables" "PREROUTING" false JPre) by
      (first [left; reflexivity | now left | now apply installed_of_present]).
    cbv beta iota.
    destruct (negb _ && _); cbv beta iota delta [ret].
    + unfold bind. rewrite command_exists_eq. cbv beta iota.
      destruct (tool_present w "ip6tables") eqn:E6; cbv beta iota delta [ret].
      * rewrite (check_ipt_C w "ip6tables" "PREROUTING" false JPre) by
          (first [right; reflexivity | now left | now apply installed_of_present]).
        cbv beta iota. destruct (negb _ && _); cbv beta iota delta [ret]; [reflexivity|].
        rewrite (check_ipt_C w "ip6tables" "OUTPUT" true JOutOwner) by
          (first [right; reflexivity | right; left; reflexivity | now apply installed_of_present]).
        reflexivity.
      * reflexivity.
    + rewrite (check_ipt_C w "iptables" "OUTPUT" true JOutOwner) by
        (first [left; reflexivity | right; left; reflexivity | now apply installed_of_present]).
      cbv beta iota. unfold bind. rewrite command_exists_eq. cbv beta iota.
      destruct (tool_present w "ip6tables") eqn:E6; cbv beta iota delta [ret].
      * rewrite (check_ipt_C w "ip6tables" "PREROUTING" false JPre) by
          (first [right; reflexivity | now left | now apply installed_of_present]).
        cbv beta iota. destruct (negb _ && _); cbv beta iota delta [ret]; [reflexivity|].
        rewrite (check_ipt_C w "ip6tables" "OUTPUT" true JOutOwner) by
          (first [right; reflexivity | right; left; reflexivity | now apply installed_of_present]).
        reflexivity.
      * reflexivity.
  - cbv delta [ret]. cbv beta iota. unfold bind. rewrite command_exists_eq. cbv beta iota.
    destruct (tool_present w "ip6tables") eqn:E6; cbv beta iota delta [ret].
    + rewrite (check_ipt_C w "ip6tables" "PREROUTING" false JPre) by
        (first [right; reflexivity | now left | now apply installed_of_present]).
      cbv beta iota. destruct (negb _ && _); cbv beta iota delta [ret]; [reflexivity|].
      rewrite (check_ipt_C w "ip6tables" "OUTPUT" true JOutOwner) by
        (first [right; reflexivity | right; left; reflexivity | now apply installed_of_present]).
      reflexivity.
    + reflexivity.
Qed.

Lemma detect_active_rule_backend_eq (w : World) :
  detect_active_rule_backend w =
  (Ok (match fst (nft_rules_active w), fst (iptables_rules_active w) with
       | Ok true, _ => Nft
       | _, Ok true => Iptables
       | _, _ => BNone
       end), w).
Proof.
  unfold detect_active_rule_backend, bind at 1.
  rewrite nft_rules_active_eq. cbv beta iota.
  destruct (_ && _ && _); cbv beta iota delta [ret fst]; [reflexivity|].
  unfold bind. rewrite iptables_rules_active_eq. cbv beta iota.
  destruct (_ || _); reflexivity.
Qed.

Lemma query_service_active_eq (name : string) (user : bool) (w : World) :
  let args := app (user_flag user) ["is-active"; "--quiet"; normalize_unit_name name]%string in
  query_service_active name user w =
  ((if tool_present w "systemctl" then
      Ok (negb (faulty w "systemctl" args) &&
          existsb (fun u => Bool.eqb (fst u) user && String.eqb (snd u) (normalize_unit_name name))
            (active_units w))
    else Err ["未检测到 systemctl"%string]), w).
Proof.
  cbv zeta. unfold query_service_active, bind at 1. rewrite command_exists_eq. cbv beta iota.
  destruct (tool_present w "systemctl") eqn:E; cbv beta iota delta [negb bail]; [|reflexivity].
  unfold exec. rewrite (installed_of_present _ _ E). cbn [negb].
  destruct (faulty w _ _); [reflexivity|]. cbn [andb negb].
  destruct user; cbn; reflexivity.
Qed.

Lemma status_config_eq (yaml_from_str : rstr -> option Value) (w : World) :
  status_config yaml_from_str w =
  ((match config_file w with
    | None => Ok (VMap [])
    | Some content =>
        if io_fails w ReadConfig then Err ["读取配置失败"%string] else
        match yaml_from_str content with
        | None => Err ["解析 YAML 失败"%string]
        | Some root => Ok (if is_mapping root then root else VMap [])
        end
    end), w).
Proof.
  unfold status_config, bind, config_exists. cbv beta iota.
  destruct (config_file w) as [c|] eqn:E; cbv beta iota delta [is_some ret]; [|reflexivity].
  unfold load_existing_config. rewrite E.
  destruct (io_fails w ReadConfig); [reflexivity|]. destruct (yaml_from_str c); reflexivity.
Qed.

Lemma read_tun_state_world (w : World) : snd (read_tun_state w) = w.
Proof.
  unfold read_tun_state. destruct (state_file w); [|reflexivity].
  destruct (io_fails w ReadState); [reflexivity|].
  destruct (from_text r); reflexivity.
Qed.

(** None of the probes of [status] reads the state file. *)
Lemma status_config_state (yaml_from_str : rstr -> option Value) (w : World) (s : option rstr) :
  status_config yaml_from_str (with_state w s) = (fst (status_config yaml_from_str w), with_state w s).
Proof. rewrite !status_config_eq. reflexivity. Qed.

Lemma detect_active_rule_backend_state (w : World) (s : option rstr) :
  detect_active_rule_backend (with_state w s) = (fst (detect_active_rule_backend w), with_state w s).
Proof.
  rewrite !detect_active_rule_backend_eq, !nft_rules_active_eq, !iptables_rules_active_eq.
  reflexivity.
Qed.

Lemma query_service_active_state (name : string) (user : bool) (w : World) (s : option rstr) :
  query_service_active name user (with_state w s) =
  (fst (query_service_active name user w), with_state w s).
Proof. rewrite !query_service_active_eq. reflexivity. Qed.

(** C6: if [status --json] succeeds, the document it prints carries
    [actual_ok = tun_enable && device_ok && (auto_redirect ⇒ rules_active)
    && service_active], where [tun_enable] and [auto_redirect] come from
    the config, [device_ok] from [/dev/net/tun], [rules_active] from the
    live backend probe and [service_active] from the live [systemctl]
    query. Each of these is computed from the world without its state
    file: whatever the state file [s] holds, the printed document is the
    same. *)
Theorem cmd_status_actual_ok (yaml_from_str : rstr -> option Value) (name : string) (user : bool)
    (w : World) (s : option rstr) (w' : World)
    (H : cmd_status yaml_from_str true name user (with_state w s) = (Ok tt, w')) :
  exists root,
    fst (status_config yaml_from_str w) = Ok root /\
    let tun := key_value root "tun"%string in
    let tun_enable := opt_unwrap_or (bool_field tun "enable"%string) false in
    let auto_redirect := opt_unwrap_or (bool_field tun "auto-redirect"%string) false in
    let device_ok := dev_net_tun w in
    let rules_active :=
      match fst (detect_active_rule_backend w) with
      | Ok b => negb (RuleBackend_eqb b BNone)
      | Err _ => false
      end in
    let service_active := unwrap_or (fst (query_service_active name user w)) false in
    w' = with_print (with_state w s)
           (JStatus tun_enable device_ok rules_active service_active
              (tun_enable && device_ok && (if auto_redirect then rules_active else true)
               && service_active)).
Proof.
  unfold cmd_status, bind at 1 in H. rewrite status_config_state in H. cbv beta iota in H.
  destruct (fst (status_config yaml_from_str w)) as [root|e]; [|discriminate H].
  exists root. split; [reflexivity|]. cbv zeta. cbv zeta in H.
  unfold bind at 1, device_exists in H. cbv beta iota in H.
  unfold bind at 1 in H. rewrite command_exists_eq in H. cbv beta iota in H.
  unfold bind at 1 in H.
  destruct (tool_present (with_state w s) "nft") ;
    [cbv beta iota delta [ret] in H | rewrite command_exists_eq in H; cbv beta iota in H].
  all: unfold bind at 1 in H; rewrite detect_active_rule_backend_state in H; cbv beta iota in H.
  all: destruct (fst (detect_active_rule_backend w)) as [ab|e]; [|discriminate H].
  all: unfold bind at 1, catch at 1 in H; rewrite query_service_active_state in H; cbv beta iota in H.
  all: unfold bind at 1 in H; pose proof (read_tun_state_world (with_state w s)) as Hr.
  all: destruct (read_tun_state (with_state w s)) as [[ls|e] w0]; [|discriminate H].
  all: cbn [snd] in Hr; subst w0; cbv beta iota in H.
  all: unfold print_json in H; injection H as <-; reflexivity.
Qed.

Lemma cmd_status_actual_ok_witness :
  let w := off_stale_world in
  let s := None in
  let w' := snd (cmd_status example_from_str true "clash" false (with_state w s)) in
  cmd_status example_from_str true "clash" false (with_state w s) = (Ok tt, w') /\
  exists root, fst (status_config example_from_str w) = Ok root /\
    w' = with_print (with_state w s) (JStatus false true true false false).
Proof.
  cbv zeta. split; [vm_compute; reflexivity|].
  destruct (cmd_status_actual_ok example_from_str "clash" false off_stale_world None
              (snd (cmd_status example_from_str true "clash" false (with_state off_stale_world None))))
    as [root [Hr Hw]]; [vm_compute; reflexivity|].
  exists root. split; [exact Hr|]. rewrite Hw. vm_compute in Hr. injection Hr as <-.
  vm_compute. reflexivity.
Defined.


(* ================================================================= *)
(** ** Editing the config at any depth *)

Lemma path_map_coerce (v : Value) (p : list string) :
  path_map (coerce_mapping v) p = path_map v p.
Proof. destruct p; cbn [path_map]; rewrite mapping_or_empty_coerce; reflexivity. Qed.

Lemma path_update_path (p : list string) (f : Mapping -> Mapping) (v : Value) :
  is_mapping v = true -> path_map (update_path p f v) p = f (path_map v p).
Proof.
  revert v. induction p as [|k rest IH]; intros v Hv; cbn [update_path path_map].
  - apply mapping_or_empty_map_untagged. exact Hv.
  - rewrite mapping_or_empty_map_untagged by exact Hv.
    rewrite mget_mupdate_same.
    set (m := mapping_or_empty v).
    assert (Hc : exists c, mget (if mcontains m k then m else minsert m k (VMap [])) k = Some c /\
                 path_map c rest = path_map (match mget m k with Some c => c | None => VMap [] end) rest).
    { unfold mcontains. destruct (mget m k) eqn:E; cbn.
      - exists v0. rewrite E. split; reflexivity.
      - exists (VMap []). rewrite mget_minsert_same. split; reflexivity. }
    destruct Hc as (c & -> & Hc). cbn [option_map].
    rewrite IH by apply coerce_mapping_is_mapping.
    rewrite path_map_coerce, Hc. reflexivity.
Qed.

Lemma path_ensure_mapping_path (root : Value) (p : list string) (f : Mapping -> Mapping) :
  path_map (ensure_mapping_path root p f) p = f (path_map root p).
Proof.
  unfold ensure_mapping_path. rewrite path_update_path by apply coerce_mapping_is_mapping.
  rewrite path_map_coerce. reflexivity.
Qed.

Lemma is_mapping_map_untagged (f : Mapping -> Mapping) (v : Value) :
  is_mapping v = true -> is_mapping (map_untagged f v) = true.
Proof.
  unfold is_mapping, as_mapping. induction v; cbn; try discriminate; auto.
Qed.

Lemma is_mapping_ensure_mapping_path (root : Value) (p : list string) (f : Mapping -> Mapping) :
  is_mapping (ensure_mapping_path root p f) = true.
Proof.
  unfold ensure_mapping_path. destruct p; cbn [update_path];
    apply is_mapping_map_untagged, coerce_mapping_is_mapping.
Qed.

(** [set_bool_field]: whatever [root] holds (a scalar, a sequence, a
    mapping whose intermediate keys are missing or hold scalars), the
    result is a mapping, reading [key] at [path_keys] gives [value], and
    every other key of that mapping reads as before. *)
Theorem set_bool_field_get (root : Value) (path_keys : list string) (key : string) (value : bool) :
  let root' := set_bool_field root path_keys key value in
  is_mapping root' = true /\
  get_at root' path_keys key = Some (VBool value) /\
  (forall k, k <> key -> get_at root' path_keys k = get_at root path_keys k).
Proof.
  cbv zeta. unfold set_bool_field, get_at.
  rewrite path_ensure_mapping_path.
  split; [apply is_mapping_ensure_mapping_path|].
  split; [apply mget_minsert_same|].
  intros k Hne. apply mget_minsert_other. exact Hne.
Qed.

(** The [set_default_*_field] helpers: the key at [path_keys] keeps the
    value it had and gets [value] only when it was absent; every other
    key of that mapping reads as before. *)
Theorem set_default_field_get (root : Value) (path_keys : list string) (key : string) (value : Value) :
  let root' := set_default_field root path_keys key value in
  is_mapping root' = true /\
  get_at root' path_keys key = Some (default_to (get_at root path_keys key) value) /\
  (forall k, k <> key -> get_at root' path_keys k = get_at root path_keys k).
Proof.
  cbv zeta. unfold set_default_field, get_at.
  rewrite path_ensure_mapping_path.
  split; [apply is_mapping_ensure_mapping_path|].
  split; [apply mget_default_same|].
  intros k Hne. apply mget_default_other. exact Hne.
Qed.

(** [u16_field] on an integer: [Some] exactly for the values in
    [0..=65535]; a negative or larger number reads as absent rather
    than being truncated. *)
Theorem u16_field_int (root : Value) (key : string) (z : Z) :
  key_value root key = Some (VInt z) ->
  u16_field (Some root) key =
  if ((0 <=? z) && (z <? 65536))%Z then Some (Z.to_N z) else None.
Proof.
  intros H. unfold u16_field. rewrite H. unfold as_i64. cbn [untag].
  destruct ((- 2 ^ 63 <=? z) && (z <? 2 ^ 63))%Z eqn:E; [reflexivity|].
  cbn. destruct (0 <=? z)%Z eqn:E1; [|reflexivity].
  destruct (z <? 65536)%Z eqn:E2; [|reflexivity].
  apply Z.leb_le in E1. apply Z.ltb_lt in E2.
  exfalso. apply andb_false_iff in E as [E|E].
  - apply Z.leb_gt in E. lia.
  - apply Z.ltb_ge in E. lia.
Qed.

Lemma u16_field_int_witness :
  u16_field (Some (VMap [(VStr "redir-port", VInt 70000)])) "redir-port" = None.
Proof. exact (u16_field_int (VMap [(VStr "redir-port", VInt 70000)]) "redir-port" 70000 eq_refl). Defined.


(* ================================================================= *)
(** ** The ports the iptables chain lets through *)

Ltac in_solve :=
  intros p; cbn [In]; split; intros H;
  repeat match goal with H : _ \/ _ |- _ => destruct H as [H|H] end;
  subst; auto 6; contradiction.

(** [bypass_ports]: the list [7890, 7891, 9090, redir_port] sorted with
    its duplicates removed: strictly increasing, and holding exactly
    those four ports. *)
Theorem bypass_ports_spec (redir_port : N) :
  let l := bypass_ports redir_port in
  StronglySorted N.lt l /\
  (forall p, In p l <-> p = 7890%N \/ p = 7891%N \/ p = 9090%N \/ p = redir_port).
Proof.
  cbv zeta. unfold bypass_ports. cbn [insert_sorted].
  destruct (N.leb_spec redir_port 7890) as [L1|L1];
  [| destruct (N.leb_spec redir_port 7891) as [L2|L2];
     [| destruct (N.leb_spec redir_port 9090) as [L3|L3]]].
  - cbn [dedup]. destruct (N.eqb_spec redir_port 7890) as [->|N1].
    + cbn. split.
      * repeat constructor; repeat (constructor; [lia|]); constructor.
      * in_solve.
    + cbn. split.
      * repeat constructor; repeat (constructor; [lia|]); try constructor; lia.
      * in_solve.
  - cbn [dedup]. destruct (N.eqb_spec 7890 redir_port) as [E|_]; [lia|].
    destruct (N.eqb_spec redir_port 7891) as [->|N1].
    + cbn. split.
      * repeat constructor; repeat (constructor; [lia|]); constructor.
      * in_solve.
    + cbn. split.
      * repeat constructor; repeat (constructor; [lia|]); try constructor; lia.
      * in_solve.
  - cbn [dedup]. destruct (N.eqb_spec 7890 7891) as [E|_]; [lia|].
    destruct (N.eqb_spec 7891 redir_port) as [E|_]; [lia|].
    destruct (N.eqb_spec redir_port 9090) as [->|N1].
    + cbn. split.
      * repeat constructor; repeat (constructor; [lia|]); constructor.
      * in_solve.
    + cbn. split.
      * repeat constructor; repeat (constructor; [lia|]); try constructor; lia.
      * in_solve.
  - cbn [dedup]. destruct (N.eqb_spec 7890 7891) as [E|_]; [lia|].
    destruct (N.eqb_spec 7891 9090) as [E|_]; [lia|].
    destruct (N.eqb_spec 9090 redir_port) as [E|_]; [lia|]. cbn. split.
    * repeat constructor; repeat (constructor; [lia|]); try constructor; lia.
    * in_solve.
Qed.

(* ================================================================= *)
(** ** Unit names *)

Lemma string_length_append (s t : string) :
  String.length (s ++ t) = String.length s + String.length t.
Proof. induction s as [|c s IH]; cbn; [reflexivity|rewrite IH; reflexivity]. Qed.

Lemma substring_all (t : string) : substring 0 (String.length t) t = t.
Proof. induction t as [|c t IH]; cbn; [reflexivity|rewrite IH; reflexivity]. Qed.

Lemma substring_append_right (s t : string) :
  substring (String.length s) (String.length t) (s ++ t) = t.
Proof. induction s as [|c s IH]; cbn; [apply substring_all|exact IH]. Qed.

Lemma ends_with_append (s suffix : string) : ends_with (s ++ suffix) suffix = true.
Proof.
  unfold ends_with. rewrite string_length_append.
  replace (String.length s + String.length suffix - String.length suffix) with (String.length s) by lia.
  rewrite substring_append_right, String.eqb_refl, andb_true_r.
  apply Nat.leb_le. lia.
Qed.

(** [normalize_unit_name]: the unit handed to [systemctl] always ends in
    [.service], a name that already does is kept as it is, and
    normalizing twice is normalizing once. *)
Theorem normalize_unit_name_spec (name : string) :
  ends_with (normalize_unit_name name) ".service" = true /\
  (ends_with name ".service" = true -> normalize_unit_name name = name) /\
  normalize_unit_name (normalize_unit_name name) = normalize_unit_name name.
Proof.
  unfold normalize_unit_name.
  destruct (ends_with name ".service") eqn:E.
  - rewrite E. auto.
  - rewrite ends_with_append. split; [reflexivity|]. split; [discriminate|reflexivity].
Qed.

(* ================================================================= *)
(** ** The checks of [doctor] against the commands *)

Local Open Scope string_scope.

Lemma check_backend_eq (w : World) :
  check_backend w =
  (Ok (if tool_present w "nft" then pass "防火墙后端" "检测到 nft，可优先使用 nftables"
       else if tool_present w "iptables" then
         warn "防火墙后端" "未检测到 nft，回退使用 iptables" "建议安装 nftables，后续 tun 规则管理更稳"
       else fail "防火墙后端" "未检测到 nft/iptables" "请安装 nftables 或 iptables"), w).
Proof.
  unfold check_backend, bind. rewrite command_exists_eq. cbv beta iota.
  destruct (tool_present w "nft"); [reflexivity|].
  rewrite command_exists_eq. destruct (tool_present w "iptables"); reflexivity.
Qed.

Lemma select_rule_backend_eq (w : World) :
  select_rule_backend w =
  ((if tool_present w "nft" then Ok Nft
    else if tool_present w "iptables" then Ok Iptables
    else Err ["未检测到 nft/iptables，无法下发 tun 数据面规则"]), w).
Proof.
  unfold select_rule_backend, bind. rewrite command_exists_eq. cbv beta iota.
  destruct (tool_present w "nft"); [reflexivity|].
  rewrite command_exists_eq. destruct (tool_present w "iptables"); reflexivity.
Qed.

(** The backend check of [doctor] and the backend choice of [on] probe
    the same tools: the check passes exactly when [on] would pick nft,
    warns exactly when it would fall back to iptables, and fails exactly
    when [on] cannot pick a backend. Neither changes the system. *)
Theorem check_backend_select (w : World) :
  snd (check_backend w) = w /\ snd (select_rule_backend w) = w /\
  exists item, fst (check_backend w) = Ok item /\
    (level item = CPass <-> fst (select_rule_backend w) = Ok Nft) /\
    (level item = CWarn <-> fst (select_rule_backend w) = Ok Iptables) /\
    (level item = CFail <-> exists e, fst (select_rule_backend w) = Err e).
Proof.
  rewrite check_backend_eq, select_rule_backend_eq. cbn [fst snd].
  split; [reflexivity|]. split; [reflexivity|]. eexists. split; [reflexivity|].
  destruct (tool_present w "nft"); [|destruct (tool_present w "iptables")]; cbn;
    repeat split; intros H; first [ reflexivity | discriminate H | destruct H as [e H]; discriminate H | eauto ].
Qed.

(** The capability checks of [doctor] read the same bit as
    [has_capability_bit]: a check passes when the bit is set, fails when
    the mask is readable and the bit is clear, and only warns when the
    mask cannot be read. When both the [CAP_NET_ADMIN] and the
    [CAP_NET_RAW] checks pass, the privilege check of [on] and [off]
    grants, whatever [id -u] says. *)
Theorem check_capability_privileges (status id_out : option rstr) (bit : N) (cap_name sugg : string) :
  (level (check_capability status bit cap_name sugg) = CPass <-> has_capability_bit status bit = Ok true) /\
  (level (check_capability status bit cap_name sugg) = CFail <-> has_capability_bit status bit = Ok false) /\
  (level (check_capability status bit cap_name sugg) = CWarn <-> exists e, read_cap_eff status = Err e) /\
  (level (check_capability status CAP_NET_ADMIN_BIT "CAP_NET_ADMIN" sugg) = CPass ->
   level (check_capability status CAP_NET_RAW_BIT "CAP_NET_RAW" sugg) = CPass ->
   ensure_tun_privileges id_out status = Ok tt).
Proof.
  unfold check_capability, has_capability_bit.
  split; [|split; [|split]];
    [ destruct (read_cap_eff status); [destruct (negb _)|]; cbn;
      split; intros H; first [ reflexivity | discriminate H | destruct H as [e H]; discriminate H | eauto ] .. | ].
  - unfold ensure_tun_privileges, has_capability_bit.
    destruct (read_cap_eff status); [|cbn; intros H; discriminate H].
    destruct (negb (N.land n (N.shiftl 1 CAP_NET_ADMIN_BIT) =? 0)%N);
      destruct (negb (N.land n (N.shiftl 1 CAP_NET_RAW_BIT) =? 0)%N); cbn;
      intros H1 H2; try discriminate H1; try discriminate H2.
    rewrite orb_true_r. reflexivity.
Qed.

Local Close Scope string_scope.

Local Open Scope string_scope.

Ltac not_fail_items :=
  repeat match goal with
  | |- context [is_fail ?X] =>
      let H := fresh "Hnf" in
      assert (H : is_fail X = false)
        by (repeat first
              [ reflexivity
              | progress cbn
              | match goal with |- context [match ?o with _ => _ end] => destruct o end
              | match goal with |- context [if ?b then _ else _] => destruct b end ]);
      rewrite H; clear H
  end.

Lemma config_report_facts (root : Value) :
  let tun := key_value root "tun" in
  let tun_enable := opt_unwrap_or (bool_field tun "enable") false in
  let auto_redirect := opt_unwrap_or (bool_field tun "auto-redirect") false in
  let auto_route_on := match bool_field tun "auto-route" with Some true => true | _ => false end in
  List.length (fst (fst (config_report root))) = 8 /\
  snd (fst (config_report root)) = tun_enable /\
  snd (config_report root) = auto_redirect /\
  existsb is_fail (fst (fst (config_report root))) =
    negb tun_enable || (auto_redirect && negb auto_route_on).
Proof.
  cbv zeta. unfold config_report. cbv zeta. cbn [fst snd List.length].
  split; [reflexivity|]. split; [reflexivity|]. split; [reflexivity|].
  cbn [existsb]. not_fail_items.
  destruct (opt_unwrap_or (bool_field (key_value root "tun") "enable") false);
    destruct (opt_unwrap_or (bool_field (key_value root "tun") "auto-redirect") false);
    destruct (bool_field (key_value root "tun") "auto-route") as [[|]|]; reflexivity.
Qed.


(** [check_config] on a loaded config: eight items, and an item fails
    exactly when [tun.enable] is not [true], or when [tun.auto-redirect]
    is [true] while [tun.auto-route] is not [true]; every other finding
    is at most a warning. The two flags it returns are [tun.enable] and
    [tun.auto-redirect] read with [false] as default. *)
Theorem config_report_spec (root : Value) :
  let tun := key_value root "tun" in
  let tun_enable := opt_unwrap_or (bool_field tun "enable") false in
  let auto_redirect := opt_unwrap_or (bool_field tun "auto-redirect") false in
  let auto_route_on := match bool_field tun "auto-route" with Some true => true | _ => false end in
  List.length (fst (fst (config_report root))) = 8 /\
  snd (fst (config_report root)) = tun_enable /\
  snd (config_report root) = auto_redirect /\
  existsb is_fail (fst (fst (config_report root))) =
    negb tun_enable || (auto_redirect && negb auto_route_on).
Proof. apply config_report_facts. Qed.

Local Close Scope string_scope.

Local Open Scope string_scope.

Lemma bool_field_get_at (v : Value) (a k : string) :
  bool_field (key_value v a) k = match get_at v [a] k with Some y => as_bool y | None => None end.
Proof.
  unfold get_at. cbn [path_map]. unfold key_value, mapping_or_empty.
  destruct (as_mapping v) as [m|]; cbn [mget].
  - destruct (mget m a) as [c|]; cbn; [|reflexivity].
    unfold key_value. destruct (as_mapping c); reflexivity.
  - reflexivity.
Qed.

Lemma on_mutate_tun_fields (root : Value) :
  let r := on_mutate root in
  get_at r ["tun"] "enable" = Some (VBool true) /\
  get_at r ["tun"] "auto-route" = Some (default_to (get_at root ["tun"] "auto-route") (VBool true)) /\
  get_at r ["tun"] "auto-redirect" = Some (default_to (get_at root ["tun"] "auto-redirect") (VBool true)).
Proof.
  cbv zeta. unfold get_at, on_mutate, set_bool_field, set_default_bool_field,
    set_default_string_field, set_default_u16_field, set_default_field.
  repeat split; repeat config_step; reflexivity.
Qed.

(** [doctor] after [on]: on the config as [on] leaves it, the config
    section of [doctor] reports [tun.enable] as set, and it has a failing
    item exactly when the resulting [tun.auto-redirect] is [true] while
    [tun.auto-route] is not [true] (for instance when the user had
    [auto-route: false], which [on] keeps). *)
Theorem on_mutate_config_report (root : Value) :
  let root' := on_mutate root in
  let auto_redirect := opt_unwrap_or (as_bool (default_to (get_at root ["tun"] "auto-redirect") (VBool true))) false in
  let auto_route_on :=
    match as_bool (default_to (get_at root ["tun"] "auto-route") (VBool true)) with
    | Some true => true | _ => false end in
  snd (fst (config_report root')) = true /\
  snd (config_report root') = auto_redirect /\
  existsb is_fail (fst (fst (config_report root'))) = auto_redirect && negb auto_route_on.
Proof.
  cbv zeta. destruct (config_report_facts (on_mutate root)) as (_ & H1 & H2 & H3).
  cbv zeta in H1, H2, H3. rewrite !bool_field_get_at in H1, H2, H3.
  destruct (on_mutate_tun_fields root) as (E1 & E2 & E3).
  rewrite (bool_field_get_at (on_mutate root) "tun" "auto-redirect"),
    (bool_field_get_at (on_mutate root) "tun" "auto-route") in H3.
  rewrite E1, E2, E3 in *. cbn [as_bool untag opt_unwrap_or negb orb] in H1, H2, H3.
  split; [exact H1|]. split; [exact H2|exact H3].
Qed.


Lemma should_auto_delegate_eq (env : Env) (w : World) :
  should_auto_delegate_to_sudo env w =
  (Ok (negb (json_mode env) && negb (no_auto_sudo env)
       && negb (match sudo_reexec env with Some v => String.eqb v "1" | None => false end)
       && stdin_tty env && stderr_tty env && tool_present w "sudo"), w).
Proof.
  unfold should_auto_delegate_to_sudo.
  destruct (json_mode env), (no_auto_sudo env); try reflexivity.
  destruct (match sudo_reexec env with Some v => String.eqb v "1" | None => false end); [reflexivity|].
  destruct (stdin_tty env), (stderr_tty env); try reflexivity.
  apply command_exists_eq.
Qed.

Lemma run_sudo_eq (args : list string) (w : World) :
  run_sudo args w =
  match fst (exec w "sudo" args) with
  | NotFound => (Err ["启动 sudo 失败"], w)
  | Exited b => (Ok b, w)
  end.
Proof.
  unfold run_sudo, exec. destruct (negb (installed w "sudo")); [reflexivity|].
  destruct (faulty w "sudo" args); reflexivity.
Qed.

Lemma ensure_tun_privileges_err (id_out status : option rstr) :
  ensure_tun_privileges id_out status <> Ok tt ->
  ensure_tun_privileges id_out status = Err [PRIVILEGE_ERROR].
Proof.
  unfold ensure_tun_privileges.
  destruct (_ || _); [intros H; exfalso; apply H; reflexivity | reflexivity].
Qed.

Lemma is_ok_unit (r : result unit) : is_ok r = true <-> r = Ok tt.
Proof. destruct r as [[]|e]; cbn; split; intros H; easy. Qed.

Local Open Scope string_scope.

(** [ensure_tun_privileges_or_delegate], used by [tun on] and [tun off]:
    it answers [PCOk] exactly when the process already has the privileges
    [ensure_tun_privileges] asks for. It answers [Delegated] only when
    those privileges are missing, the run is interactive (no [--json], no
    [CLASH_CLI_NO_AUTO_SUDO], not already a re-execution, both standard
    input and standard error are terminals), the current executable is
    known and [sudo] ran the re-execution command, which starts with
    [env CLASH_CLI_SUDO_REEXEC=1] and ends with [tun <action> --name
    <name>], successfully. When it does not delegate and the privileges are
    missing, it fails with the privilege error. *)
Theorem tun_privileges_or_delegate_outcome (env : Env) (id_out status : option rstr)
    (action : TunAction) (name : string) (user no_restart : bool) (w : World) :
  let r := fst (ensure_tun_privileges_or_delegate env id_out status action name user no_restart w) in
  (r = Ok PCOk <-> ensure_tun_privileges id_out status = Ok tt) /\
  (r = Ok Delegated ->
     ensure_tun_privileges id_out status <> Ok tt /\
     json_mode env = false /\ no_auto_sudo env = false /\ sudo_reexec env <> Some "1" /\
     stdin_tty env = true /\ stderr_tty env = true /\
     exists cmd, build_sudo_reexec_command env = Ok cmd /\
       firstn 2 cmd = ["env"; "CLASH_CLI_SUDO_REEXEC=1"] /\
       fst (exec w "sudo"
              (app cmd (app ["tun"; as_cli_str action; "--name"; name]
                          (app (if user then ["--user"] else [])
                               (if no_restart then ["--no-restart"] else []))))) = Exited true) /\
  (fst (should_auto_delegate_to_sudo env w) = Ok false ->
   ensure_tun_privileges id_out status <> Ok tt ->
   r = Err [PRIVILEGE_ERROR]).
Proof.
  cbv zeta. unfold ensure_tun_privileges_or_delegate.
  destruct (is_ok (ensure_tun_privileges id_out status)) eqn:Hp.
  { apply is_ok_unit in Hp. rewrite Hp. cbn. split; [tauto|].
    split; [intros H; discriminate H | intros _ H; exfalso; apply H; reflexivity]. }
  assert (Hn : ensure_tun_privileges id_out status <> Ok tt)
    by (intros E; apply is_ok_unit in E; congruence).
  pose proof (ensure_tun_privileges_err _ _ Hn) as He.
  unfold bind. rewrite !should_auto_delegate_eq. rewrite He. cbn [fst].
  destruct (json_mode env) eqn:Ej; cbn [negb andb].
  { cbn. split; [split; [intros H; discriminate H | intros H; discriminate H]|].
    split; [intros H; discriminate H | reflexivity]. }
  destruct (no_auto_sudo env) eqn:Ea; cbn [negb andb].
  { cbn. split; [split; [intros H; discriminate H | intros H; discriminate H]|].
    split; [intros H; discriminate H | reflexivity]. }
  destruct (match sudo_reexec env with Some v => String.eqb v "1" | None => false end) eqn:Er;
    cbn [negb andb].
  { cbn. split; [split; [intros H; discriminate H | intros H; discriminate H]|].
    split; [intros H; discriminate H | reflexivity]. }
  assert (Hr : sudo_reexec env <> Some "1")
    by (intros E; rewrite E in Er; discriminate Er).
  destruct (stdin_tty env) eqn:Ei, (stderr_tty env) eqn:Eo; cbn [negb andb];
    try (cbn; split; [split; [intros H; discriminate H | intros H; discriminate H]|];
         split; [intros H; discriminate H | reflexivity]).
  destruct (tool_present w "sudo") eqn:Es; cbn [negb].
  2:{ cbn. split; [split; [intros H; discriminate H | intros H; discriminate H]|].
      split; [intros H; discriminate H | reflexivity]. }
  split; [|split].
  3:{ cbn. intros H; discriminate H. }
  all: unfold context, run_tun_apply_with_sudo, bind.
  all: destruct (build_sudo_reexec_command env) as [cmd|e] eqn:Eb.
  all: try solve [cbn; first [split; intros H; discriminate H | intros H; discriminate H]].
  all: rewrite run_sudo_eq; destruct (fst (exec w "sudo" _)) as [|b] eqn:Ex.
  all: try solve [cbn; first [split; intros H; discriminate H | intros H; discriminate H]].
  all: destruct b.
  all: try solve [cbn; first [split; intros H; discriminate H | intros H; discriminate H]].
  cbn. intros _. repeat split; try assumption; try reflexivity; try (intros H; discriminate H).
  exists cmd. split; [reflexivity|]. split; [|exact Ex].
  unfold build_sudo_reexec_command in Eb. destruct (current_exe env); [|discriminate Eb].
  injection Eb as <-. reflexivity.
Qed.

(** [ensure_tun_doctor_privileges_or_delegate], used by [tun doctor]:
    unlike [on] and [off], missing privileges never make it fail by
    themselves. It answers [PCOk] exactly when the privileges are there or
    [should_auto_delegate_to_sudo] declines to delegate, so that [doctor]
    then runs its checks unprivileged. It answers [Delegated] only when the
    privileges are missing, the run is interactive, and [sudo] ran [env
    CLASH_CLI_SUDO_REEXEC=1 ... tun doctor] successfully. *)
Theorem tun_doctor_privileges_or_delegate_outcome (env : Env) (id_out status : option rstr)
    (w : World) :
  let r := fst (ensure_tun_doctor_privileges_or_delegate env id_out status w) in
  (r = Ok PCOk <->
     ensure_tun_privileges id_out status = Ok tt \/ fst (should_auto_delegate_to_sudo env w) = Ok false) /\
  (r = Ok Delegated ->
     ensure_tun_privileges id_out status <> Ok tt /\
     json_mode env = false /\ no_auto_sudo env = false /\ sudo_reexec env <> Some "1" /\
     stdin_tty env = true /\ stderr_tty env = true /\
     exists cmd, build_sudo_reexec_command env = Ok cmd /\
       firstn 2 cmd = ["env"; "CLASH_CLI_SUDO_REEXEC=1"] /\
       fst (exec w "sudo" (app cmd ["tun"; "doctor"])) = Exited true).
Proof.
  cbv zeta. unfold ensure_tun_doctor_privileges_or_delegate.
  destruct (is_ok (ensure_tun_privileges id_out status)) eqn:Hp.
  { apply is_ok_unit in Hp. rewrite Hp. cbn. split; [tauto|]. intros H; discriminate H. }
  assert (Hn : ensure_tun_privileges id_out status <> Ok tt)
    by (intros E; apply is_ok_unit in E; congruence).
  unfold bind. rewrite !should_auto_delegate_eq. cbn [fst].
  destruct (json_mode env) eqn:Ej; cbn [negb andb].
  { cbn. split; [tauto | intros H; discriminate H]. }
  destruct (no_auto_sudo env) eqn:Ea; cbn [negb andb].
  { cbn. split; [tauto | intros H; discriminate H]. }
  destruct (match sudo_reexec env with Some v => String.eqb v "1" | None => false end) eqn:Er;
    cbn [negb andb].
  { cbn. split; [tauto | intros H; discriminate H]. }
  assert (Hr : sudo_reexec env <> Some "1")
    by (intros E; rewrite E in Er; discriminate Er).
  destruct (stdin_tty env) eqn:Ei, (stderr_tty env) eqn:Eo; cbn [negb andb];
    try (cbn; split; [tauto | intros H; discriminate H]).
  destruct (tool_present w "sudo") eqn:Es; cbn [negb].
  2:{ cbn. split; [tauto | intros H; discriminate H]. }
  unfold context, run_tun_doctor_with_sudo.
  destruct (build_sudo_reexec_command env) as [cmd|e] eqn:Eb.
  2:{ cbn. split; [split; [intros H; discriminate H | intros [H|H]; [contradiction|discriminate H]]|].
      intros H; discriminate H. }
  rewrite run_sudo_eq; destruct (fst (exec w "sudo" _)) as [|b] eqn:Ex.
  { cbn. split; [split; [intros H; discriminate H | intros [H|H]; [contradiction|discriminate H]]|].
    intros H; discriminate H. }
  destruct b.
  2:{ cbn. split; [split; [intros H; discriminate H | intros [H|H]; [contradiction|discriminate H]]|].
      intros H; discriminate H. }
  cbn. split; [split; [intros H; discriminate H | intros [H|H]; [contradiction|discriminate H]]|].
  intros _. repeat split; try assumption; try reflexivity.
  exists cmd. split; [reflexivity|]. split; [|exact Ex].
  unfold build_sudo_reexec_command in Eb. destruct (current_exe env); [|discriminate Eb].
  injection Eb as <-. reflexivity.
Qed.

Lemma with_nft_table_twice (w : World) (a b : bool) :
  with_nft_table (with_nft_table w a) b = with_nft_table w b.
Proof. reflexivity. Qed.

Lemma exec_nft_delete (w : World) :
  installed w "nft" = true ->
  exec w "nft" ["delete"; "table"; "inet"; NFT_TABLE_NAME] =
  if faulty w "nft" ["delete"; "table"; "inet"; NFT_TABLE_NAME] then (Exited false, w)
  else if nft_table w then (Exited true, with_nft_table w false) else (Exited false, w).
Proof.
  intros Hi. unfold exec. rewrite Hi. cbn [negb].
  destruct (faulty w "nft" _); [reflexivity|]. reflexivity.
Qed.

Lemma exec_nft_load (w : World) :
  installed w "nft" = true ->
  exec w "nft" ["-f"; "-"] =
  if faulty w "nft" ["-f"; "-"] then (Exited false, w) else (Exited true, with_nft_table w true).
Proof.
  intros Hi. unfold exec. rewrite Hi. cbn [negb].
  destruct (faulty w "nft" _); [reflexivity|]. reflexivity.
Qed.

Lemma apply_nft_rules_eq (p : N) (w : World) :
  apply_nft_rules p w =
  if negb (tool_present w "nft") then (Err ["未检测到 nft 命令"], w)
  else
    let w1 := if nft_table w && negb (faulty w "nft" ["delete"; "table"; "inet"; NFT_TABLE_NAME])
              then with_nft_table w false else w in
    if faulty w "nft" ["-f"; "-"] then (Err ["命令执行失败"], w1)
    else if faulty w "nft" ["list"; "table"; "inet"; NFT_TABLE_NAME]
    then (Err ["nft 规则下发后校验失败"], with_nft_table w true)
    else (Ok tt, with_nft_table w true).
Proof.
  unfold apply_nft_rules, bind at 1. rewrite command_exists_eq.
  destruct (tool_present w "nft") eqn:Ep; [|reflexivity]. cbn [negb].
  assert (Hi : installed w "nft" = true)
    by (unfold tool_present in Ep; destruct (installed w "nft"); easy).
  unfold bind, ignore, run_cmd, run_cmd_with_stdin. cbv beta.
  rewrite exec_nft_delete by exact Hi. cbv zeta.
  destruct (faulty w "nft" ["delete"; "table"; "inet"; NFT_TABLE_NAME]) eqn:Ed,
           (nft_table w) eqn:Et; cbn [negb andb snd];
    rewrite exec_nft_load by exact Hi;
    change (faulty (with_nft_table w false)) with (faulty w);
    (destruct (faulty w "nft" ["-f"; "-"]) eqn:Ef; [reflexivity|]);
    cbn [snd]; rewrite nft_rules_active_eq;
    change (tool_present (with_nft_table ?x true)) with (tool_present w);
    change (faulty (with_nft_table ?x true)) with (faulty w);
    rewrite Ep; cbn;
    destruct (faulty w "nft" ["list"; "table"; "inet"; NFT_TABLE_NAME]); reflexivity.
Qed.

(** [apply_nft_rules]: it succeeds exactly when [nft] is present and
    neither loading the script ([nft -f -]) nor the verification ([nft list
    table inet clash_cli_tun]) fails; a missing old table does not matter,
    since the failure of the preliminary delete is ignored. On success the
    table is installed and nothing else of the world changed, and a later
    [cleanup_nft_rules] removes it again (when the delete itself does not
    fail), giving back the world with no table. Once the load succeeded
    the table stays installed, even when the verification then fails. *)
Theorem apply_nft_rules_spec (p : N) (w : World) :
  (fst (apply_nft_rules p w) = Ok tt <->
     tool_present w "nft" = true /\ faulty w "nft" ["-f"; "-"] = false /\
     faulty w "nft" ["list"; "table"; "inet"; NFT_TABLE_NAME] = false) /\
  (fst (apply_nft_rules p w) = Ok tt ->
     snd (apply_nft_rules p w) = with_nft_table w true /\
     fst (nft_rules_active (snd (apply_nft_rules p w))) = Ok true /\
     (faulty w "nft" ["delete"; "table"; "inet"; NFT_TABLE_NAME] = false ->
      cleanup_nft_rules (snd (apply_nft_rules p w)) = (Ok tt, with_nft_table w false))) /\
  (tool_present w "nft" = true -> faulty w "nft" ["-f"; "-"] = false ->
     nft_table (snd (apply_nft_rules p w)) = true).
Proof.
  rewrite apply_nft_rules_eq. cbv zeta.
  destruct (tool_present w "nft") eqn:Ep; cbn [negb].
  2:{ split; [split; [intros H; discriminate H | intros (H & _); discriminate H]|].
      split; [intros H; discriminate H | intros H; discriminate H]. }
  destruct (faulty w "nft" ["-f"; "-"]) eqn:Ef.
  { split; [split; [intros H; discriminate H | intros (_ & H & _); discriminate H]|].
    split; [intros H; discriminate H | intros _ H; discriminate H]. }
  destruct (faulty w "nft" ["list"; "table"; "inet"; NFT_TABLE_NAME]) eqn:El.
  { split; [split; [intros H; discriminate H | intros (_ & _ & H); discriminate H]|].
    split; [intros H; discriminate H | reflexivity]. }
  split; [tauto|]. split; [|reflexivity]. intros _. cbn [snd]. split; [reflexivity|].
  rewrite nft_rules_active_eq. cbn [fst].
  change (tool_present (with_nft_table w true)) with (tool_present w).
  change (faulty (with_nft_table w true)) with (faulty w).
  rewrite Ep, El. split; [reflexivity|].
  intros Ed. rewrite cleanup_nft_rules_eq.
  change (tool_present (with_nft_table w true)) with (tool_present w).
  change (faulty (with_nft_table w true)) with (faulty w).
  rewrite Ep, El, Ed. reflexivity.
Qed.

Lemma exec_iptables_N (w : World) (b : string) :
  exec_iptables w b ["-t"; "nat"; "-N"; IPT_CHAIN_NAME] =
  match chain (ipt_of w b) with
  | None => (Exited true, with_ipt w b (set_chain (ipt_of w b) (Some [])))
  | Some _ => (Exited false, w)
  end.
Proof. reflexivity. Qed.

Lemma exec_iptables_append (w : World) (b : string) (rest : list string) :
  exec_iptables w b ("-t" :: "nat" :: "-A" :: IPT_CHAIN_NAME :: rest) =
  match chain (ipt_of w b) with
  | Some rules => (Exited true, with_ipt w b (set_chain (ipt_of w b) (Some (app rules [rest]))))
  | None => (Exited false, w)
  end.
Proof. reflexivity. Qed.

Lemma exec_iptables_A (w : World) (b hook : string) (nro : bool) (k : JumpKind) :
  In (hook, nro, k) jump_table ->
  exec_iptables w b (jump_rule "-A" hook nro) =
  match chain (ipt_of w b) with
  | Some _ => (Exited true, with_ipt w b (set_jumps (ipt_of w b) k (S (jumps (ipt_of w b) k))))
  | None => (Exited false, w)
  end.
Proof.
  intros Hin; destruct Hin as [H|[H|[H|[]]]]; injection H as <- <- <-; reflexivity.
Qed.

Section FaultFree.
Variable b : string.
Hypothesis Hb : b = "iptables" \/ b = "ip6tables".

Lemma run_all_append (g : string -> list string) (xs : list string) (w : World)
    (rules : list (list string)) :
  installed w b = true -> (forall a, faulty w b a = false) ->
  chain (ipt_of w b) = Some rules ->
  run_all (fun x => run_cmd b ("-t" :: "nat" :: "-A" :: IPT_CHAIN_NAME :: g x)) xs w =
  (Ok tt, with_ipt w b (set_chain (ipt_of w b) (Some (app rules (map g xs))))).
Proof.
  revert w rules. induction xs as [|x xs IH]; intros w rules Hi Hf Hc.
  - cbn. rewrite app_nil_r, <- Hc. destruct (ipt_of w b) eqn:Et.
    unfold set_chain. cbn. rewrite <- Et, with_ipt_id. reflexivity.
  - cbn [run_all]. unfold bind at 1, run_cmd at 1.
    rewrite (exec_ipt _ _ _ Hb), Hi, Hf, exec_iptables_append, Hc. cbv beta iota.
    rewrite (IH _ (app rules [g x])).
    + rewrite ipt_of_with_ipt, with_ipt_with_ipt, <- app_assoc. reflexivity.
    + exact Hi.
    + exact Hf.
    + rewrite ipt_of_with_ipt. reflexivity.
Qed.

Lemma ensure_iptables_jump_ok (w : World) (hook : string) (nro : bool) (k : JumpKind) :
  In (hook, nro, k) jump_table ->
  installed w b = true -> (forall a, faulty w b a = false) -> chain (ipt_of w b) <> None ->
  ensure_iptables_jump b hook nro w =
  (Ok tt, with_ipt w b (set_jumps (ipt_of w b) k (Nat.max 1 (jumps (ipt_of w b) k)))).
Proof.
  intros Hin Hi Hf Hc. unfold ensure_iptables_jump, bind, check_cmd_success.
  rewrite (exec_ipt _ _ _ Hb), Hi, Hf, (exec_iptables_C _ _ _ _ _ Hin).
  destruct (jumps (ipt_of w b) k) as [|n] eqn:Ej; cbn [Nat.ltb Nat.leb negb].
  - unfold run_cmd. rewrite (exec_ipt _ _ _ Hb), Hi, Hf, (exec_iptables_A _ _ _ _ _ Hin), Ej.
    destruct (chain (ipt_of w b)); [reflexivity | exfalso; apply Hc; reflexivity].
  - change (Nat.max 1 (S n)) with (S n). rewrite <- Ej, set_jumps_id, with_ipt_id. reflexivity.
Qed.

End FaultFree.

Lemma set_chain_set_chain (t : IptState) (c1 c2 : option (list (list string))) :
  set_chain (set_chain t c1) c2 = set_chain t c2.
Proof. reflexivity. Qed.

Lemma configure_iptables_binary_eq (b : string) (p : N) (opt : bool) (w : World) :
  b = "iptables" \/ b = "ip6tables" -> installed w b = true -> (forall a, faulty w b a = false) ->
  configure_iptables_binary b p opt w =
  (Ok tt, with_ipt w b
     {| chain := Some (app (map (fun cidr => ["-d"; cidr; "-j"; "RETURN"])
                              (if String.eqb b "ip6tables" then private_ipv6 else private_ipv4))
                         (app (map (fun s => ["-p"; "tcp"; "--dport"; s; "-j"; "RETURN"])
                                 (map show_port (bypass_ports p)))
                              [["-p"; "tcp"; "-j"; "REDIRECT"; "--to-ports"; show_port p]]));
        pre_jumps := Nat.max 1 (pre_jumps (ipt_of w b));
        out_owner_jumps := Nat.max 1 (out_owner_jumps (ipt_of w b));
        out_jumps := out_jumps (ipt_of w b) |}).
Proof.
  intros Hb Hi Hf.
  unfold configure_iptables_binary, bind at 1. rewrite command_exists_eq.
  assert (Hp : tool_present w b = true) by (unfold tool_present; rewrite Hi, !Hf; reflexivity).
  rewrite Hp. cbn [negb].
  assert (H2 : forall w2, w2 = with_ipt w b (set_chain (ipt_of w b) (Some [])) ->
     (run_all (fun cidr => run_cmd b ["-t"; "nat"; "-A"; IPT_CHAIN_NAME; "-d"; cidr; "-j"; "RETURN"])
        (if String.eqb b "ip6tables" then private_ipv6 else private_ipv4) ;;;
      run_all (fun p => run_cmd b ["-t"; "nat"; "-A"; IPT_CHAIN_NAME; "-p"; "tcp"; "--dport"; p; "-j"; "RETURN"])
        (map show_port (bypass_ports p)) ;;;
      run_cmd b ["-t"; "nat"; "-A"; IPT_CHAIN_NAME; "-p"; "tcp"; "-j"; "REDIRECT"; "--to-ports"; show_port p] ;;;
      ensure_iptables_jump b "PREROUTING" false ;;;
      ensure_iptables_jump b "OUTPUT" true) w2 =
     (Ok tt, with_ipt w b
     {| chain := Some (app (map (fun cidr => ["-d"; cidr; "-j"; "RETURN"])
                              (if String.eqb b "ip6tables" then private_ipv6 else private_ipv4))
                         (app (map (fun s => ["-p"; "tcp"; "--dport"; s; "-j"; "RETURN"])
                                 (map show_port (bypass_ports p)))
                              [["-p"; "tcp"; "-j"; "REDIRECT"; "--to-ports"; show_port p]]));
        pre_jumps := Nat.max 1 (pre_jumps (ipt_of w b));
        out_owner_jumps := Nat.max 1 (out_owner_jumps (ipt_of w b));
        out_jumps := out_jumps (ipt_of w b) |})).
  { intros w2 ->. unfold bind at 1.
    rewrite (run_all_append b Hb (fun cidr => ["-d"; cidr; "-j"; "RETURN"]) _ _ [])
      by (rewrite ?installed_with_ipt, ?faulty_with_ipt, ?ipt_of_with_ipt; auto).
    rewrite ipt_of_with_ipt, with_ipt_with_ipt, set_chain_set_chain. cbv beta iota.
    unfold bind at 1.
    rewrite (run_all_append b Hb (fun s => ["-p"; "tcp"; "--dport"; s; "-j"; "RETURN"]) _ _
               (map (fun cidr => ["-d"; cidr; "-j"; "RETURN"])
                  (if String.eqb b "ip6tables" then private_ipv6 else private_ipv4)))
      by (rewrite ?installed_with_ipt, ?faulty_with_ipt, ?ipt_of_with_ipt; auto).
    rewrite ipt_of_with_ipt, with_ipt_with_ipt, set_chain_set_chain. cbv beta iota.
    unfold bind at 1, run_cmd at 1.
    rewrite (exec_ipt _ _ _ Hb), installed_with_ipt, faulty_with_ipt, Hi, Hf.
    rewrite exec_iptables_append, ipt_of_with_ipt. cbn [chain set_chain].
    rewrite with_ipt_with_ipt, set_chain_set_chain. cbv beta iota.
    unfold bind at 1.
    rewrite (ensure_iptables_jump_ok b Hb _ "PREROUTING" false JPre)
      by (rewrite ?installed_with_ipt, ?faulty_with_ipt, ?ipt_of_with_ipt; cbn; auto; discriminate).
    rewrite ipt_of_with_ipt, with_ipt_with_ipt. cbv beta iota.
    rewrite (ensure_iptables_jump_ok b Hb _ "OUTPUT" true JOutOwner)
      by (rewrite ?installed_with_ipt, ?faulty_with_ipt, ?ipt_of_with_ipt; cbn; auto; discriminate).
    rewrite ipt_of_with_ipt, with_ipt_with_ipt, <- !app_assoc. reflexivity. }
  assert (HN : snd (run_cmd b ["-t"; "nat"; "-N"; IPT_CHAIN_NAME] w) =
               match chain (ipt_of w b) with
               | None => with_ipt w b (set_chain (ipt_of w b) (Some []))
               | Some _ => w
               end).
  { unfold run_cmd. rewrite (exec_ipt _ _ _ Hb), Hi, Hf, exec_iptables_N.
    destruct (chain (ipt_of w b)); reflexivity. }
  unfold bind at 1, ignore. rewrite HN. cbv beta.
  destruct (chain (ipt_of w b)) as [c|] eqn:Ec.
  - unfold bind at 1, run_cmd at 1. cbv beta.
    rewrite (exec_ipt _ _ _ Hb), Hi, Hf, exec_iptables_F, Ec. cbv beta iota.
    apply H2. reflexivity.
  - unfold bind at 1, run_cmd at 1. cbv beta.
    rewrite (exec_ipt _ _ _ Hb), installed_with_ipt, faulty_with_ipt, Hi, Hf, exec_iptables_F,
      ipt_of_with_ipt. cbn [chain set_chain]. cbv beta iota.
    apply H2. rewrite with_ipt_with_ipt, set_chain_set_chain. reflexivity.
Qed.

Lemma configure_iptables_binary_configured (b : string) (p : N) (opt : bool) (w : World) :
  b = "iptables" \/ b = "ip6tables" -> installed w b = true -> (forall a, faulty w b a = false) ->
  configure_iptables_binary b p opt w = (Ok tt, with_ipt w b (ipt_configured b p (ipt_of w b))).
Proof. apply configure_iptables_binary_eq. Qed.

Lemma ipt_configured_idem (b : string) (p : N) (t : IptState) :
  ipt_configured b p (ipt_configured b p t) = ipt_configured b p t.
Proof.
  unfold ipt_configured; cbn [pre_jumps out_owner_jumps out_jumps].
  destruct (pre_jumps t), (out_owner_jumps t); reflexivity.
Qed.

Lemma ltb_0_max_1 (n : nat) : Nat.ltb 0 (Nat.max 1 n) = true.
Proof. destruct n; reflexivity. Qed.

Lemma apply_iptables_rules_eq (p : N) (w : World) :
  installed w "iptables" = true -> (forall a, faulty w "iptables" a = false) ->
  (forall a, faulty w "ip6tables" a = false) ->
  apply_iptables_rules p w =
  (Ok tt, with_ipt (with_ipt w "iptables" (ipt_configured "iptables" p (ipt4 w))) "ip6tables"
            (if installed w "ip6tables" then ipt_configured "ip6tables" p (ipt6 w) else ipt6 w)).
Proof.
  intros Hi Hf Hf6.
  unfold apply_iptables_rules, bind at 1. rewrite command_exists_eq.
  assert (Hp : tool_present w "iptables" = true)
    by (unfold tool_present; rewrite Hi, !Hf; reflexivity).
  rewrite Hp. cbn [negb]. unfold bind at 1.
  rewrite configure_iptables_binary_configured by (auto; left; reflexivity).
  change (ipt_of w "iptables") with (ipt4 w). cbv beta iota.
  set (w1 := with_ipt w "iptables" (ipt_configured "iptables" p (ipt4 w))).
  unfold bind at 1.
  destruct (installed w "ip6tables") eqn:E6.
  - rewrite configure_iptables_binary_configured by (auto; right; reflexivity).
    change (ipt_of w1 "ip6tables") with (ipt6 w). cbv beta iota.
    unfold bind. rewrite iptables_rules_active_eq. cbv zeta.
    set (w2 := with_ipt w1 "ip6tables" (ipt_configured "ip6tables" p (ipt6 w))).
    change (tool_present w2 "iptables") with (tool_present w "iptables").
    change (faulty w2 "iptables") with (faulty w "iptables").
    change (ipt_of w2 "iptables") with (ipt_configured "iptables" p (ipt4 w)).
    rewrite Hp, !Hf. cbn [ipt_configured pre_jumps negb andb orb].
    rewrite ltb_0_max_1. reflexivity.
  - unfold configure_iptables_binary, bind at 1. rewrite command_exists_eq.
    change (tool_present w1 "ip6tables") with (tool_present w "ip6tables").
    unfold tool_present at 1. rewrite E6. cbn [andb negb]. cbv beta iota delta [ret].
    unfold bind. rewrite iptables_rules_active_eq. cbv zeta.
    change (tool_present w1 "iptables") with (tool_present w "iptables").
    change (faulty w1 "iptables") with (faulty w "iptables").
    change (ipt_of w1 "iptables") with (ipt_configured "iptables" p (ipt4 w)).
    rewrite Hp, !Hf. cbn [ipt_configured pre_jumps negb andb orb].
    rewrite ltb_0_max_1. cbv beta iota delta [ret].
    f_equal. subst w1. destruct w; reflexivity.
Qed.

Lemma ipt_cleanup_configured (b : string) (p : N) (fl : list string -> bool) (t : IptState) :
  (forall a, fl a = false) ->
  pre_jumps t <= 8 -> out_owner_jumps t <= 8 -> out_jumps t <= 8 ->
  ipt_cleanup fl (ipt_configured b p t) = (Ok tt, ipt_empty).
Proof.
  intros Hf B1 B2 B3. unfold ipt_cleanup, jump_cleanup_effect, chain_flush, chain_delete.
  rewrite !Hf. cbn [ipt_configured pre_jumps out_owner_jumps out_jumps chain].
  replace (Nat.max 1 (pre_jumps t) - 8) with 0 by lia.
  replace (Nat.max 1 (out_owner_jumps t) - 8) with 0 by lia.
  replace (out_jumps t - 8) with 0 by lia.
  reflexivity.
Qed.

(** [configure_iptables_binary] on a host where none of the invocations
    of [binary] fails: it rebuilds the tool's chain from scratch (whatever
    it held before is flushed) with the private-range returns, the
    bypass-port returns and the redirect, and adds the PREROUTING and
    owner-matched OUTPUT jumps only when they are missing, so it never
    duplicates a jump. *)
Theorem configure_iptables_binary_fault_free (b : string) (p : N) (opt : bool) (w : World) :
  b = "iptables" \/ b = "ip6tables" -> installed w b = true -> (forall a, faulty w b a = false) ->
  configure_iptables_binary b p opt w =
  (Ok tt, with_ipt w b
     {| chain := Some (app (map (fun cidr => ["-d"; cidr; "-j"; "RETURN"])
                              (if String.eqb b "ip6tables" then private_ipv6 else private_ipv4))
                         (app (map (fun s => ["-p"; "tcp"; "--dport"; s; "-j"; "RETURN"])
                                 (map show_port (bypass_ports p)))
                              [["-p"; "tcp"; "-j"; "REDIRECT"; "--to-ports"; show_port p]]));
        pre_jumps := Nat.max 1 (pre_jumps (ipt_of w b));
        out_owner_jumps := Nat.max 1 (out_owner_jumps (ipt_of w b));
        out_jumps := out_jumps (ipt_of w b) |}).
Proof. apply configure_iptables_binary_eq. Qed.

Lemma configure_iptables_binary_fault_free_witness :
  fst (configure_iptables_binary "iptables" 7892 false (world0 ["iptables"])) = Ok tt /\
  pre_jumps (ipt4 (snd (configure_iptables_binary "iptables" 7892 false (world0 ["iptables"])))) = 1%nat.
Proof.
  rewrite (configure_iptables_binary_fault_free "iptables" 7892 false (world0 ["iptables"])
             (or_introl eq_refl) eq_refl (fun a => eq_refl)).
  split; reflexivity.
Defined.


(** [apply_iptables_rules] on a host with [iptables] where no
    invocation of [iptables] or [ip6tables] fails: it succeeds, configures
    the IPv4 table and, when [ip6tables] is installed, the IPv6 table;
    running it again changes nothing; and a [cleanup_iptables_rules]
    afterwards leaves both tables with no chain and no jump, provided
    each jump was present at most eight times before. *)
Theorem apply_iptables_rules_fault_free (p : N) (w : World) :
  installed w "iptables" = true -> (forall a, faulty w "iptables" a = false) ->
  (forall a, faulty w "ip6tables" a = false) ->
  let w1 := with_ipt (with_ipt w "iptables" (ipt_configured "iptables" p (ipt4 w))) "ip6tables"
              (if installed w "ip6tables" then ipt_configured "ip6tables" p (ipt6 w) else ipt6 w) in
  apply_iptables_rules p w = (Ok tt, w1) /\
  apply_iptables_rules p w1 = (Ok tt, w1) /\
  (pre_jumps (ipt4 w) <= 8 -> out_owner_jumps (ipt4 w) <= 8 -> out_jumps (ipt4 w) <= 8 ->
   pre_jumps (ipt6 w) <= 8 -> out_owner_jumps (ipt6 w) <= 8 -> out_jumps (ipt6 w) <= 8 ->
   cleanup_iptables_rules w1 =
   (Ok tt, with_ipt (with_ipt w "iptables" ipt_empty) "ip6tables"
             (if installed w "ip6tables" then ipt_empty else ipt6 w))).
Proof.
  intros Hi Hf Hf6. cbv zeta.
  split; [apply apply_iptables_rules_eq; assumption|]. split.
  - rewrite apply_iptables_rules_eq by (cbn; assumption).
    change (installed (with_ipt (with_ipt w "iptables" (ipt_configured "iptables" p (ipt4 w)))
              "ip6tables" (if installed w "ip6tables" then ipt_configured "ip6tables" p (ipt6 w)
                           else ipt6 w)) "ip6tables") with (installed w "ip6tables").
    cbn [ipt4 ipt6 with_ipt String.eqb Ascii.eqb Bool.eqb andb].
    destruct (installed w "ip6tables"); rewrite ?ipt_configured_idem; destruct w; reflexivity.
  - intros A1 A2 A3 B1 B2 B3.
    rewrite cleanup_iptables_rules_eq.
    assert (Hp : tool_present w "iptables" = true)
      by (unfold tool_present; rewrite Hi, !Hf; reflexivity).
    change (tool_present (with_ipt (with_ipt w "iptables" (ipt_configured "iptables" p (ipt4 w)))
              "ip6tables" (if installed w "ip6tables" then ipt_configured "ip6tables" p (ipt6 w)
                           else ipt6 w))) with (tool_present w).
    change (faulty (with_ipt (with_ipt w "iptables" (ipt_configured "iptables" p (ipt4 w)))
              "ip6tables" (if installed w "ip6tables" then ipt_configured "ip6tables" p (ipt6 w)
                           else ipt6 w))) with (faulty w).
    rewrite Hp.
    cbn [ipt4 ipt6 with_ipt String.eqb Ascii.eqb Bool.eqb andb].
    rewrite (ipt_cleanup_configured "iptables" p _ _ Hf A1 A2 A3).
    unfold tool_present. destruct (installed w "ip6tables") eqn:E6.
    + rewrite !Hf6. cbn [andb negb orb].
      rewrite (ipt_cleanup_configured "ip6tables" p _ _ Hf6 B1 B2 B3).
      destruct w; reflexivity.
    + cbn [andb]. destruct w; reflexivity.
Qed.

Lemma apply_iptables_rules_fault_free_witness :
  fst (apply_iptables_rules 7892 (world0 ["iptables"; "ip6tables"])) = Ok tt.
Proof.
  rewrite (proj1 (apply_iptables_rules_fault_free 7892 (world0 ["iptables"; "ip6tables"])
                    eq_refl (fun a => eq_refl) (fun a => eq_refl))).
  reflexivity.
Defined.


Lemma exec_keeps_files (w : World) (p : string) (a : list string) :
  state_file (snd (exec w p a)) = state_file w /\ printed (snd (exec w p a)) = printed w.
Proof.
  unfold exec. destruct (negb (installed w p)); [split; reflexivity|].
  destruct (faulty w p a); [split; reflexivity|].
  destruct (String.eqb p "nft").
  { unfold exec_nft, ok_if.
    repeat match goal with |- context [if ?c then _ else _] => destruct c end;
      split; reflexivity. }
  destruct (String.eqb p "iptables" || String.eqb p "ip6tables").
  { unfold exec_iptables, ok_if.
    repeat match goal with
           | |- context [match ?c with _ => _ end] => destruct c
           end; split; reflexivity. }
  destruct (String.eqb p "systemctl"); [|split; reflexivity].
  unfold exec_systemctl, ok_if.
  repeat match goal with
         | |- context [match ?c with _ => _ end] => destruct c
         end; split; reflexivity.
Qed.

Lemma restart_keeps_files (name : string) (user : bool) (w : World) :
  state_file (snd (restart_service_best_effort name user w)) = state_file w /\
  printed (snd (restart_service_best_effort name user w)) = printed w.
Proof.
  unfold restart_service_best_effort, bind, catch, run_cmd.
  destruct (exec_keeps_files w "systemctl" (app (user_flag user) ["restart"; normalize_unit_name name]))
    as [E1 E2].
  destruct (exec w "systemctl" _) as [[|[|]] w'] eqn:Ex; cbn in *; split; assumption.
Qed.

Lemma exec_keeps_io (w : World) (p : string) (a : list string) :
  io_faults (snd (exec w p a)) = io_faults w.
Proof.
  unfold exec. destruct (negb (installed w p)); [reflexivity|].
  destruct (faulty w p a); [reflexivity|].
  destruct (String.eqb p "nft").
  { unfold exec_nft, ok_if.
    repeat match goal with |- context [if ?c then _ else _] => destruct c end; reflexivity. }
  destruct (String.eqb p "iptables" || String.eqb p "ip6tables").
  { unfold exec_iptables, ok_if.
    repeat match goal with
           | |- context [match ?c with _ => _ end] => destruct c
           end; reflexivity. }
  destruct (String.eqb p "systemctl"); [|reflexivity].
  unfold exec_systemctl, ok_if.
  repeat match goal with
         | |- context [match ?c with _ => _ end] => destruct c
         end; reflexivity.
Qed.

Lemma restart_keeps_io (name : string) (user : bool) (w : World) :
  io_faults (snd (restart_service_best_effort name user w)) = io_faults w.
Proof.
  unfold restart_service_best_effort, bind, catch, run_cmd.
  pose proof (exec_keeps_io w "systemctl" (app (user_flag user) ["restart"; normalize_unit_name name])) as E.
  destruct (exec w "systemctl" _) as [[|[|]] w'] eqn:Ex; cbn in *; assumption.
Qed.

Lemma parse_uint_lt (radix bits : N) (s : rstr) (v : N) :
  parse_uint radix bits s = Some v -> (v < 2 ^ bits)%N.
Proof.
  unfold parse_uint.
  destruct (match s with [] => None | _ => _ end) as [ds|]; [|discriminate].
  destruct (digits_value radix 0 ds) as [x|]; [|discriminate].
  destruct (N.ltb_spec x (2 ^ bits)); [|discriminate].
  intros Hv; injection Hv as <-; assumption.
Qed.

Lemma u16_field_lt (root : option Value) (key : string) (n : N) :
  u16_field root key = Some n -> (n < 2 ^ 16)%N.
Proof.
  unfold u16_field. destruct root as [v|]; [|discriminate].
  destruct (key_value v key) as [x|]; [|discriminate].
  destruct (as_i64 x) as [i|].
  - destruct ((0 <=? i) && (i <? 65536))%Z eqn:E; [|discriminate].
    intros H; injection H as <-. apply andb_true_iff in E as [E1 E2].
    apply Z.leb_le in E1. apply Z.ltb_lt in E2. cbn. lia.
  - destruct (value_as_str x) as [s|]; [|discriminate]. apply parse_uint_lt.
Qed.

Lemma redir_port_lt (root : Value) :
  (opt_unwrap_or (u16_field (Some root) "redir-port") DEFAULT_REDIR_PORT < 2 ^ 16)%N.
Proof.
  destruct (u16_field (Some root) "redir-port") as [n|] eqn:E; cbn [opt_unwrap_or].
  - exact (u16_field_lt _ _ _ E).
  - reflexivity.
Qed.

(** [cmd_off] once its cleanup step succeeded, when [tun.state] can be
    written (its directory created and the file written): the call
    succeeds, and the state file it leaves records a disabled TUN mode
    with no rules applied and no backend, the given service name and
    scope, the [redir-port] read from the config (7892 when it is missing
    or not a valid port) and the current time; the state is written after
    the cleanup and survives the service restart, and [--json] prints the
    [off] report with that port. When the service name is one the state
    file can carry (no newline, no leading or trailing whitespace), the
    clock fits a [u64] and the file can be read, reading it back gives
    exactly this state. *)
Theorem cmd_off_state_written (yaml_from_str : rstr -> option Value)
    (yaml_to_string : Value -> option rstr) (json : bool) (name : string) (user no_restart : bool)
    (prelude : M PrivilegeCheck) (w w1 w2 w3 w4 : World) (root : Value)
    (previous_state : option TunState)
    (Hpre : prelude w = (Ok PCOk, w1))
    (Hload : load_or_init_config yaml_from_str w1 = (Ok root, w2))
    (Hstate : read_tun_state w2 = (Ok previous_state, w2))
    (Hsave : save_config yaml_to_string (set_bool_field root ["tun"] "enable" false) w2 = (Ok tt, w3))
    (Hclean : off_cleanup previous_state w3 = (Ok tt, w4))
    (Hdir : io_fails w4 MkStateDir = false)
    (Hwrite : io_fails w4 WriteState = false) :
  let port := opt_unwrap_or (u16_field (Some root) "redir-port") DEFAULT_REDIR_PORT in
  let st := Build_TunState false (rs name) user BNone port false (clock w4) in
  let r := cmd_off yaml_from_str yaml_to_string json name user no_restart prelude w in
  fst r = Ok tt /\
  state_file (snd r) = Some (to_text st) /\
  (json = true -> hd_error (printed (snd r)) = Some (JOffOk port)) /\
  (service_name_ok (rs name) -> (clock w4 < 2 ^ 64)%N -> io_fails w4 ReadState = false ->
   fst (read_tun_state (snd r)) = Ok (Some st)).
Proof.
  cbv zeta.
  assert (Hr : cmd_off yaml_from_str yaml_to_string json name user no_restart prelude w =
     let port := opt_unwrap_or (u16_field (Some root) "redir-port") DEFAULT_REDIR_PORT in
     let w5 := with_state w4 (Some (to_text (Build_TunState false (rs name) user BNone port false
                                               (clock w4)))) in
     let w6 := if no_restart then w5 else snd (restart_service_best_effort name user w5) in
     (Ok tt, if json then with_print w6 (JOffOk port) else w6)).
  { unfold cmd_off, bind at 1; rewrite Hpre; cbv beta iota.
    unfold bind at 1; rewrite Hload; cbv beta iota.
    unfold bind at 1; rewrite Hstate; cbv beta iota zeta.
    unfold bind at 1; rewrite Hsave; cbv beta iota.
    unfold bind at 1, context at 1; cbv beta.
    rewrite Hclean; cbv beta iota.
    unfold bind at 1, now_unix. cbv beta iota.
    unfold bind at 1, write_tun_state at 1. rewrite Hdir, Hwrite. cbv beta iota.
    destruct no_restart.
    - destruct json; reflexivity.
    - unfold bind at 1, bind at 1.
      destruct (restart_service_best_effort name user _) as [[b|e] w6] eqn:Er.
      + cbv beta iota. destruct json; reflexivity.
      + exfalso. unfold restart_service_best_effort, bind, catch in Er.
        destruct (run_cmd _ _ _); discriminate Er. }
  rewrite Hr. cbv zeta. cbn [fst snd].
  set (port := opt_unwrap_or (u16_field (Some root) "redir-port") DEFAULT_REDIR_PORT).
  set (st := Build_TunState false (rs name) user BNone port false (clock w4)).
  set (w6 := if no_restart then with_state w4 (Some (to_text st))
             else snd (restart_service_best_effort name user (with_state w4 (Some (to_text st))))).
  assert (Hsf : state_file w6 = Some (to_text st)).
  { subst w6. destruct no_restart; [reflexivity|]. rewrite (proj1 (restart_keeps_files _ _ _)). reflexivity. }
  assert (Hio : io_faults w6 = io_faults w4).
  { subst w6. destruct no_restart; [reflexivity|]. rewrite restart_keeps_io. reflexivity. }
  split; [destruct json; reflexivity|].
  split; [destruct json; exact Hsf|].
  split; [intros ->; reflexivity|].
  intros Hn Hc Hrd.
  assert (Hrd6 : io_fails w6 ReadState = false) by (unfold io_fails; rewrite Hio; exact Hrd).
  unfold read_tun_state.
  destruct json; cbn [snd];
    [change (state_file (with_print w6 ?j)) with (state_file w6);
     change (io_fails (with_print w6 ?j)) with (io_fails w6)|];
    rewrite Hsf, Hrd6; rewrite from_text_to_text; try reflexivity;
    try exact Hn; (split; [apply redir_port_lt | exact Hc]).
Qed.

Lemma cmd_off_state_written_witness :
  fst (cmd_off example_from_str example_to_string true "clash" false true
         (ret PCOk) off_stale_world) = Ok tt.
Proof.
  pose (w2 := snd (load_or_init_config example_from_str off_stale_world)).
  pose (ps := Some (Build_TunState true (rs "clash") false BNone 7892 false 0)).
  pose (w3 := snd (save_config example_to_string (set_bool_field (VMap []) ["tun"] "enable" false) w2)).
  pose (w4 := snd (off_cleanup ps w3)).
  refine (proj1 (cmd_off_state_written example_from_str example_to_string true "clash" false true
            (ret PCOk) off_stale_world off_stale_world w2 w3 w4 (VMap []) ps eq_refl _ _ _ _ _ _)).
  all: vm_compute; reflexivity.
Defined.


Lemma apply_dataplane_rules_backend (pb : RuleBackend) (port : N) (w w' : World) (b : RuleBackend) :
  pb <> BNone -> apply_dataplane_rules pb port w = (Ok b, w') -> b <> BNone.
Proof.
  intros Hpb. destruct pb; [| |contradiction].
  - unfold apply_dataplane_rules, bind, catch.
    destruct (apply_nft_rules port w) as [[[]|e] w1]; cbv beta iota.
    + intros H; injection H as <- _; discriminate.
    + rewrite command_exists_eq. destruct (tool_present w1 "iptables"); cbv beta iota.
      * unfold context. destruct (apply_iptables_rules port w1) as [[[]|e'] w2]; cbv beta iota.
        -- intros H; injection H as <- _; discriminate.
        -- intros H; discriminate H.
      * intros H; discriminate H.
  - unfold apply_dataplane_rules, bind.
    destruct (apply_iptables_rules port w) as [[[]|e] w1]; cbv beta iota.
    + intros H; injection H as <- _; discriminate.
    + intros H; discriminate H.
Qed.

Lemma select_rule_backend_some (w w' : World) (pb : RuleBackend) :
  select_rule_backend w = (Ok pb, w') -> pb <> BNone.
Proof.
  rewrite select_rule_backend_eq.
  destruct (tool_present w "nft"); [intros H; injection H as <- _; discriminate|].
  destruct (tool_present w "iptables"); [intros H; injection H as <- _; discriminate|].
  intros H; discriminate H.
Qed.

Lemma on_tail_eq (json : bool) (name : string) (user no_restart : bool) (backend : RuleBackend)
    (port : N) (ra : bool) (w : World) :
  io_fails w MkStateDir = false -> io_fails w WriteState = false ->
  let st := Build_TunState true (rs name) user backend port ra (clock w) in
  let tail : M unit :=
    now <- now_unix ;;
    write_tun_state (Build_TunState true (rs name) user backend port ra now) ;;;
    _ <- (if no_restart then ret None
          else b <- restart_service_best_effort name user ;; ret (Some b)) ;;
    if json then print_json (JOnOk backend port ra) else ret tt in
  fst (tail w) = Ok tt /\ state_file (snd (tail w)) = Some (to_text st) /\
  (json = true -> hd_error (printed (snd (tail w))) = Some (JOnOk backend port ra)).
Proof.
  intros Hd Hw. cbv zeta. unfold bind, now_unix, write_tun_state, ret, print_json. cbv beta iota.
  rewrite Hd, Hw. cbv beta iota.
  destruct no_restart.
  - destruct json; cbn [fst snd state_file printed with_print with_state hd_error];
      (split; [reflexivity|]); (split; [reflexivity|]); [reflexivity | intros H; discriminate H].
  - match goal with |- context [restart_service_best_effort name user ?x] =>
      destruct (restart_keeps_files name user x) as [E1 _];
      destruct (restart_service_best_effort name user x) as [[b|e] w6] eqn:Er
    end.
    + cbv beta iota. cbn [snd] in E1.
      destruct json; cbn [fst snd state_file printed with_print hd_error];
        (split; [reflexivity|]); (split; [exact E1|]); [reflexivity | intros H; discriminate H].
    + exfalso. unfold restart_service_best_effort, bind, catch in Er.
      destruct (run_cmd _ _ _); discriminate Er.
Qed.

(** [cmd_on] once the edited config is saved, when [tun.state] can be
    written (its directory created and the file written) in the world
    reached before the state is written. With [auto-redirect] resolved to
    [false], it cannot fail any more: the cleanup of old rules is best
    effort, and the state file records an enabled TUN mode with no rules
    applied and no backend. With [auto-redirect] [true] and the rule
    application succeeding, the state file records [rules_applied] and the
    backend that was actually used, which is [nft] or [iptables], never
    none, and [--json] prints the [on] report with that backend. In both
    cases the port recorded is the config's [redir-port] (7892 by
    default) and the time is the clock when the state is written. *)
Theorem cmd_on_state_written (yaml_from_str : rstr -> option Value)
    (yaml_to_string : Value -> option rstr) (json : bool) (name : string) (user no_restart : bool)
    (prelude : M PrivilegeCheck) (w w1 w2 w2' : World) (original_root : Value)
    (Hpre : prelude w = (Ok PCOk, w1))
    (Hdev : dev_net_tun w1 = true)
    (Hload : load_or_init_config yaml_from_str w1 = (Ok original_root, w2))
    (Hsave : save_config yaml_to_string (on_mutate original_root) w2 = (Ok tt, w2')) :
  let root := on_mutate original_root in
  let auto_redirect := opt_unwrap_or (bool_field (key_value root "tun") "auto-redirect") false in
  let port := opt_unwrap_or (u16_field (Some root) "redir-port") DEFAULT_REDIR_PORT in
  let r := cmd_on yaml_from_str yaml_to_string json name user no_restart prelude w in
  (forall w4,
   auto_redirect = false ->
   cleanup_dataplane_rules_all_best_effort w2' = (Ok tt, w4) ->
   io_fails w4 MkStateDir = false -> io_fails w4 WriteState = false ->
   fst r = Ok tt /\
   state_file (snd r) = Some (to_text (Build_TunState true (rs name) user BNone port false (clock w4)))) /\
  (forall pb w3 b w4,
   auto_redirect = true ->
   select_rule_backend w2' = (Ok pb, w3) ->
   apply_dataplane_rules pb port w3 = (Ok b, w4) ->
   io_fails w4 MkStateDir = false -> io_fails w4 WriteState = false ->
   b <> BNone /\ fst r = Ok tt /\
   state_file (snd r) = Some (to_text (Build_TunState true (rs name) user b port true (clock w4))) /\
   (json = true -> hd_error (printed (snd r)) = Some (JOnOk b port true))).
Proof.
  cbv zeta.
  assert (Hhead :
    cmd_on yaml_from_str yaml_to_string json name user no_restart prelude w =
    (outcome <-
        (if opt_unwrap_or (bool_field (key_value (on_mutate original_root) "tun") "auto-redirect") false
         then
           preferred_backend <- select_rule_backend ;;
           r <- catch (apply_dataplane_rules preferred_backend
                  (opt_unwrap_or (u16_field (Some (on_mutate original_root)) "redir-port")
                     DEFAULT_REDIR_PORT)) ;;
           match r with
           | Ok actual_backend => ret (Some (actual_backend, true))
           | Err e =>
               save_config yaml_to_string original_root ;;;
               (if json then print_json (JOnFailed (err_to_string e) true) ;;; ret None
                else bail "tun 开启失败")
           end
         else cleanup_dataplane_rules_all_best_effort ;;; ret (Some (BNone, false))) ;;
      match outcome with
      | None => ret tt
      | Some (backend, rules_applied) =>
          now <- now_unix ;;
          write_tun_state (Build_TunState true (rs name) user backend
             (opt_unwrap_or (u16_field (Some (on_mutate original_root)) "redir-port")
                DEFAULT_REDIR_PORT) rules_applied now) ;;;
          _ <- (if no_restart then ret None
                else b <- restart_service_best_effort name user ;; ret (Some b)) ;;
          if json then print_json (JOnOk backend
             (opt_unwrap_or (u16_field (Some (on_mutate original_root)) "redir-port")
                DEFAULT_REDIR_PORT) rules_applied) else ret tt
      end) w2').
  { unfold cmd_on, bind at 1. rewrite Hpre. cbv beta iota.
    unfold bind at 1, device_exists. cbv beta iota. rewrite Hdev. cbv beta iota delta [negb].
    unfold bind at 1. rewrite Hload. cbv beta iota zeta.
    unfold bind at 1. rewrite Hsave. cbv beta iota. reflexivity. }
  split.
  - intros w4 Ha Hc Hd Hw.
    destruct (on_tail_eq json name user no_restart BNone
                (opt_unwrap_or (u16_field (Some (on_mutate original_root)) "redir-port")
                   DEFAULT_REDIR_PORT) false w4 Hd Hw) as (T1 & T2 & _).
    cbv zeta in T1, T2.
    match type of T1 with fst (?t w4) = _ =>
      assert (Hr : cmd_on yaml_from_str yaml_to_string json name user no_restart prelude w = t w4)
    end.
    { rewrite Hhead, Ha. unfold bind at 1, bind at 1. cbv beta. rewrite Hc.
      cbv beta iota delta [ret]. reflexivity. }
    rewrite Hr. split; [exact T1|exact T2].
  - intros pb w3 b w4 Ha Hs Hap Hd Hw.
    destruct (on_tail_eq json name user no_restart b
                (opt_unwrap_or (u16_field (Some (on_mutate original_root)) "redir-port")
                   DEFAULT_REDIR_PORT) true w4 Hd Hw) as (T1 & T2 & T3).
    cbv zeta in T1, T2, T3.
    match type of T1 with fst (?t w4) = _ =>
      assert (Hr : cmd_on yaml_from_str yaml_to_string json name user no_restart prelude w = t w4)
    end.
    { rewrite Hhead, Ha. unfold bind at 1, bind at 1. rewrite Hs. cbv beta iota.
      unfold bind at 1, catch at 1. rewrite Hap. cbv beta iota delta [ret].
      reflexivity. }
    rewrite Hr.
    split; [exact (apply_dataplane_rules_backend _ _ _ _ _ (select_rule_backend_some _ _ _ Hs) Hap)|].
    split; [exact T1|]. split; [exact T2|exact T3].
Qed.

Lemma cmd_on_state_written_witness :
  fst (cmd_on example_from_str example_to_string true "clash" false true
         (ret PCOk) (world0 ["nft"; "systemctl"])) = Ok tt.
Proof.
  pose (W := world0 ["nft"; "systemctl"]).
  pose (w2 := snd (load_or_init_config example_from_str W)).
  pose (w2' := snd (save_config example_to_string (on_mutate (VMap [])) w2)).
  pose (w3 := snd (select_rule_backend w2')).
  pose (w4 := snd (apply_dataplane_rules Nft 7892 w3)).
  destruct (cmd_on_state_written example_from_str example_to_string true "clash" false true
              (ret PCOk) W W w2 w2' (VMap []) eq_refl eq_refl ltac:(vm_compute; reflexivity)
              ltac:(vm_compute; reflexivity)) as [_ H2].
  refine (proj1 (proj2 (H2 Nft w3 Nft w4 _ _ _ _ _))).
  all: vm_compute; reflexivity.
Defined.


(** [cmd_status] fails exactly when a config file is present but cannot
    be read or parsed, or when a state file is present but cannot be read
    or is malformed (with the error of [TunState::from_text]), even though
    nothing it reports is taken from the state file; a missing config, a
    missing state file, missing firewall tools or a missing or failing
    [systemctl] never make it fail. *)
Theorem cmd_status_result (yaml_from_str : rstr -> option Value) (json : bool) (name : string)
    (user : bool) (w : World) :
  fst (cmd_status yaml_from_str json name user w) =
  match fst (status_config yaml_from_str w) with
  | Err e => Err e
  | Ok _ =>
      match state_file w with
      | Some content =>
          if io_fails w ReadState then Err ["读取 tun 状态失败"]
          else match from_text content with Err e => Err e | Ok _ => Ok tt end
      | None => Ok tt
      end
  end.
Proof.
  unfold cmd_status, bind at 1. rewrite status_config_eq. cbn [fst].
  destruct (match config_file w with None => _ | Some _ => _ end) as [root|e]; [|reflexivity].
  cbv beta iota zeta.
  unfold bind at 1, device_exists. cbv beta iota.
  unfold bind at 1. rewrite command_exists_eq. cbv beta iota.
  unfold bind at 1.
  destruct (tool_present w "nft");
    [cbv beta iota delta [ret] | rewrite command_exists_eq; cbv beta iota].
  all: unfold bind at 1; rewrite detect_active_rule_backend_eq; cbv beta iota.
  all: unfold bind at 1, catch at 1; rewrite query_service_active_eq; cbv beta iota.
  all: unfold bind at 1, read_tun_state.
  all: destruct (state_file w) as [c|];
         [destruct (io_fails w ReadState); [|destruct (from_text c) as [st|e]]|]; cbv beta iota.
  all: destruct json; reflexivity.
Qed.

Lemma is_fail_check_capability (status : option rstr) (bit : N) (cap_name sugg : string) :
  is_fail (check_capability status bit cap_name sugg) =
  match has_capability_bit status bit with Ok b => negb b | Err _ => false end.
Proof.
  unfold check_capability, has_capability_bit.
  destruct (read_cap_eff status) as [mask|e]; [|reflexivity].
  destruct (negb (N.land mask (N.shiftl 1 bit) =? 0)%N); reflexivity.
Qed.

Lemma is_fail_sysctl (content : result rstr) (name : string) (expected : rstr) (sugg : string) :
  is_fail (check_sysctl_value content name expected sugg) = false.
Proof.
  unfold check_sysctl_value. destruct content; [|reflexivity].
  destruct (rstr_eqb _ _); reflexivity.
Qed.

Lemma is_fail_rp_filter (content : result rstr) : is_fail (check_rp_filter content) = false.
Proof.
  unfold check_rp_filter. destruct content; [|reflexivity].
  destruct (_ || _); reflexivity.
Qed.

Lemma check_config_eq (yaml_from_str : rstr -> option Value) (path : string) (w : World) :
  exists items tun_enable auto_redirect,
    check_config yaml_from_str path w = (Ok (items, tun_enable, auto_redirect), w) /\
    existsb is_fail items =
      match config_file w with
      | None => false
      | Some c =>
          if io_fails w ReadConfig then true else
          match yaml_from_str c with
          | None => true
          | Some root =>
              let root' := if is_mapping root then root else VMap [] in
              let tun := key_value root' "tun" in
              negb (opt_unwrap_or (bool_field tun "enable") false) ||
              (opt_unwrap_or (bool_field tun "auto-redirect") false &&
               negb (match bool_field tun "auto-route" with Some true => true | _ => false end))
          end
      end.
Proof.
  unfold check_config, bind, config_exists. cbv beta iota.
  destruct (config_file w) as [c|] eqn:Ec; cbv beta iota delta [is_some negb ret].
  2:{ eexists _, _, _. split; reflexivity. }
  unfold catch, load_existing_config. rewrite Ec. cbv beta iota.
  destruct (io_fails w ReadConfig); cbv beta iota; [eexists _, _, _; split; reflexivity|].
  destruct (yaml_from_str c) as [root|]; cbv beta iota.
  - destruct (config_report_facts (if is_mapping root then root else VMap [])) as (_ & _ & _ & F).
    destruct (config_report (if is_mapping root then root else VMap [])) as [[items te] ar].
    eexists _, _, _. split; [reflexivity|]. exact F.
  - eexists _, _, _. split; reflexivity.
Qed.

(** The checks of [doctor] never change the host, and one of them fails
    exactly when [/dev/net/tun] is missing, when a readable [CapEff] lacks
    [CAP_NET_ADMIN] or [CAP_NET_RAW] (an unreadable one only warns), when
    neither [nft] nor [iptables] is available, or when the config file
    exists and either cannot be read, does not parse, or has [tun.enable] not [true] or
    [tun.auto-redirect] [true] without [tun.auto-route] [true]. The sysctl
    checks and the check of the installed rules only ever pass or
    warn. *)
Theorem doctor_checks_fail (yaml_from_str : rstr -> option Value) (status : option rstr)
    (ip_forward rp_filter : result rstr) (path : string) (w : World) :
  let r := doctor_checks yaml_from_str status ip_forward rp_filter path w in
  snd r = w /\
  exists checks, fst r = Ok checks /\
  existsb is_fail checks =
    negb (dev_net_tun w)
    || match has_capability_bit status CAP_NET_ADMIN_BIT with Ok b => negb b | Err _ => false end
    || match has_capability_bit status CAP_NET_RAW_BIT with Ok b => negb b | Err _ => false end
    || negb (tool_present w "nft" || tool_present w "iptables")
    || match config_file w with
       | None => false
       | Some c =>
           if io_fails w ReadConfig then true else
           match yaml_from_str c with
           | None => true
           | Some root =>
               let root' := if is_mapping root then root else VMap [] in
               let tun := key_value root' "tun" in
               negb (opt_unwrap_or (bool_field tun "enable") false) ||
               (opt_unwrap_or (bool_field tun "auto-redirect") false &&
                negb (match bool_field tun "auto-route" with Some true => true | _ => false end))
           end
       end.
Proof.
  intros r. cut (exists checks, r = (Ok checks, w) /\
    existsb is_fail checks =
    negb (dev_net_tun w)
    || match has_capability_bit status CAP_NET_ADMIN_BIT with Ok b => negb b | Err _ => false end
    || match has_capability_bit status CAP_NET_RAW_BIT with Ok b => negb b | Err _ => false end
    || negb (tool_present w "nft" || tool_present w "iptables")
    || match config_file w with
       | None => false
       | Some c =>
           if io_fails w ReadConfig then true else
           match yaml_from_str c with
           | None => true
           | Some root =>
               let root' := if is_mapping root then root else VMap [] in
               let tun := key_value root' "tun" in
               negb (opt_unwrap_or (bool_field tun "enable") false) ||
               (opt_unwrap_or (bool_field tun "auto-redirect") false &&
                negb (match bool_field tun "auto-route" with Some true => true | _ => false end))
           end
       end).
  { intros (checks & Hr & E). rewrite Hr. split; [reflexivity|]. exists checks. split; [reflexivity|exact E]. }
  subst r.
  destruct (check_config_eq yaml_from_str path w) as (items & te & ar & Hc & Hf).
  unfold doctor_checks, bind at 1, check_tun_device. cbv beta iota zeta.
  unfold bind at 1. rewrite check_backend_eq. cbv beta iota.
  unfold bind at 1. rewrite Hc. cbv beta iota.
  assert (Hx : exists extra, (if te && ar then
              active_backend <- detect_active_rule_backend ;;
              ret [if RuleBackend_eqb active_backend BNone
                   then warn "数据面规则" "配置要求 auto-redirect，但当前未检测到本工具管理的规则"
                          "可执行 `clash tun on` 重新下发规则"
                   else pass "数据面规则"
                          ("检测到 " ++ string_of_rstr (as_str active_backend) ++ " 规则已存在")]
            else ret []) w = (Ok extra, w) /\ existsb is_fail extra = false).
  { destruct (te && ar).
    - unfold bind. rewrite detect_active_rule_backend_eq. cbv beta iota delta [ret].
      eexists. split; [reflexivity|]. cbn [existsb].
      destruct (RuleBackend_eqb _ BNone); reflexivity.
    - eexists. split; reflexivity. }
  destruct Hx as (extra & Hx & Hxf).
  unfold bind at 1. rewrite Hx. cbv beta iota delta [ret].
  eexists. split; [reflexivity|].
  rewrite existsb_app, existsb_app, Hf, Hxf. cbn [existsb].
  rewrite !is_fail_check_capability, is_fail_sysctl, is_fail_rp_filter.
  cbn [orb]. rewrite orb_false_r, <- !orb_assoc.
  destruct (dev_net_tun w), (tool_present w "nft"), (tool_present w "iptables").
    all: cbn [is_fail level fail pass warn negb orb]; rewrite ?orb_false_r; reflexivity.
Qed.

Lemma existsb_filter_negb {A} (f : A -> bool) (l : list A) :
  existsb f (filter (fun v => negb (f v)) l) = false.
Proof.
  induction l as [|a l IH]; [reflexivity|]. cbn [filter].
  destruct (f a) eqn:E; cbn [negb]; [exact IH|]. cbn [existsb]. rewrite E, IH. reflexivity.
Qed.

(** [restart_service_best_effort] followed by [query_service_active]:
    when [systemctl] is available and neither the restart nor the query
    fails for an outside reason, the restart reports success, and the
    query then reports the unit active, in the same scope ([--user] or
    system), exactly when its process does not exit right after it is
    started; a name given with or without the [.service] suffix
    designates the same unit. *)
Theorem restart_then_query_active (name name' : string) (user : bool) (w : World) :
  tool_present w "systemctl" = true ->
  faulty w "systemctl" (app (user_flag user) ["restart"; normalize_unit_name name]) = false ->
  faulty w "systemctl" (app (user_flag user) ["is-active"; "--quiet"; normalize_unit_name name]) = false ->
  normalize_unit_name name' = normalize_unit_name name ->
  fst (restart_service_best_effort name user w) = Ok true /\
  fst (query_service_active name' user (snd (restart_service_best_effort name user w))) =
  Ok (negb (existsb (fun v => Bool.eqb (fst v) user && String.eqb (snd v) (normalize_unit_name name))
              (crashing_units w))).
Proof.
  intros Hp Hr Hq Hn.
  assert (Hi : installed w "systemctl" = true) by (apply installed_of_present; exact Hp).
  set (u := normalize_unit_name name) in *.
  set (same := fun v : bool * string => Bool.eqb (fst v) user && String.eqb (snd v) u).
  set (w' := with_units w (if existsb same (crashing_units w)
                           then filter (fun v => negb (same v)) (active_units w)
                           else (user, u) :: active_units w)).
  assert (Hx : exec w "systemctl" (app (user_flag user) ["restart"; u]) = (Exited true, w')).
  { transitivity (Exited true, if existsb same (crashing_units w)
                  then with_units w (filter (fun v => negb (same v)) (active_units w))
                  else with_units w ((user, u) :: active_units w)).
    - unfold exec. rewrite Hi, Hr. cbn [negb]. destruct user; reflexivity.
    - subst w'. destruct (existsb same (crashing_units w)); reflexivity. }
  assert (Hrs : restart_service_best_effort name user w = (Ok true, w')).
  { unfold restart_service_best_effort, bind, catch, run_cmd. cbv beta.
    fold u. rewrite Hx. reflexivity. }
  rewrite Hrs. cbn [fst snd]. split; [reflexivity|].
  rewrite query_service_active_eq. cbv zeta. rewrite Hn. fold u.
  change (tool_present w') with (tool_present w).
  change (faulty w') with (faulty w).
  rewrite Hp, Hq. cbn [negb andb].
  change (existsb (fun v => Bool.eqb (fst v) user && String.eqb (snd v) u) (active_units w'))
    with (existsb same (if existsb same (crashing_units w)
                        then filter (fun v => negb (same v)) (active_units w)
                        else (user, u) :: active_units w)).
  destruct (existsb same (crashing_units w)); cbn [negb].
  - rewrite existsb_filter_negb. reflexivity.
  - cbn [existsb]. unfold same at 1. cbn [fst snd].
    rewrite Bool.eqb_reflx, String.eqb_refl. reflexivity.
Qed.

(** A unit whose process exits right after it is started: the restart
    succeeds, the query answers [false]. *)
Lemma restart_then_query_active_witness :
  let w := {| tools := ["systemctl"]; faults := [];
              nft_table := false; ipt4 := ipt_empty; ipt6 := ipt_empty;
              active_units := [(true, "clash.service")]; dev_net_tun := true;
              config_file := None; state_file := None; clock := 0; printed := [];
              io_faults := []; crashing_units := [(true, "clash.service")] |} in
  fst (restart_service_best_effort "clash" true w) = Ok true /\
  fst (query_service_active "clash.service" true (snd (restart_service_best_effort "clash" true w)))
  = Ok false.
Proof.
  intros w.
  exact (restart_then_query_active "clash" "clash.service" true w eq_refl eq_refl eq_refl eq_refl).
Defined.


Local Close Scope string_scope.
